(** * community-intel-cache: cache staleness, interval policy, finding
      extraction and the review ledger

    A shallow embedding of [src/cache.ts], [src/extract.ts], [src/write.ts]
    and [src/cli.ts] (argument parsing, the four commands and their
    dispatch), with the properties the specification states about them and
    further properties of the code: how the commands compose, what they
    keep, and what they do at the edges.

    Conventions of the embedding.
    - A JavaScript number that holds a count is a [nat]; one that holds a
      score, a number of days or a time value in milliseconds is a [Z].
      Fractional values and values beyond the exactly representable range
      are outside the model.
    - A string is a [string] of one-byte characters, so [String.length] is
      JavaScript's [.length] and the bytes hashed are the characters.
    - The cache directory is a record of its four files.  A JSON file is
      missing, unparsable, or holds a value of the TypeScript type it is
      read at; the two timestamps of the metadata are kept as raw JavaScript
      values, because the code converts them itself.
    - The clock is part of the state and stands still during one command;
      it is a time that [Date.now()] can return, so the Date of the run
      and the Date of the backoff deadline four hours later are valid.
      The deadline of a refresh depends on the configuration and can
      leave the range of Date; there the RangeError of the code is
      modelled.
    - What the engine does with a date text that ECMA-262 does not settle
      is part of the world a command runs in, so the properties hold for
      every engine. *)

From Stdlib Require Import ZArith QArith String Ascii List Lia Bool.
From stdpp Require Import base gmap strings list pretty.
Import ListNotations.
Open Scope Z_scope.

(** ** JavaScript values and operators *)

(** The values a JSON field can reach the code with, as far as the code
    distinguishes them. *)
Inductive JsVal : Type :=
| VUndefined
| VNull
| VString (s : string)
| VNumber (n : Z).

(** [a ?? b] on an optional field. *)
Definition nullish {A : Type} (o : option A) (d : A) : A :=
  match o with
  | Some a => a
  | None => d
  end.

(** [a ?? b] on a raw value: only [undefined] and [null] give way. *)
Definition nullish_val (v d : JsVal) : JsVal :=
  match v with
  | VUndefined | VNull => d
  | _ => v
  end.

(** Numbers that may be [NaN]: [None] is [NaN]. *)
Definition JsNum : Type := option Z.

(** [a - b]: [NaN] is contagious. *)
Definition js_sub (a b : JsNum) : JsNum :=
  match a, b with
  | Some x, Some y => Some (x - y)
  | _, _ => None
  end.

(** [a > b]: every comparison with [NaN] is false. *)
Definition js_gt (a b : JsNum) : bool :=
  match a, b with
  | Some x, Some y => y <? x
  | _, _ => false
  end.

(** [a < b] on exact rationals, used for [successCount < totalTopics / 2]. *)
Definition js_lt_q (a b : Q) : bool := negb (Qle_bool b a).

(** The errors that the code below can raise: the RangeError of
    [toISOString] on an invalid Date. *)
Inductive JsError : Type := RangeError_invalid_time.

(** How an evaluation ends: with a value, or by raising. *)
Inductive Completion (A : Type) : Type :=
| Done (a : A)
| Raised (error : JsError).

Arguments Done {A} a.
Arguments Raised {A} error.

(** ** SHA-256, the digest behind [sha256] of [@side-quest/core/hash] *)

Module Sha256.

Definition w32 (x : Z) : Z := x mod 2 ^ 32.
Definition add32 (x y : Z) : Z := w32 (x + y).
Definition rotr (n x : Z) : Z :=
  Z.lor (Z.shiftr x n) (w32 (Z.shiftl x (32 - n))).
Definition shr (n x : Z) : Z := Z.shiftr x n.
Definition not32 (x : Z) : Z := Z.lxor x (2 ^ 32 - 1).

Definition Ch (x y z : Z) : Z := Z.lxor (Z.land x y) (Z.land (not32 x) z).
Definition Maj (x y z : Z) : Z :=
  Z.lxor (Z.lxor (Z.land x y) (Z.land x z)) (Z.land y z).
Definition bigSigma0 (x : Z) : Z :=
  Z.lxor (Z.lxor (rotr 2 x) (rotr 13 x)) (rotr 22 x).
Definition bigSigma1 (x : Z) : Z :=
  Z.lxor (Z.lxor (rotr 6 x) (rotr 11 x)) (rotr 25 x).
Definition smallSigma0 (x : Z) : Z :=
  Z.lxor (Z.lxor (rotr 7 x) (rotr 18 x)) (shr 3 x).
Definition smallSigma1 (x : Z) : Z :=
  Z.lxor (Z.lxor (rotr 17 x) (rotr 19 x)) (shr 10 x).

(** The initial state and the round constants are the leading 32
    fractional bits of the square and cube roots of the first primes;
    they are computed once, here. *)
Definition is_prime (n : nat) : bool :=
  forallb (fun d => negb (Nat.eqb (Nat.modulo n d) 0)) (seq 2 (n - 2)).

Definition primes64 : list Z :=
  map Z.of_nat (firstn 64 (filter is_prime (seq 2 400))).

Fixpoint icbrt_loop (bits : nat) (n r : Z) : Z :=
  match bits with
  | O => r
  | S b =>
      let c := r + 2 ^ Z.of_nat b in
      icbrt_loop b n (if c * c * c <=? n then c else r)
  end.

Definition icbrt (n : Z) : Z := icbrt_loop 40 n 0.

Definition frac_sqrt (p : Z) : Z := w32 (Z.sqrt (p * 2 ^ 64)).
Definition frac_cbrt (p : Z) : Z := w32 (icbrt (p * 2 ^ 96)).

Definition H0 : list Z :=
  Eval vm_compute in map frac_sqrt (firstn 8 primes64).
Definition K : list Z :=
  Eval vm_compute in map frac_cbrt primes64.

Definition bytes_of_string (s : string) : list Z :=
  map (fun c => Z.of_nat (nat_of_ascii c)) (list_ascii_of_string s).

Fixpoint be_bytes (n : nat) (x : Z) : list Z :=
  match n with
  | O => []
  | S k => be_bytes k (x / 256) ++ [x mod 256]
  end.

Definition pad (msg : list Z) : list Z :=
  let len := Z.of_nat (length msg) in
  let zeros := Z.to_nat ((55 - len) mod 64) in
  msg ++ [128] ++ repeat 0 zeros ++ be_bytes 8 (8 * len).

Fixpoint be_word (bs : list Z) (acc : Z) : Z :=
  match bs with
  | [] => acc
  | b :: r => be_word r (acc * 256 + b)
  end.

Fixpoint words (fuel : nat) (bs : list Z) : list Z :=
  match fuel, bs with
  | S f, b0 :: b1 :: b2 :: b3 :: r => be_word [b0; b1; b2; b3] 0 :: words f r
  | _, _ => []
  end.

Fixpoint blocks (fuel : nat) (ws : list Z) : list (list Z) :=
  match fuel, ws with
  | S f, _ :: _ => firstn 16 ws :: blocks f (skipn 16 ws)
  | _, _ => []
  end.

Fixpoint schedule (n : nat) (w : list Z) : list Z :=
  match n with
  | O => w
  | S k =>
      let i := length w in
      let back j := nth (i - j) w 0 in
      schedule k
        (w ++ [add32 (add32 (smallSigma1 (back 2%nat)) (back 7%nat))
                     (add32 (smallSigma0 (back 15%nat)) (back 16%nat))])
  end.

Definition regs : Type := Z * Z * Z * Z * Z * Z * Z * Z.

Definition round (st : regs) (kw : Z * Z) : regs :=
  let '(a, b, c, d, e, f, g, h) := st in
  let t1 :=
    add32 (add32 (add32 h (bigSigma1 e)) (add32 (Ch e f g) (fst kw))) (snd kw) in
  let t2 := add32 (bigSigma0 a) (Maj a b c) in
  (add32 t1 t2, a, b, c, add32 d t1, e, f, g).

Definition compress (st : regs) (block : list Z) : regs :=
  let '(a, b, c, d, e, f, g, h) := st in
  let '(a', b', c', d', e', f', g', h') :=
    fold_left round (combine K (schedule 48 block)) st in
  (add32 a a', add32 b b', add32 c c', add32 d d',
   add32 e e', add32 f f', add32 g g', add32 h h').

Definition init : regs :=
  match H0 with
  | [a; b; c; d; e; f; g; h] => (a, b, c, d, e, f, g, h)
  | _ => (0, 0, 0, 0, 0, 0, 0, 0)
  end.

Definition hex_digit (d : Z) : ascii :=
  ascii_of_nat (Z.to_nat (if d <? 10 then 48 + d else 87 + d)).

Fixpoint hex (n : nat) (x : Z) (k : string) : string :=
  match n with
  | O => k
  | S m => hex m (x / 16) (String (hex_digit (x mod 16)) k)
  end.

Definition digest (msg : list Z) : string :=
  let p := pad msg in
  let ws := words (length p) p in
  let '(a, b, c, d, e, f, g, h) :=
    fold_left compress (blocks (length ws) ws) init in
  fold_right (hex 8) EmptyString [a; b; c; d; e; f; g; h].

End Sha256.

(** [sha256(text)]: the lowercase hexadecimal digest of the text. *)
Definition sha256 (s : string) : string :=
  Sha256.digest (Sha256.bytes_of_string s).

(** ** Dates: [Date.prototype.toISOString] and [Date.parse] *)

Module JsDate.

Definition msPerDay : Z := 86400000.

(** Time values lie within 100,000,000 days of the epoch. *)
Definition maxTime : Z := 8640000000000000.

Definition is_leap (y : Z) : bool :=
  ((y mod 4 =? 0) && negb (y mod 100 =? 0)) || (y mod 400 =? 0).

Definition days_in_month (y m : Z) : Z :=
  if m =? 2 then (if is_leap y then 29 else 28)
  else if (m =? 4) || (m =? 6) || (m =? 9) || (m =? 11) then 30
  else 31.

(** Day number (days since 1970-01-01) of a proleptic Gregorian date.
    Years are counted from 1 March, so the leap day ends its year, and
    in eras of 400 years, which all have 146097 days. *)
Definition days_from_civil (y m d : Z) : Z :=
  let y1 := if m <=? 2 then y - 1 else y in
  let era := y1 / 400 in
  let yoe := y1 mod 400 in
  let mp := if 2 <? m then m - 3 else m + 9 in
  let doy := (153 * mp + 2) / 5 + d - 1 in
  let doe := yoe * 365 + yoe / 4 - yoe / 100 + doy in
  era * 146097 + doe - 719468.

Definition civil_from_days (z : Z) : Z * Z * Z :=
  let z1 := z + 719468 in
  let era := z1 / 146097 in
  let doe := z1 mod 146097 in
  let yoe := (doe - doe / 1460 + doe / 36524 - doe / 146096) / 365 in
  let doy := doe - (365 * yoe + yoe / 4 - yoe / 100) in
  let mp := (5 * doy + 2) / 153 in
  let d := doy - (153 * mp + 2) / 5 + 1 in
  let m := if mp <? 10 then mp + 3 else mp - 9 in
  let y := yoe + era * 400 in
  (if m <=? 2 then y + 1 else y, m, d).

Definition digit_char (d : Z) : ascii := ascii_of_nat (Z.to_nat (48 + d)).

Definition digit_val (c : ascii) : option Z :=
  let n := Z.of_nat (nat_of_ascii c) in
  if (48 <=? n) && (n <=? 57) then Some (n - 48) else None.

(** The [n] low decimal digits of [x], most significant first, then [k]. *)
Fixpoint pad (n : nat) (x : Z) (k : string) : string :=
  match n with
  | O => k
  | S m => pad m (x / 10) (String (digit_char (x mod 10)) k)
  end.

(** Four digits for the years 0 to 9999, a sign and six digits otherwise. *)
Definition year_string (y : Z) (k : string) : string :=
  if (0 <=? y) && (y <=? 9999) then pad 4 y k
  else String (if y <? 0 then "-"%char else "+"%char) (pad 6 (Z.abs y) k).

(** The text of [toISOString] for the time value [t] of a valid Date,
    which lies within [maxTime] of the epoch.  On an invalid Date the
    method raises, see [Date_toISOString]. *)
Definition toISOString (t : Z) : string :=
  let '(y, m, d) := civil_from_days (t / msPerDay) in
  let r := t mod msPerDay in
  year_string y
    (String "-" (pad 2 m
    (String "-" (pad 2 d
    (String "T" (pad 2 (r / 3600000)
    (String ":" (pad 2 ((r / 60000) mod 60)
    (String ":" (pad 2 ((r / 1000) mod 60)
    (String "." (pad 3 (r mod 1000)
    (String "Z" EmptyString))))))))))))).

Fixpoint digits (n : nat) (acc : Z) (s : string) : option (Z * string) :=
  match n with
  | O => Some (acc, s)
  | S k =>
      match s with
      | String c r =>
          match digit_val c with
          | Some d => digits k (acc * 10 + d) r
          | None => None
          end
      | EmptyString => None
      end
  end.

Definition expect (c : ascii) (s : string) : option string :=
  match s with
  | String c' r => if Ascii.eqb c c' then Some r else None
  | EmptyString => None
  end.

Definition and_then {A B : Type} (o : option A) (f : A -> option B) : option B :=
  match o with
  | Some a => f a
  | None => None
  end.

Definition parse_year (s : string) : option (Z * string) :=
  match s with
  | String "+" r => digits 6 0 r
  | String "-" r =>
      and_then (digits 6 0 r) (fun '(y, r') =>
        if y =? 0 then None else Some (- y, r'))
  | _ => digits 4 0 s
  end.

(** TimeClip: a time value out of range becomes [NaN]. *)
Definition timeClip (t : Z) : JsNum :=
  if Z.abs t <=? maxTime then Some t else None.

(** [Date.parse] on the text that [toISOString] writes,
    YYYY-MM-DDTHH:mm:ss.sssZ with the optional expanded year. *)
Definition parse_written (s : string) : JsNum :=
  and_then (parse_year s) (fun '(y, s) =>
  and_then (expect "-" s) (fun s =>
  and_then (digits 2 0 s) (fun '(m, s) =>
  and_then (expect "-" s) (fun s =>
  and_then (digits 2 0 s) (fun '(d, s) =>
  and_then (expect "T" s) (fun s =>
  and_then (digits 2 0 s) (fun '(h, s) =>
  and_then (expect ":" s) (fun s =>
  and_then (digits 2 0 s) (fun '(mi, s) =>
  and_then (expect ":" s) (fun s =>
  and_then (digits 2 0 s) (fun '(sec, s) =>
  and_then (expect "." s) (fun s =>
  and_then (digits 3 0 s) (fun '(ms, s) =>
  and_then (expect "Z" s) (fun s =>
  match s with
  | EmptyString =>
      if (1 <=? m) && (m <=? 12) && (1 <=? d) && (d <=? days_in_month y m)
         && ((h <=? 23) || ((h =? 24) && (mi =? 0) && (sec =? 0) && (ms =? 0)))
         && (mi <=? 59) && (sec <=? 59)
      then timeClip (days_from_civil y m d * msPerDay
                     + h * 3600000 + mi * 60000 + sec * 1000 + ms)
      else None
  | _ => None
  end)))))))))))))).

(** The date of the Date Time String Format: YYYY, YYYY-MM or YYYY-MM-DD,
    a month or day that is left out being 1. *)
Definition parse_date (s : string) : option (Z * Z * Z * string) :=
  and_then (parse_year s) (fun '(y, s) =>
  match s with
  | String "-" s =>
      and_then (digits 2 0 s) (fun '(m, s) =>
      match s with
      | String "-" s => and_then (digits 2 0 s) (fun '(d, s) => Some (y, m, d, s))
      | _ => Some (y, m, 1, s)
      end)
  | _ => Some (y, 1, 1, s)
  end).

(** The time of the format, after the T: HH:mm, HH:mm:ss or HH:mm:ss.sss,
    in milliseconds.  24:00:00.000 is the end of the day. *)
Definition parse_time (s : string) : option (Z * string) :=
  and_then (digits 2 0 s) (fun '(h, s) =>
  and_then (expect ":" s) (fun s =>
  and_then (digits 2 0 s) (fun '(mi, s) =>
  and_then
    match s with
    | String ":" s =>
        and_then (digits 2 0 s) (fun '(sec, s) =>
        match s with
        | String "." s => and_then (digits 3 0 s) (fun '(ms, s) => Some (sec, ms, s))
        | _ => Some (sec, 0, s)
        end)
    | _ => Some (0, 0, s)
    end
    (fun '(sec, ms, s) =>
       if ((h <=? 23) || ((h =? 24) && (mi =? 0) && (sec =? 0) && (ms =? 0)))
          && (mi <=? 59) && (sec <=? 59)
       then Some (h * 3600000 + mi * 60000 + sec * 1000 + ms, s)
       else None)))).

(** The UTC offset that ends a date and time: Z, or a sign and HH:mm, in
    milliseconds east of UTC. *)
Definition parse_offset (s : string) : option Z :=
  match s with
  | String "Z" EmptyString => Some 0
  | String sign s =>
      if Ascii.eqb sign "+" || Ascii.eqb sign "-" then
        and_then (digits 2 0 s) (fun '(h, s) =>
        and_then (expect ":" s) (fun s =>
        and_then (digits 2 0 s) (fun '(mi, s) =>
        match s with
        | EmptyString =>
            if (h <=? 23) && (mi <=? 59)
            then Some ((if Ascii.eqb sign "-" then -1 else 1) * (h * 3600000 + mi * 60000))
            else None
        | _ => None
        end)))
      else None
  | EmptyString => None
  end.

(** [Date.parse] on the forms of the Date Time String Format whose time
    does not depend on the host: a date alone, which is UTC, and a date and
    time that ends in Z or in a UTC offset. *)
Definition parse_format (s : string) : JsNum :=
  and_then (parse_date s) (fun '(y, m, d, s) =>
  if (1 <=? m) && (m <=? 12) && (1 <=? d) && (d <=? days_in_month y m) then
    match s with
    | EmptyString => timeClip (days_from_civil y m d * msPerDay)
    | String "T" s =>
        and_then (parse_time s) (fun '(time, s) =>
        and_then (parse_offset s) (fun offset =>
        timeClip (days_from_civil y m d * msPerDay + time - offset)))
    | _ => None
    end
  else None).

(** [Date.parse] as far as ECMA-262 settles it.  [None] is [NaN] for a
    text the format gives a time to that is out of range; it is also the
    answer here where the standard leaves the result to the engine or the
    host: a date and time without an offset (local time), a field that is
    out of bounds, and a text outside the format.  The code asks the
    engine there, see [Date_of]. *)
Definition Date_parse (s : string) : JsNum :=
  match parse_written s with
  | Some t => Some t
  | None => parse_format s
  end.

(** [new Date(v).getTime()] as far as ECMA-262 settles it: a text is
    parsed, a number is a time value, [null] converts to 0 and [undefined]
    to [NaN]. *)
Definition Date_new (v : JsVal) : JsNum :=
  match v with
  | VUndefined => None
  | VNull => Some 0
  | VString s => Date_parse s
  | VNumber n => timeClip n
  end.

(** What belongs to the engine: [Date.parse] on a text that [Date_parse]
    does not settle, and the text [String(err)] of the RangeError that
    [toISOString] raises. *)
Record Engine : Type := mkEngine {
  parse_unsettled : string -> JsNum;
  invalid_time_text : string
}.

(** [new Date(v).getTime()] on an engine. *)
Definition Date_of (engine : Engine) (v : JsVal) : JsNum :=
  match v with
  | VString s =>
      match Date_parse s with
      | Some t => Some t
      | None => parse_unsettled engine s
      end
  | _ => Date_new v
  end.

(** [d.toISOString()] on a Date that may be invalid. *)
Definition Date_toISOString (d : JsNum) : Completion string :=
  match d with
  | Some t => Done (toISOString t)
  | None => Raised RangeError_invalid_time
  end.

(** An engine on a host whose local time is UTC and which knows no date
    format of its own. *)
Definition utc_engine : Engine :=
  {| parse_unsettled := fun s => Date_parse (s ++ "Z")%string;
     invalid_time_text := "RangeError: Invalid Date" |}.

End JsDate.

Export JsDate.


(** ** [src/types.ts] *)

(** Configuration loaded from community-intel.json. *)
Module CacheConfig.
Record t : Type := mk {
  topics : list string;
  refreshIntervalDays : option Z;
  thinCacheIntervalDays : option Z;
  context : option string;
  days : option Z;
  minScore : option Z;
  minSummaryLength : option Z
}.
End CacheConfig.

(** Metadata stored in last-updated.json.  TypeScript declares both
    timestamps as strings; a file read back can hold anything there. *)
Module CacheMetadata.
Record t : Type := mk {
  last_updated : JsVal;
  topics_researched : list string;
  next_update_after : JsVal
}.
End CacheMetadata.

Module Reddit.
Record item : Type := mk {
  title : string;
  url : string;
  subreddit : string;
  date : option string;
  why_relevant : string;
  score : Z;
  comment_insights : list string
}.
End Reddit.

Module X.
Record item : Type := mk {
  text : string;
  url : string;
  author_handle : string;
  date : option string;
  why_relevant : string;
  score : Z
}.
End X.

Module Web.
Record item : Type := mk {
  title : string;
  url : string;
  source_domain : string;
  snippet : string;
  why_relevant : string;
  score : Z
}.
End Web.

(** The report of one topic; its optional fields (range, mode, ...) are
    read by none of the functions below and are left out. *)
Module Last30DaysReport.
Record t : Type := mk {
  topic : string;
  reddit : list Reddit.item;
  x : list X.item;
  web : list Web.item
}.
End Last30DaysReport.

Inductive RefreshStatus : Type := fresh | no_cache | refreshed | failed.

Module QueryError.
Record t : Type := mk {
  topic : string;
  reason : string;
  stderr : option string
}.
End QueryError.

Module StatusReport.
Record t : Type := mk {
  status : RefreshStatus;
  detail : option string;
  errors : option (list QueryError.t)
}.
End StatusReport.

Inductive Command : Type := cmd_refresh | cmd_reset | cmd_extract | cmd_review.

(** Resolved CLI options.  [decision] is whatever text followed --decision:
    the parser casts it without a check. *)
Module CliOptions.
Record t : Type := mk {
  command : Command;
  configPath : string;
  cacheDir : string;
  noSynthesize : bool;
  force : bool;
  verbose : bool;
  days : option Z;
  hashes : list string;
  decision : string
}.
End CliOptions.

Inductive FindingType : Type := type_reddit | type_x | type_web.

Module Finding.
Record t : Type := mk {
  hash : string;
  type : FindingType;
  topic : string;
  title : string;
  summary : string;
  url : string;
  score : Z;
  date : option string
}.
End Finding.

Module ReviewedEntry.
Record t : Type := mk {
  hash : string;
  decision : string;
  date : string
}.
End ReviewedEntry.

Module ReviewedHashes.
Record t : Type := mk {
  version : Z;
  reviewed : list ReviewedEntry.t
}.
End ReviewedHashes.

Inductive ExtractStatus : Type := has_new | no_new | no_staged.

Module ExtractResult.
Record t : Type := mk {
  status : ExtractStatus;
  findings : list Finding.t
}.
End ExtractResult.

Module QualityFilterOptions.
Record t : Type := mk {
  minScore : option Z;
  minSummaryLength : option Z
}.
End QualityFilterOptions.

(** Defaults for optional config fields. *)
Module CONFIG_DEFAULTS.
Definition refreshIntervalDays : Z := 30.
Definition thinCacheIntervalDays : Z := 7.
Definition days : Z := 7.
Definition minScore : Z := 25.
Definition minSummaryLength : Z := 40.
End CONFIG_DEFAULTS.

(** Maximum cache age before forced refresh (clock skew guard). *)
Definition MAX_CACHE_AGE_DAYS : Z := 60.

(** Backoff period in hours when all queries fail. *)
Definition BACKOFF_HOURS : Z := 4.

(** ** The cache directory and the commands' effects *)

(** What a JSON file of the directory holds. *)
Inductive File (A : Type) : Type :=
| Missing
| Unparsable
| Holds (a : A).

Arguments Missing {A}.
Arguments Unparsable {A}.
Arguments Holds {A} a.

(** The files of one cache directory: [join(cacheDir, name)] for
    last-updated.json, staged-intel.md, staged-raw.json and
    reviewed-hashes.json.  The metadata file may hold JSON [null]. *)
Record CacheDir : Type := mkCacheDir {
  last_updated_json : File (option CacheMetadata.t);
  staged_intel_md : option string;
  staged_raw_json : File (list Last30DaysReport.t);
  reviewed_hashes_json : File ReviewedHashes.t
}.

(** The world a command runs in: the files, the clock and the engine. *)
Record World : Type := mkRuntime {
  dir : CacheDir;
  clock : Z;
  engine : Engine
}.

(** A world on [utc_engine]. *)
Definition mkWorld (dir : CacheDir) (clock : Z) : World :=
  mkRuntime dir clock utc_engine.

(** The same world with other files. *)
Definition set_dir (d : CacheDir) (w : World) : World :=
  mkRuntime d (clock w) (engine w).

(** A command threads the world through its steps. *)
Definition IO (A : Type) : Type := World -> A * World.

Definition ret {A : Type} (a : A) : IO A := fun w => (a, w).

Definition bind {A B : Type} (c : IO A) (k : A -> IO B) : IO B :=
  fun w => let (a, w') := c w in k a w'.

Notation "'let*' x ':=' c 'in' k" := (bind c (fun x => k))
  (at level 10, x name, c at level 100, k at level 200).
Notation "c '>>' k" := (bind c (fun _ => k))
  (at level 100, k at level 200, right associativity).

(** [Date.now()]. *)
Definition Date_now : IO Z := fun w => (clock w, w).

(** [new Date(v).getTime()]. *)
Definition new_Date (v : JsVal) : IO JsNum := fun w => (Date_of (engine w) v, w).

Inductive Path : Type :=
| last_updated_json_path
| staged_intel_md_path
| staged_raw_json_path
| reviewed_hashes_json_path.

Definition is_file {A : Type} (f : File A) : bool :=
  match f with
  | Missing => false
  | _ => true
  end.

Definition path_exists (p : Path) (d : CacheDir) : bool :=
  match p with
  | last_updated_json_path => is_file (last_updated_json d)
  | staged_intel_md_path =>
      match staged_intel_md d with Some _ => true | None => false end
  | staged_raw_json_path => is_file (staged_raw_json d)
  | reviewed_hashes_json_path => is_file (reviewed_hashes_json d)
  end.

(** A JSON file of the directory together with the type it is read at. *)
Record JsonPath (A : Type) : Type := mkJsonPath {
  path_of : Path;
  load : CacheDir -> File A;
  store : File A -> CacheDir -> CacheDir
}.

Arguments path_of {A} _.
Arguments load {A} _ _.
Arguments store {A} _ _ _.

Definition metadataPath : JsonPath (option CacheMetadata.t) :=
  {| path_of := last_updated_json_path;
     load := last_updated_json;
     store := fun f d =>
       mkCacheDir f (staged_intel_md d) (staged_raw_json d) (reviewed_hashes_json d) |}.

Definition rawPath : JsonPath (list Last30DaysReport.t) :=
  {| path_of := staged_raw_json_path;
     load := staged_raw_json;
     store := fun f d =>
       mkCacheDir (last_updated_json d) (staged_intel_md d) f (reviewed_hashes_json d) |}.

Definition reviewedPath : JsonPath ReviewedHashes.t :=
  {| path_of := reviewed_hashes_json_path;
     load := reviewed_hashes_json;
     store := fun f d =>
       mkCacheDir (last_updated_json d) (staged_intel_md d) (staged_raw_json d) f |}.

(** Modelled from the spec: [pathExistsSync] of @side-quest/core/fs is not
    among the sources; it tells whether the file is there and changes
    nothing. *)
Definition pathExistsSync (p : Path) : IO bool :=
  fun w => (path_exists p (dir w), w).

(** Modelled from the spec: [readJsonFileOrDefault] of @side-quest/core/fs
    is not among the sources.  Sections 4.4 and 7(e): a file that is absent
    or does not parse yields the default, and nothing is raised. *)
Definition readJsonFileOrDefault {A : Type} (p : JsonPath A) (defaultValue : A) : IO A :=
  fun w =>
    (match load p (dir w) with
     | Holds a => a
     | _ => defaultValue
     end, w).

(** Modelled from the spec: [writeJsonFileAtomic] of @side-quest/core/fs is
    not among the sources.  Section 4.8: the file is replaced as a whole by
    the value's JSON text. *)
Definition writeJsonFileAtomic {A : Type} (p : JsonPath A) (value : A) : IO unit :=
  fun w => (tt, set_dir (store p (Holds value) (dir w)) w).

(** Modelled from the spec: [writeTextFileAtomic] of @side-quest/core/fs is
    not among the sources; only staged-intel.md is written through it. *)
Definition writeTextFileAtomic (content : string) : IO unit :=
  fun w =>
    (tt, set_dir (mkCacheDir (last_updated_json (dir w)) (Some content)
                    (staged_raw_json (dir w)) (reviewed_hashes_json (dir w)))
           w).

(** Modelled from the spec: [ensureDir] of @side-quest/core/fs is not among
    the sources; the directory of the model always exists. *)
Definition ensureDir : IO unit := ret tt.

(** ** [src/cache.ts] *)

(** Check whether the cache is still fresh.  No step inside the source's
    [try] raises ([new Date] of a text that is no date is an invalid Date,
    whose time is [NaN]), so its [catch] has no counterpart here. *)
Definition isCacheFresh : IO bool :=
  let* metadataExists := pathExistsSync (path_of metadataPath) in
  if negb metadataExists then ret false else
  let* intelExists := pathExistsSync staged_intel_md_path in
  if negb intelExists then ret false else
  let* metadata := readJsonFileOrDefault metadataPath None in
  match metadata with
  | None => ret false
  | Some metadata =>
      let* lastUpdated := new_Date (CacheMetadata.last_updated metadata) in
      let* now := Date_now in
      let ageMs := js_sub (Some now) lastUpdated in
      if js_gt ageMs (Some (MAX_CACHE_AGE_DAYS * 24 * 60 * 60 * 1000))
      then ret false
      else
        let* nextUpdate := new_Date (CacheMetadata.next_update_after metadata) in
        let* now' := Date_now in
        ret (js_gt nextUpdate (Some now'))
  end.

(** [successCount < totalTopics / 2], the division being exact. *)
Definition below_half (successCount totalTopics : nat) : bool :=
  js_lt_q (inject_Z (Z.of_nat successCount))
          (inject_Z (Z.of_nat totalTopics) / inject_Z 2)%Q.

(** Calculate the next update timestamp based on query success rate.  A
    Date is its time value, [None] for an invalid Date; [new Date(n)]
    clips [n]. *)
Definition calculateNextUpdate
    (successCount totalTopics : nat) (config : CacheConfig.t) (now : JsNum) : JsNum :=
  let refreshDays :=
    nullish (CacheConfig.refreshIntervalDays config) CONFIG_DEFAULTS.refreshIntervalDays in
  let thinDays :=
    nullish (CacheConfig.thinCacheIntervalDays config) CONFIG_DEFAULTS.thinCacheIntervalDays in
  let intervalDays :=
    if below_half successCount totalTopics then thinDays else refreshDays in
  match now with
  | Some now => timeClip (now + intervalDays * 24 * 60 * 60 * 1000)
  | None => None
  end.

(** Get the interval in days that was used for a given success rate. *)
Definition getIntervalDays
    (successCount totalTopics : nat) (config : CacheConfig.t) : Z :=
  let refreshDays :=
    nullish (CacheConfig.refreshIntervalDays config) CONFIG_DEFAULTS.refreshIntervalDays in
  let thinDays :=
    nullish (CacheConfig.thinCacheIntervalDays config) CONFIG_DEFAULTS.thinCacheIntervalDays in
  if below_half successCount totalTopics then thinDays else refreshDays.

(** Build backoff metadata when all queries fail. *)
Definition buildBackoffMetadata (topics : list string) : IO CacheMetadata.t :=
  let* existing := readJsonFileOrDefault metadataPath None in
  let* now := Date_now in
  let preservedTimestamp :=
    nullish_val
      (match existing with
       | Some e => CacheMetadata.last_updated e
       | None => VUndefined
       end)
      (VString (toISOString now)) in
  let* now' := Date_now in
  ret {| CacheMetadata.last_updated := preservedTimestamp;
         CacheMetadata.topics_researched := topics;
         CacheMetadata.next_update_after :=
           VString (toISOString (now' + BACKOFF_HOURS * 60 * 60 * 1000)) |}.

(** Check whether an existing cache file is present. *)
Definition hasExistingCache : IO bool := pathExistsSync staged_intel_md_path.

(** ** [src/extract.ts] *)

(** Modelled from the spec: [sha256] of @side-quest/core/hash is not among
    the sources; section 4.1 and the comments of [Finding] make the
    fingerprint the SHA-256 hex digest of the URL. *)
Definition computeFindingHash (url : string) : string := sha256 url.

(** [s.length] as a number. *)
Definition str_length (s : string) : Z := Z.of_nat (String.length s).

(** The callback of the final [filter] of [extractFindings]: it consults and
    extends the set [seen] as it goes over the array. *)
Fixpoint filter_unseen (seen : gset string) (findings : list Finding.t) : list Finding.t :=
  match findings with
  | [] => []
  | f :: rest =>
      if decide (Finding.hash f ∈ seen)
      then filter_unseen seen rest
      else f :: filter_unseen ({[Finding.hash f]} ∪ seen) rest
  end.

(** Extract individual findings from raw report arrays.  Each [for ... of]
    loop is a left fold whose accumulator is the array [findings]; [push]
    appends at its end and [continue] leaves it as it is. *)
Definition extractFindings
    (reports : list Last30DaysReport.t) (options : option QualityFilterOptions.t)
    : list Finding.t :=
  let minScore :=
    nullish (match options with
             | Some o => QualityFilterOptions.minScore o
             | None => None
             end) CONFIG_DEFAULTS.minScore in
  let minSummaryLength :=
    nullish (match options with
             | Some o => QualityFilterOptions.minSummaryLength o
             | None => None
             end) CONFIG_DEFAULTS.minSummaryLength in
  let findings : list Finding.t :=
    fold_left (fun findings report =>
      (* Reddit findings *)
      let findings :=
        fold_left (fun findings item =>
          if Reddit.score item <? minScore then findings
          else if str_length (Reddit.why_relevant item) <? minSummaryLength then findings
          else findings ++
               [ {| Finding.hash := computeFindingHash (Reddit.url item);
                    Finding.type := type_reddit;
                    Finding.topic := Last30DaysReport.topic report;
                    Finding.title := Reddit.title item;
                    Finding.summary := Reddit.why_relevant item;
                    Finding.url := Reddit.url item;
                    Finding.score := Reddit.score item;
                    Finding.date := Reddit.date item |} ])
          (Last30DaysReport.reddit report) findings in
      (* X findings *)
      let findings :=
        fold_left (fun findings item =>
          if X.score item <? minScore then findings
          else if str_length (X.why_relevant item) <? minSummaryLength then findings
          else
            let preview :=
              if 120 <? str_length (X.text item)
              then (String.substring 0 120 (X.text item) ++ "...")%string
              else X.text item in
            findings ++
               [ {| Finding.hash := computeFindingHash (X.url item);
                    Finding.type := type_x;
                    Finding.topic := Last30DaysReport.topic report;
                    Finding.title := preview;
                    Finding.summary := X.why_relevant item;
                    Finding.url := X.url item;
                    Finding.score := X.score item;
                    Finding.date := X.date item |} ])
          (Last30DaysReport.x report) findings in
      (* Web findings *)
      fold_left (fun findings item =>
        if Web.score item <? minScore then findings
        else if str_length (Web.why_relevant item) <? minSummaryLength then findings
        else findings ++
             [ {| Finding.hash := computeFindingHash (Web.url item);
                  Finding.type := type_web;
                  Finding.topic := Last30DaysReport.topic report;
                  Finding.title := Web.title item;
                  Finding.summary := Web.why_relevant item;
                  Finding.url := Web.url item;
                  Finding.score := Web.score item;
                  Finding.date := None |} ])
        (Last30DaysReport.web report) findings)
      reports [] in
  (* Deduplicate by hash (first occurrence wins) *)
  filter_unseen ∅ findings.

(** Load staged raw results and return only unreviewed findings. *)
Definition getUnreviewedFindings (options : option QualityFilterOptions.t)
    : IO ExtractResult.t :=
  let* rawExists := pathExistsSync (path_of rawPath) in
  if negb rawExists
  then ret {| ExtractResult.status := no_staged; ExtractResult.findings := [] |}
  else
    let* reports := readJsonFileOrDefault rawPath [] in
    let allFindings := extractFindings reports options in
    if Nat.eqb (length allFindings) 0
    then ret {| ExtractResult.status := no_new; ExtractResult.findings := [] |}
    else
      (* Load reviewed hashes *)
      let* reviewed :=
        readJsonFileOrDefault reviewedPath
          {| ReviewedHashes.version := 1; ReviewedHashes.reviewed := [] |} in
      let reviewedSet : gset string :=
        list_to_set (map ReviewedEntry.hash (ReviewedHashes.reviewed reviewed)) in
      (* Filter to unreviewed only *)
      let unreviewed :=
        List.filter (fun f => negb (bool_decide (Finding.hash f ∈ reviewedSet)))
          allFindings in
      if Nat.eqb (length unreviewed) 0
      then ret {| ExtractResult.status := no_new; ExtractResult.findings := [] |}
      else ret {| ExtractResult.status := has_new; ExtractResult.findings := unreviewed |}.

(** ** [src/write.ts] *)

(** Write all cache files: content first, metadata last. *)
Definition writeCacheFiles
    (markdown : string) (metadata : CacheMetadata.t)
    (rawResults : list (option Last30DaysReport.t)) : IO unit :=
  ensureDir >>
  let filtered := omap id rawResults in
  writeTextFileAtomic markdown >>
  writeJsonFileAtomic rawPath filtered >>
  writeJsonFileAtomic metadataPath (Some metadata).

(** Write only the metadata file (used for backoff on total failure). *)
Definition writeBackoffMetadata (metadata : CacheMetadata.t) : IO unit :=
  ensureDir >>
  writeJsonFileAtomic metadataPath (Some metadata).

(** ** [src/gather.ts] and [src/diagnostics.ts] *)

(** Check whether a report has any actual data across all source arrays. *)
Definition hasData (report : Last30DaysReport.t) : bool :=
  (0 <? length (Last30DaysReport.reddit report)
        + length (Last30DaysReport.x report)
        + length (Last30DaysReport.web report))%nat.

Definition createDiagnostics : list QueryError.t := [].

(** The status line of [emitStatus], as the value it prints. *)
Definition emitStatus
    (status : RefreshStatus) (diagnostics : list QueryError.t) (detail : option string)
    : StatusReport.t :=
  {| StatusReport.status := status;
     StatusReport.detail :=
       match detail with
       | Some EmptyString => None
       | d => d
       end;
     StatusReport.errors :=
       if (0 <? length diagnostics)%nat then Some diagnostics else None |}.

(** ** [src/cli.ts] *)

(** How a command ends: it returns what it printed on stdout, or it wrote
    [message] to stderr and called [process.exit(0)]. *)
Inductive Outcome (A : Type) : Type :=
| Returned (a : A)
| Exited (message : string).

Arguments Returned {A} a.
Arguments Exited {A} message.

(** Modelled from the spec: [unlinkSync] of node:fs is not among the
    sources; the file is removed. *)
Definition unlinkSync (p : Path) : IO unit :=
  fun w =>
    let d := dir w in
    (tt, set_dir
           match p with
           | last_updated_json_path =>
               mkCacheDir Missing (staged_intel_md d) (staged_raw_json d)
                 (reviewed_hashes_json d)
           | staged_intel_md_path =>
               mkCacheDir (last_updated_json d) None (staged_raw_json d)
                 (reviewed_hashes_json d)
           | staged_raw_json_path =>
               mkCacheDir (last_updated_json d) (staged_intel_md d) Missing
                 (reviewed_hashes_json d)
           | reviewed_hashes_json_path =>
               mkCacheDir (last_updated_json d) (staged_intel_md d)
                 (staged_raw_json d) Missing
           end w).

(** Execute the reset command: delete cache files. *)
Definition executeReset (cacheDir : string) : IO (Outcome string) :=
  if String.eqb cacheDir EmptyString then ret (Exited "--cache-dir is required for reset")
  else
    fold_left (fun before file =>
        before >>
        let* there := pathExistsSync file in
        if there then unlinkSync file else ret tt)
      [staged_intel_md_path; staged_raw_json_path; last_updated_json_path]
      (ret tt) >>
    ret (Returned "reset"%string).

(** Execute the extract command: get unreviewed findings from staged data. *)
Definition executeExtract (cacheDir : string) : IO (Outcome ExtractResult.t) :=
  if String.eqb cacheDir EmptyString then ret (Exited "--cache-dir is required for extract")
  else
    let* result := getUnreviewedFindings None in
    ret (Returned result).

(** What the review command prints. *)
Module ReviewReport.
Record t : Type := mk {
  status : string;
  count : nat;
  decision : string
}.
End ReviewReport.

(** A text between double quotes. *)
Definition quoted (s : string) : string :=
  (String (ascii_of_nat 34) s ++ String (ascii_of_nat 34) EmptyString)%string.

Definition includes (l : list string) (s : string) : bool :=
  existsb (String.eqb s) l.

(** Execute the review command: record accept/reject decisions. *)
Definition executeReview (options : CliOptions.t) : IO (Outcome ReviewReport.t) :=
  if String.eqb (CliOptions.cacheDir options) EmptyString
  then ret (Exited "--cache-dir is required for review")
  else if Nat.eqb (length (CliOptions.hashes options)) 0
  then ret (Exited "--hashes is required for review (comma-separated)")
  else if negb (includes ["accepted"; "rejected"]%string (CliOptions.decision options))
  then ret (Exited ("--decision must be " ++ quoted "accepted" ++ " or " ++ quoted "rejected")%string)
  else
    let* t := Date_now in
    let now := toISOString t in
    let newEntries :=
      map (fun hash =>
             {| ReviewedEntry.hash := hash;
                ReviewedEntry.decision := CliOptions.decision options;
                ReviewedEntry.date := now |})
          (CliOptions.hashes options) in
    let* existing :=
      readJsonFileOrDefault reviewedPath
        {| ReviewedHashes.version := 1; ReviewedHashes.reviewed := [] |} in
    let newHashSet : gset string := list_to_set (map ReviewedEntry.hash newEntries) in
    (* Remove any prior decisions for the same hashes (last decision wins) *)
    let existing :=
      {| ReviewedHashes.version := ReviewedHashes.version existing;
         ReviewedHashes.reviewed :=
           List.filter
             (fun r => negb (bool_decide (ReviewedEntry.hash r ∈ newHashSet)))
             (ReviewedHashes.reviewed existing) |} in
    let existing :=
      {| ReviewedHashes.version := ReviewedHashes.version existing;
         ReviewedHashes.reviewed := ReviewedHashes.reviewed existing ++ newEntries |} in
    writeJsonFileAtomic reviewedPath existing >>
    ret (Returned
           {| ReviewReport.status := "recorded";
              ReviewReport.count := length newEntries;
              ReviewReport.decision := CliOptions.decision options |}).

(** The collaborators of the refresh command that lie outside this
    development: the configuration reader, the gathering and synthesis
    subprocesses and the markdown formatter.  Each is a function of its
    arguments to what it returns; [readJsonFileSync] returns the text of
    the error it raised, [gatherTopics] also the diagnostics it pushed. *)
Record Collaborators : Type := mkCollaborators {
  readJsonFileSync : string -> string + CacheConfig.t;
  gatherTopics :
    list string -> bool -> Z -> list (option Last30DaysReport.t) * list QueryError.t;
  synthesize : list (option Last30DaysReport.t) -> string -> bool -> option string;
  formatMarkdown : list (option Last30DaysReport.t) -> string -> string
}.

Definition newline : string := String (ascii_of_nat 10) EmptyString.

Definition init_error (reason : string) : QueryError.t :=
  {| QueryError.topic := "init"; QueryError.reason := reason; QueryError.stderr := None |}.

(** Execute the refresh command: check staleness, gather, synthesize,
    write.  It ends with the status it printed, or it raises: the
    [toISOString] of a deadline that is no valid Date.  Messages for stderr
    under --verbose are not part of the model. *)
Definition executeRefresh (ext : Collaborators) (options : CliOptions.t)
    : IO (Completion StatusReport.t) :=
  let diagnostics := createDiagnostics in
  (* Validate required args *)
  if String.eqb (CliOptions.configPath options) EmptyString
  then ret (Done (emitStatus failed
              (diagnostics ++ [init_error "--config is required for refresh"]) None))
  else if String.eqb (CliOptions.cacheDir options) EmptyString
  then ret (Done (emitStatus failed
              (diagnostics ++ [init_error "--cache-dir is required for refresh"]) None))
  else
  (* Load config *)
  match readJsonFileSync ext (CliOptions.configPath options) with
  | inl err =>
      ret (Done (emitStatus failed
             (diagnostics ++ [init_error ("failed to read config: " ++ err)]) None))
  | inr config =>
  let topics := CacheConfig.topics config in
  if Nat.eqb (length topics) 0
  then ret (Done (emitStatus failed
              (diagnostics ++ [init_error "config.topics is empty or missing"]) None))
  else
  (* Fast path: cache is fresh (unless --force) *)
  let* isFresh :=
    if negb (CliOptions.force options) then isCacheFresh else ret false in
  if isFresh then ret (Done (emitStatus fresh diagnostics None))
  else
  let* hadCache := hasExistingCache in
  (* Resolve days: CLI flag wins, then config, then default *)
  let days :=
    nullish (CliOptions.days options)
      (nullish (CacheConfig.days config) CONFIG_DEFAULTS.days) in
  (* Gather: parallel last-30-days queries *)
  let '(results, pushed) :=
    gatherTopics ext topics (CliOptions.verbose options) days in
  let diagnostics := diagnostics ++ pushed in
  (* Count successful queries (returned data) *)
  let successCount :=
    length (List.filter
              (fun r => match r with Some r => hasData r | None => false end)
              results) in
  (* All failed: write backoff metadata and exit *)
  if Nat.eqb successCount 0
  then
    let* backoffMeta := buildBackoffMetadata topics in
    writeBackoffMetadata backoffMeta >>
    ret (Done (emitStatus (if hadCache then failed else no_cache) diagnostics
           (Some "all queries failed, backoff 4h"%string)))
  else
  let* now := Date_now in
  let updatedAt := toISOString now in
  (* Synthesize or format raw *)
  let markdown :=
    if CliOptions.noSynthesize options
    then formatMarkdown ext results updatedAt
    else
      let context :=
        nullish (CacheConfig.context config) (String.concat ", " topics) in
      match synthesize ext results context (CliOptions.verbose options) with
      | Some (String c rest) =>
          (* Prepend header to synthesized output *)
          String.concat newline
            [ "# Community Intelligence";
              EmptyString;
              "Synthesized by `community-intel-cache` on " ++ updatedAt ++ ".";
              EmptyString;
              String c rest ]%string
      | _ => formatMarkdown ext results updatedAt
      end in
  (* Calculate next update based on success rate *)
  let nextUpdate := calculateNextUpdate successCount (length topics) config (Some now) in
  let intervalDays := getIntervalDays successCount (length topics) config in
  (* Write cache files atomically *)
  match Date_toISOString nextUpdate with
  | Raised error => ret (Raised error)
  | Done next_update_after =>
  let metadata :=
    {| CacheMetadata.last_updated := VString updatedAt;
       CacheMetadata.topics_researched := topics;
       CacheMetadata.next_update_after := VString next_update_after |} in
  writeCacheFiles markdown metadata results >>
  ret (Done (emitStatus refreshed diagnostics
         (Some (pretty successCount ++ "/" ++ pretty (length topics)
                ++ " topics (interval: " ++ pretty intervalDays ++ "d)")%string)))
  end
  end.

(** *** Argument parsing and dispatch *)

(** [s.split(',')]: the pieces between the commas; there is always one. *)
Fixpoint split_comma (s : string) : list string :=
  match s with
  | EmptyString => [EmptyString]
  | String c rest =>
      if Ascii.eqb c ","%char then EmptyString :: split_comma rest
      else
        match split_comma rest with
        | piece :: pieces => String c piece :: pieces
        | [] => [String c EmptyString]
        end
  end.

(** Whether a text is truthy, as in [filter(Boolean)] and [if (cacheDir)]:
    every text but the empty one. *)
Definition truthy (s : string) : bool := negb (String.eqb s EmptyString).

(** The locals of [parseCliArgs] are the fields of the options it returns.
    An assignment to one of them leaves the others. *)
Definition set_configPath (v : string) (o : CliOptions.t) : CliOptions.t :=
  CliOptions.mk (CliOptions.command o) v (CliOptions.cacheDir o)
    (CliOptions.noSynthesize o) (CliOptions.force o) (CliOptions.verbose o)
    (CliOptions.days o) (CliOptions.hashes o) (CliOptions.decision o).

Definition set_cacheDir (v : string) (o : CliOptions.t) : CliOptions.t :=
  CliOptions.mk (CliOptions.command o) (CliOptions.configPath o) v
    (CliOptions.noSynthesize o) (CliOptions.force o) (CliOptions.verbose o)
    (CliOptions.days o) (CliOptions.hashes o) (CliOptions.decision o).

Definition set_noSynthesize (v : bool) (o : CliOptions.t) : CliOptions.t :=
  CliOptions.mk (CliOptions.command o) (CliOptions.configPath o) (CliOptions.cacheDir o)
    v (CliOptions.force o) (CliOptions.verbose o)
    (CliOptions.days o) (CliOptions.hashes o) (CliOptions.decision o).

Definition set_force (v : bool) (o : CliOptions.t) : CliOptions.t :=
  CliOptions.mk (CliOptions.command o) (CliOptions.configPath o) (CliOptions.cacheDir o)
    (CliOptions.noSynthesize o) v (CliOptions.verbose o)
    (CliOptions.days o) (CliOptions.hashes o) (CliOptions.decision o).

Definition set_verbose (v : bool) (o : CliOptions.t) : CliOptions.t :=
  CliOptions.mk (CliOptions.command o) (CliOptions.configPath o) (CliOptions.cacheDir o)
    (CliOptions.noSynthesize o) (CliOptions.force o) v
    (CliOptions.days o) (CliOptions.hashes o) (CliOptions.decision o).

Definition set_days (v : option Z) (o : CliOptions.t) : CliOptions.t :=
  CliOptions.mk (CliOptions.command o) (CliOptions.configPath o) (CliOptions.cacheDir o)
    (CliOptions.noSynthesize o) (CliOptions.force o) (CliOptions.verbose o)
    v (CliOptions.hashes o) (CliOptions.decision o).

Definition set_hashes (v : list string) (o : CliOptions.t) : CliOptions.t :=
  CliOptions.mk (CliOptions.command o) (CliOptions.configPath o) (CliOptions.cacheDir o)
    (CliOptions.noSynthesize o) (CliOptions.force o) (CliOptions.verbose o)
    (CliOptions.days o) v (CliOptions.decision o).

Definition set_decision (v : string) (o : CliOptions.t) : CliOptions.t :=
  CliOptions.mk (CliOptions.command o) (CliOptions.configPath o) (CliOptions.cacheDir o)
    (CliOptions.noSynthesize o) (CliOptions.force o) (CliOptions.verbose o)
    (CliOptions.days o) (CliOptions.hashes o) v.

(** [validCommands.includes(command)], with the command it names. *)
Definition command_of (s : string) : option Command :=
  if String.eqb s "refresh" then Some cmd_refresh
  else if String.eqb s "reset" then Some cmd_reset
  else if String.eqb s "extract" then Some cmd_extract
  else if String.eqb s "review" then Some cmd_review
  else None.

(** What one [case] of the [switch] in the loop of [parseCliArgs] does:
    it prints the help and exits, or it assigns from the next argument
    [args[++i]] ([None] when the arguments have run out), or it assigns
    without reading one.  An argument that matches no case changes
    nothing. *)
Inductive Case : Type :=
| case_help
| case_value (assign : option string -> CliOptions.t -> CliOptions.t)
| case_flag (assign : CliOptions.t -> CliOptions.t).

(** How [parseCliArgs] ends: with the options, or the process has exited
    after the help text on stdout or after the usage lines on stderr. *)
Inductive Parsed : Type :=
| Options (options : CliOptions.t)
| Help
| Usage.

(** What [main] wrote on stdout, by command. *)
Inductive Output : Type :=
| Help_output
| Usage_output
| Reset_output (r : Outcome string)
| Extract_output (r : Outcome ExtractResult.t)
| Review_output (r : Outcome ReviewReport.t)
| Refresh_output (r : StatusReport.t).

(** [String(err)]. *)
Definition String_of_error (err : JsError) : IO string :=
  fun w =>
    (match err with
     | RangeError_invalid_time => invalid_time_text (engine w)
     end, w).

Section Cli.

(** [Number(raw)] on the text of an argument, with [None] for [NaN], and
    [resolve] of node:path, which depends on the working directory.  Both
    are left open; messages for stderr under --verbose are not part of the
    model. *)
Variable Number : string -> JsNum.
Variable resolve : string -> string.

Definition switch (arg : string) : Case :=
  if String.eqb arg "--help" || String.eqb arg "-h" then case_help
  else if String.eqb arg "--config" then
    case_value (fun next => set_configPath (nullish next EmptyString))
  else if String.eqb arg "--cache-dir" then
    case_value (fun next => set_cacheDir (nullish next EmptyString))
  else if String.eqb arg "--days" then
    case_value (fun raw =>
      let n := match raw with Some raw => Number raw | None => None end in
      match n with
      | None => set_days (Some CONFIG_DEFAULTS.days)
      | Some n => set_days (Some (Z.max 1 (Z.min 365 n)))
      end)
  else if String.eqb arg "--no-synthesize" then case_flag (set_noSynthesize true)
  else if String.eqb arg "--force" then case_flag (set_force true)
  else if String.eqb arg "--verbose" then case_flag (set_verbose true)
  else if String.eqb arg "--hashes" then
    case_value (fun next =>
      set_hashes (List.filter truthy (split_comma (nullish next EmptyString))))
  else if String.eqb arg "--decision" then
    case_value (fun next => set_decision (nullish next "accepted"%string))
  else case_flag (fun o => o).

(** The loop [for (let i = 1; i < args.length; i++)] over the arguments
    that are left; [None] when a case printed the help and exited. *)
Fixpoint parse_flags (args : list string) (o : CliOptions.t) : option CliOptions.t :=
  match args with
  | [] => Some o
  | arg :: args =>
      match switch arg with
      | case_help => None
      | case_flag assign => parse_flags args (assign o)
      | case_value assign =>
          match args with
          | next :: args => parse_flags args (assign (Some next) o)
          | [] => Some (assign None o)
          end
      end
  end.

(** Parse CLI arguments into structured options. *)
Definition parseCliArgs (argv : list string) : Parsed :=
  let args := skipn 2 argv in
  match args with
  | [] => Usage
  | command :: rest =>
      (* Top-level --help before command parsing *)
      if String.eqb command "--help" || String.eqb command "-h" then Help
      else
        match command_of command with
        | None => Usage
        | Some command =>
            match
              parse_flags rest
                (CliOptions.mk command EmptyString EmptyString false false false
                   None [] "accepted"%string)
            with
            | None => Help
            | Some o =>
                (* Resolve relative paths from cwd *)
                let o :=
                  if truthy (CliOptions.configPath o)
                  then set_configPath (resolve (CliOptions.configPath o)) o else o in
                let o :=
                  if truthy (CliOptions.cacheDir o)
                  then set_cacheDir (resolve (CliOptions.cacheDir o)) o else o in
                Options o
            end
        end
  end.

(** Main entry point.  Of the commands only the refresh can raise here;
    the [catch] of the source then prints a status of its own, with none
    of the diagnostics gathered so far. *)
Definition main (ext : Collaborators) (argv : list string) : IO Output :=
  match parseCliArgs argv with
  | Help => ret Help_output
  | Usage => ret Usage_output
  | Options options =>
      match CliOptions.command options with
      | cmd_reset =>
          let* r := executeReset (CliOptions.cacheDir options) in ret (Reset_output r)
      | cmd_extract =>
          let* r := executeExtract (CliOptions.cacheDir options) in ret (Extract_output r)
      | cmd_review =>
          let* r := executeReview options in ret (Review_output r)
      | cmd_refresh =>
          let* r := executeRefresh ext options in
          match r with
          | Done r => ret (Refresh_output r)
          | Raised err =>
              let* text := String_of_error err in
              let diagnostics := createDiagnostics in
              ret (Refresh_output
                     (emitStatus failed
                        (diagnostics
                         ++ [ {| QueryError.topic := "main";
                                 QueryError.reason := "fatal: " ++ text;
                                 QueryError.stderr := None |} ])
                        None))
          end
      end
  end.

End Cli.

(** ** Notions of the specification, for stating the properties *)

(** Section 4.7: the success ratio of a gathering run, for [totalTopics]
    other than 0. *)
Definition success_ratio (successCount totalTopics : nat) : Q :=
  (inject_Z (Z.of_nat successCount) / inject_Z (Z.of_nat totalTopics))%Q.

Definition full_interval (config : CacheConfig.t) : Z :=
  nullish (CacheConfig.refreshIntervalDays config) 30.

Definition thin_interval (config : CacheConfig.t) : Z :=
  nullish (CacheConfig.thinCacheIntervalDays config) 7.

Definition ms_per_day : Z := 86400000.
Definition ms_per_hour : Z := 3600000.

(** Section 4.2: the thresholds in force, 25 and 40 unless overridden. *)
Definition min_score (options : option QualityFilterOptions.t) : Z :=
  match options with
  | Some {| QualityFilterOptions.minScore := Some n |} => n
  | _ => 25
  end.

Definition min_summary_length (options : option QualityFilterOptions.t) : Z :=
  match options with
  | Some {| QualityFilterOptions.minSummaryLength := Some n |} => n
  | _ => 40
  end.

(** Section 4.2: an item is rejected if its score is below [minScore] or
    its explanation is shorter than [minSummaryLength]. *)
Definition passes_quality
    (options : option QualityFilterOptions.t) (score : Z) (summary : string) : bool :=
  negb ((score <? min_score options)
        || (str_length summary <? min_summary_length options)).

(** An item of any of the three source categories. *)
Inductive RawItem : Type :=
| item_reddit (i : Reddit.item)
| item_x (i : X.item)
| item_web (i : Web.item).

Definition item_score (i : RawItem) : Z :=
  match i with
  | item_reddit i => Reddit.score i
  | item_x i => X.score i
  | item_web i => Web.score i
  end.

Definition item_summary (i : RawItem) : string :=
  match i with
  | item_reddit i => Reddit.why_relevant i
  | item_x i => X.why_relevant i
  | item_web i => Web.why_relevant i
  end.

Definition item_url (i : RawItem) : string :=
  match i with
  | item_reddit i => Reddit.url i
  | item_x i => X.url i
  | item_web i => Web.url i
  end.

(** Section 4.3, step 1: the finding an item maps to. *)
Definition finding_of (topic : string) (i : RawItem) : Finding.t :=
  match i with
  | item_reddit i =>
      Finding.mk (sha256 (Reddit.url i)) type_reddit topic (Reddit.title i)
        (Reddit.why_relevant i) (Reddit.url i) (Reddit.score i) (Reddit.date i)
  | item_x i =>
      Finding.mk (sha256 (X.url i)) type_x topic
        (if 120 <? str_length (X.text i)
         then (String.substring 0 120 (X.text i) ++ "...")%string
         else X.text i)
        (X.why_relevant i) (X.url i) (X.score i) (X.date i)
  | item_web i =>
      Finding.mk (sha256 (Web.url i)) type_web topic (Web.title i)
        (Web.why_relevant i) (Web.url i) (Web.score i) None
  end.

(** The items of a report: reddit, then x, then web. *)
Definition items_of (report : Last30DaysReport.t) : list RawItem :=
  map item_reddit (Last30DaysReport.reddit report)
  ++ map item_x (Last30DaysReport.x report)
  ++ map item_web (Last30DaysReport.web report).

(** Section 4.3, steps 1 and 2: the findings of the items that pass the
    quality filter, reports in their order and each report's items in
    theirs. *)
Definition candidates
    (reports : list Last30DaysReport.t) (options : option QualityFilterOptions.t)
    : list Finding.t :=
  flat_map
    (fun report =>
       map (finding_of (Last30DaysReport.topic report))
         (List.filter
            (fun i => passes_quality options (item_score i) (item_summary i))
            (items_of report)))
    reports.

(** A report that holds one item. *)
Definition single_report (topic : string) (i : RawItem) : Last30DaysReport.t :=
  match i with
  | item_reddit i => Last30DaysReport.mk topic [i] [] []
  | item_x i => Last30DaysReport.mk topic [] [i] []
  | item_web i => Last30DaysReport.mk topic [] [] [i]
  end.

(** Section 4.4: the entries of the ledger as [load] gives them. *)
Definition ledger (w : World) : list ReviewedEntry.t :=
  match reviewed_hashes_json (dir w) with
  | Holds h => ReviewedHashes.reviewed h
  | _ => []
  end.

Definition fingerprints (l : list ReviewedEntry.t) : list string :=
  map ReviewedEntry.hash l.

(** Section 4.6: the four conditions of freshness, on well-formed
    timestamps. *)
Definition fresh_by_spec (w : World) : bool :=
  match last_updated_json (dir w), staged_intel_md (dir w) with
  | Holds (Some m), Some _ =>
      match Date_new (CacheMetadata.last_updated m),
            Date_new (CacheMetadata.next_update_after m) with
      | Some lastUpdated, Some nextUpdate =>
          (clock w - lastUpdated <=? 60 * ms_per_day) && (clock w <? nextUpdate)
      | _, _ => false
      end
  | _, _ => false
  end.

(** The time of a timestamp as the engine of a world reads it. *)
Definition Date_in (w : World) (v : JsVal) : JsNum := Date_of (engine w) v.


(** A time value that a Date can hold. *)
Definition valid_time (t : Z) : Prop := - maxTime <= t <= maxTime.

(** Whether the fingerprint of an entry is one of a batch. *)
Definition in_batch (batch : list string) (r : ReviewedEntry.t) : bool :=
  bool_decide (ReviewedEntry.hash r ∈ batch).

(** Section 4.5: the staged reports, none when the file does not parse. *)
Definition staged_reports (w : World) : list Last30DaysReport.t :=
  match staged_raw_json (dir w) with
  | Holds reports => reports
  | _ => []
  end.

(** Section 4.5: a finding whose fingerprint has no ledger entry. *)
Definition is_unreviewed (w : World) (f : Finding.t) : bool :=
  negb (bool_decide (Finding.hash f ∈ fingerprints (ledger w))).



(** ** Further notions, for the properties of the commands *)

(** Whether the fingerprint of a finding is one of a list. *)
Definition hash_in (hs : list string) (f : Finding.t) : bool :=
  bool_decide (Finding.hash f ∈ hs).

(** The fingerprints of a list of findings. *)
Definition hashes_of (l : list Finding.t) : list string := map Finding.hash l.

(** The same directory at another time. *)
Definition at_time (t : Z) (w : World) : World := mkRuntime (dir w) t (engine w).

(** The number of queries of a gathering run that returned data, as the
    refresh command counts them. *)
Definition success_count (results : list (option Last30DaysReport.t)) : nat :=
  length (List.filter
            (fun r => match r with Some r => hasData r | None => false end)
            results).

(** The lookback window of a refresh: the flag, then the configuration,
    then the default. *)
Definition lookback_days (options : CliOptions.t) (config : CacheConfig.t) : Z :=
  nullish (CliOptions.days options)
    (nullish (CacheConfig.days config) CONFIG_DEFAULTS.days).

(** What the gathering run of a refresh returned and pushed. *)
Definition gathered (ext : Collaborators) (options : CliOptions.t) (config : CacheConfig.t)
    : list (option Last30DaysReport.t) * list QueryError.t :=
  gatherTopics ext (CacheConfig.topics config) (CliOptions.verbose options)
    (lookback_days options config).

(** A refresh that gets as far as gathering: both paths are given, the
    configuration is read and names a topic, and the cache is not fresh or
    the refresh is forced. *)
Definition refresh_gathers
    (ext : Collaborators) (options : CliOptions.t) (config : CacheConfig.t) (w : World)
    : Prop :=
  CliOptions.configPath options <> EmptyString
  /\ CliOptions.cacheDir options <> EmptyString
  /\ readJsonFileSync ext (CliOptions.configPath options) = inr config
  /\ CacheConfig.topics config <> []
  /\ (CliOptions.force options = true \/ fst (isCacheFresh w) = false).

(** A text that holds no comma. *)
Definition comma_free (s : string) : Prop := ~ In ","%char (list_ascii_of_string s).

(** ** Calendar checks for the round trip of timestamps *)

(** First day, counted from the start of the era, of a year of the era. *)
Definition era_year_start (yoe : Z) : Z := yoe * 365 + yoe / 4 - yoe / 100.

(** The year of the era that [civil_from_days] assigns to a day of it. *)
Definition era_year_of (doe : Z) : Z :=
  (doe - doe / 1460 + doe / 36524 - doe / 146096) / 365.

(** A year of the era: its first and last day are assigned to it, and it
    has 365 days, or 366 when the civil year in which it ends is leap. *)
Definition era_year_ok (yoe : Z) : bool :=
  let s := era_year_start yoe in
  let s' := era_year_start (yoe + 1) in
  (era_year_of s =? yoe) && (era_year_of (s' - 1) =? yoe)
  && ((s' - s =? 365) || ((s' - s =? 366) && is_leap (yoe + 1))).

(** A day of a year that starts on 1 March: month and day are in range
    and [days_from_civil] leads back to it. *)
Definition year_day_ok (doy : Z) : bool :=
  let mp := (5 * doy + 2) / 153 in
  let d := doy - (153 * mp + 2) / 5 + 1 in
  let m := if mp <? 10 then mp + 3 else mp - 9 in
  (1 <=? m) && (m <=? 12) && (1 <=? d)
  && ((d <=? days_in_month 1 m) || ((doy =? 365) && (m =? 2) && (d =? 29)))
  && ((153 * (if 2 <? m then m - 3 else m + 9) + 2) / 5 + d - 1 =? doy).

(** ** Inputs of the replayed tests *)

Definition test_now : Z := 1767225600000.

Definition test_metadata (lastUpdated nextUpdate : Z) : CacheMetadata.t :=
  CacheMetadata.mk (VString (toISOString lastUpdated)) ["test"]%string
    (VString (toISOString nextUpdate)).

Definition test_dir (metadata : File (option CacheMetadata.t)) (intel : bool) : World :=
  mkWorld
    (mkCacheDir metadata (if intel then Some "# test"%string else None) Missing Missing)
    test_now.

Fixpoint repeat_char (c : ascii) (n : nat) : string :=
  match n with
  | O => EmptyString
  | S k => String c (repeat_char c k)
  end.

(** * Properties *)

(** Unfold the primitives of a command down to its state function. *)
Ltac unfold_io :=
  unfold bind, ret, pathExistsSync, readJsonFileOrDefault, writeJsonFileAtomic,
    writeTextFileAtomic, ensureDir, Date_now, new_Date;
  cbv beta.

Lemma dir_set_dir (d : CacheDir) (w : World) : dir (set_dir d w) = d.
Proof. reflexivity. Qed.

Lemma clock_set_dir (d : CacheDir) (w : World) : clock (set_dir d w) = clock w.
Proof. reflexivity. Qed.

Lemma engine_set_dir (d : CacheDir) (w : World) : engine (set_dir d w) = engine w.
Proof. reflexivity. Qed.

Lemma set_dir_same (w : World) : set_dir (dir w) w = w.
Proof. now destruct w. Qed.

(** ** Lists: loops that push, and filters *)

Section ListFacts.

Context {A : Type}.

Lemma fold_left_push {B : Type} (keep : A -> bool) (f : A -> B) (items : list A) :
  forall acc : list B,
    fold_left (fun acc item => if keep item then acc ++ [f item] else acc) items acc
    = acc ++ map f (List.filter keep items).
Proof.
  induction items as [|item items IH]; intros acc; simpl.
  - now rewrite app_nil_r.
  - rewrite IH. destruct (keep item); simpl; [|reflexivity].
    now rewrite <- app_assoc.
Qed.

Lemma fold_left_ext_in {B : Type} (f g : B -> A -> B) (l : list A) :
  (forall b a, f b a = g b a) -> forall b, fold_left f l b = fold_left g l b.
Proof.
  intros H. induction l as [|a l IH]; intros b; simpl; [reflexivity|].
  now rewrite H, IH.
Qed.

Lemma filter_app_disjoint (p : A -> bool) (l1 l2 : list A) :
  (forall a, In a l1 -> p a = false) ->
  (forall a, In a l2 -> p a = true) ->
  List.filter p (l1 ++ l2) = l2.
Proof.
  intros H1 H2. rewrite List.filter_app.
  assert (E1 : List.filter p l1 = []).
  { induction l1 as [|a l1 IH]; simpl; [reflexivity|].
    rewrite (H1 a) by now left. apply IH. intros b Hb. apply H1. now right. }
  assert (E2 : List.filter p l2 = l2).
  { induction l2 as [|a l2 IH]; simpl; [reflexivity|].
    rewrite (H2 a) by now left. f_equal. apply IH. intros b Hb. apply H2. now right. }
  now rewrite E1, E2.
Qed.

Lemma filter_idem_ext (p q : A -> bool) (l : list A) :
  (forall a, p a = q a) -> List.filter p l = List.filter q l.
Proof. intros H. induction l as [|a l IH]; simpl; [reflexivity|]. now rewrite H, IH. Qed.

Lemma filter_idem (p : A -> bool) (l : list A) :
  List.filter p (List.filter p l) = List.filter p l.
Proof.
  induction l as [|a l IH]; simpl; [reflexivity|].
  destruct (p a) eqn:E; simpl; [rewrite E; f_equal|]; exact IH.
Qed.

Lemma filter_nil_iff (p : A -> bool) (l : list A) :
  List.filter p l = [] <-> forall a, In a l -> p a = false.
Proof.
  induction l as [|a l IH]; simpl.
  - split; [intros _ ? []|reflexivity].
  - destruct (p a) eqn:E.
    + split; [discriminate|]. intros H. specialize (H a (or_introl eq_refl)). congruence.
    + rewrite IH. split.
      * intros H b [<-|Hb]; [exact E|now apply H].
      * intros H b Hb. apply H. now right.
Qed.

Lemma length_zero_eqb (l : list A) :
  Nat.eqb (length l) 0 = match l with [] => true | _ => false end.
Proof. now destruct l. Qed.

Lemma filter_sublist (p : A -> bool) (l : list A) :
  sublist (List.filter p l) l.
Proof.
  induction l as [|a l IH]; simpl; [constructor|].
  destruct (p a); [now apply sublist_skip|now apply sublist_cons].
Qed.

End ListFacts.

(** ** Interval policy *)

Lemma below_half_spec (s t : nat) :
  below_half s t = true <-> (2 * s < t)%nat.
Proof.
  unfold below_half, js_lt_q.
  rewrite negb_true_iff, <- not_true_iff_false, Qle_bool_iff.
  unfold Qle, Qdiv, Qmult, Qinv, inject_Z. simpl.
  lia.
Qed.

Lemma success_ratio_ge_half (s t : nat) :
  (0 < t)%nat ->
  ((1 # 2) <= success_ratio s t)%Q <-> (t <= 2 * s)%nat.
Proof.
  intros Ht. unfold success_ratio.
  assert (Hq : (0 < inject_Z (Z.of_nat t))%Q).
  { unfold Qlt, inject_Z. simpl. lia. }
  split.
  - intros H.
    apply (Qmult_le_compat_r _ _ (inject_Z (Z.of_nat t))) in H;
      [|apply Qlt_le_weak, Hq].
    unfold Qdiv in H.
    rewrite <- Qmult_assoc, (Qmult_comm (/ _)), Qmult_inv_r, Qmult_1_r in H.
    + unfold Qle, Qmult, inject_Z in H. simpl in H. lia.
    + intros E. rewrite E in Hq. discriminate.
  - intros H. apply Qle_shift_div_l; [exact Hq|].
    unfold Qle, Qmult, inject_Z. simpl. lia.
Qed.

Lemma getIntervalDays_cases (s t : nat) (config : CacheConfig.t) :
  getIntervalDays s t config
  = if below_half s t then thin_interval config else full_interval config.
Proof. reflexivity. Qed.

Lemma timeClip_valid (t : Z) : valid_time t -> timeClip t = Some t.
Proof.
  unfold valid_time, timeClip, maxTime. intros V.
  destruct (Z.abs t <=? 8640000000000000) eqn:T; [reflexivity|].
  apply Z.leb_gt in T. lia.
Qed.

Lemma timeClip_invalid (t : Z) : ~ valid_time t -> timeClip t = None.
Proof.
  unfold valid_time, timeClip, maxTime. intros V.
  destruct (Z.abs t <=? 8640000000000000) eqn:T; [|reflexivity].
  apply Z.leb_le in T. exfalso. apply V. lia.
Qed.

Lemma calculateNextUpdate_interval
    (s t : nat) (config : CacheConfig.t) (now : Z) :
  calculateNextUpdate s t config (Some now)
  = timeClip (now + getIntervalDays s t config * ms_per_day).
Proof.
  unfold calculateNextUpdate, getIntervalDays, ms_per_day. f_equal. lia.
Qed.

(** C3, amended.  The deadline is the time of the run plus the interval
    that [getIntervalDays] reports, provided that sum is a time a Date can
    hold; beyond that range the Date returned is invalid.  For a non-empty
    topic list the interval is [refreshIntervalDays] (30 unless configured)
    when the success ratio is at least one half, one half included, and
    [thinCacheIntervalDays] (7 unless configured) when it is below.  With
    no topic at all there is no ratio and the full interval is used. *)
Theorem calculateNextUpdate_policy
    (successCount totalTopics : nat) (config : CacheConfig.t) (now : Z) :
  let deadline := now + getIntervalDays successCount totalTopics config * ms_per_day in
  (valid_time deadline ->
   calculateNextUpdate successCount totalTopics config (Some now) = Some deadline)
  /\ (~ valid_time deadline ->
      calculateNextUpdate successCount totalTopics config (Some now) = None)
  /\ ((0 < totalTopics)%nat ->
      ((1 # 2) <= success_ratio successCount totalTopics)%Q ->
      getIntervalDays successCount totalTopics config = full_interval config
      /\ (valid_time (now + full_interval config * ms_per_day) ->
          calculateNextUpdate successCount totalTopics config (Some now)
          = Some (now + full_interval config * ms_per_day)))
  /\ ((0 < totalTopics)%nat ->
      (success_ratio successCount totalTopics < 1 # 2)%Q ->
      getIntervalDays successCount totalTopics config = thin_interval config
      /\ (valid_time (now + thin_interval config * ms_per_day) ->
          calculateNextUpdate successCount totalTopics config (Some now)
          = Some (now + thin_interval config * ms_per_day)))
  /\ (totalTopics = 0%nat ->
      getIntervalDays successCount totalTopics config = full_interval config)
  /\ (CacheConfig.refreshIntervalDays config = None -> full_interval config = 30)
  /\ (CacheConfig.thinCacheIntervalDays config = None -> thin_interval config = 7).
Proof.
  cbv zeta.
  pose proof (calculateNextUpdate_interval successCount totalTopics config now) as E.
  rewrite E, getIntervalDays_cases.
  split; [apply timeClip_valid|]. split; [apply timeClip_invalid|].
  assert (F : (0 < totalTopics)%nat ->
              ((1 # 2) <= success_ratio successCount totalTopics)%Q ->
              below_half successCount totalTopics = false).
  { intros H H0. apply success_ratio_ge_half in H0; [|exact H].
    destruct (below_half successCount totalTopics) eqn:B; [|reflexivity].
    apply below_half_spec in B. lia. }
  assert (T : (0 < totalTopics)%nat ->
              (success_ratio successCount totalTopics < 1 # 2)%Q ->
              below_half successCount totalTopics = true).
  { intros H H0.
    destruct (below_half successCount totalTopics) eqn:B; [reflexivity|].
    exfalso. apply Qlt_not_le in H0. apply H0.
    apply success_ratio_ge_half; [exact H|].
    destruct (le_lt_dec totalTopics (2 * successCount)) as [L|L]; [exact L|].
    apply below_half_spec in L. congruence. }
  split; [|split; [|split; [|split]]].
  - intros H H0. rewrite (F H H0). split; [reflexivity|apply timeClip_valid].
  - intros H H0. rewrite (T H H0). split; [reflexivity|apply timeClip_valid].
  - intros ->. destruct (below_half successCount 0) eqn:B; [|reflexivity].
    apply below_half_spec in B. lia.
  - unfold full_interval. now intros ->.
  - unfold thin_interval. now intros ->.
Qed.

(** The examples of the specification: two of four topics give the full
    interval, one of four the thin one. *)
Lemma calculateNextUpdate_policy_witness :
  let config := CacheConfig.mk ["a"; "b"; "c"; "d"]%string (Some 30) (Some 7)
                  None None None None in
  calculateNextUpdate 2 4 config (Some 1767225600000)
  = Some (1767225600000 + 30 * ms_per_day)
  /\ calculateNextUpdate 1 4 config (Some 1767225600000)
     = Some (1767225600000 + 7 * ms_per_day).
Proof.
  intros config.
  pose proof (calculateNextUpdate_policy 2 4 config 1767225600000) as (_ & _ & F & _).
  pose proof (calculateNextUpdate_policy 1 4 config 1767225600000) as (_ & _ & _ & T & _).
  split.
  - apply F; [lia | vm_compute; discriminate |].
    unfold valid_time. vm_compute. split; discriminate.
  - apply T; [lia | vm_compute; reflexivity |].
    unfold valid_time. vm_compute. split; discriminate.
Defined.

(** C3 as it was stated fails where the sum leaves the range of Date: an
    interval of 100,000,000 days from 2026 gives an invalid Date, not the
    time of the run plus that many days. *)
Lemma calculateNextUpdate_beyond_range :
  let config :=
    CacheConfig.mk ["topic"]%string (Some 100000000) None None None None None in
  getIntervalDays 1 1 config = 100000000
  /\ 1767225600000 + 100000000 * ms_per_day = 8641767225600000
  /\ calculateNextUpdate 1 1 config (Some 1767225600000) = None.
Proof. repeat split; vm_compute; reflexivity. Qed.

(** ** Extraction: the loops, the quality filter and first-occurrence dedup *)

Lemma min_score_nullish options :
  nullish (match options with
           | Some o => QualityFilterOptions.minScore o
           | None => None
           end) CONFIG_DEFAULTS.minScore = min_score options.
Proof. destruct options as [[[?|] ?]|]; reflexivity. Qed.

Lemma min_summary_length_nullish options :
  nullish (match options with
           | Some o => QualityFilterOptions.minSummaryLength o
           | None => None
           end) CONFIG_DEFAULTS.minSummaryLength = min_summary_length options.
Proof. destruct options as [[? [?|]]|]; reflexivity. Qed.

Lemma passes_quality_if {A : Type} options score summary (a b : A) :
  (if score <? min_score options then a
   else if str_length summary <? min_summary_length options then a else b)
  = if passes_quality options score summary then b else a.
Proof.
  unfold passes_quality.
  destruct (score <? _); [reflexivity|]. now destruct (str_length _ <? _).
Qed.

Lemma map_filter_inj {I : Type} (inj : I -> RawItem) (topic : string) options (l : list I) :
  map (finding_of topic)
    (List.filter (fun i => passes_quality options (item_score i) (item_summary i))
       (map inj l))
  = map (fun i => finding_of topic (inj i))
      (List.filter
         (fun i => passes_quality options (item_score (inj i)) (item_summary (inj i)))
         l).
Proof.
  induction l as [|a l IH]; simpl; [reflexivity|].
  destruct (passes_quality _ _ _); simpl; now rewrite IH.
Qed.

Lemma extractFindings_candidates reports options :
  extractFindings reports options = filter_unseen ∅ (candidates reports options).
Proof.
  unfold extractFindings. f_equal.
  rewrite min_score_nullish, min_summary_length_nullish.
  unfold candidates.
  match goal with
  | |- fold_left ?body reports [] = ?found =>
      enough (G : forall acc, fold_left body reports acc = acc ++ found)
        by apply (G [])
  end.
  induction reports as [|report reports IH]; intros acc; cbn [fold_left flat_map].
  - now rewrite app_nil_r.
  - rewrite IH. clear IH.
    set (topic := Last30DaysReport.topic report).
    rewrite (fold_left_ext_in _
      (fun acc item =>
         if passes_quality options (Reddit.score item) (Reddit.why_relevant item)
         then acc ++ [finding_of topic (item_reddit item)] else acc)
      (Last30DaysReport.reddit report))
      by (intros; apply passes_quality_if).
    rewrite fold_left_push.
    rewrite (fold_left_ext_in _
      (fun acc item =>
         if passes_quality options (X.score item) (X.why_relevant item)
         then acc ++ [finding_of topic (item_x item)] else acc)
      (Last30DaysReport.x report))
      by (intros; apply passes_quality_if).
    rewrite fold_left_push.
    rewrite (fold_left_ext_in _
      (fun acc item =>
         if passes_quality options (Web.score item) (Web.why_relevant item)
         then acc ++ [finding_of topic (item_web item)] else acc)
      (Last30DaysReport.web report))
      by (intros; apply passes_quality_if).
    rewrite fold_left_push.
    unfold items_of.
    rewrite !List.filter_app, !map_app, !map_filter_inj, <- !app_assoc.
    reflexivity.
Qed.

Lemma filter_unseen_sublist seen (l : list Finding.t) :
  sublist (filter_unseen seen l) l.
Proof.
  revert seen. induction l as [|f l IH]; intros seen; simpl.
  - constructor.
  - case_decide.
    + apply sublist_cons, IH.
    + apply sublist_skip, IH.
Qed.

Lemma filter_unseen_fresh seen (l : list Finding.t) f :
  f ∈ filter_unseen seen l -> Finding.hash f ∉ seen.
Proof.
  revert seen. induction l as [|g l IH]; intros seen; simpl.
  - intros H. inversion H.
  - case_decide as Hg.
    + apply IH.
    + intros [->|H]%elem_of_cons; [exact Hg|].
      apply IH in H. set_solver.
Qed.

Lemma filter_unseen_NoDup seen (l : list Finding.t) :
  NoDup (map Finding.hash (filter_unseen seen l)).
Proof.
  revert seen. induction l as [|g l IH]; intros seen; simpl.
  - constructor.
  - case_decide as Hg; [apply IH|].
    simpl. apply NoDup_cons. split; [|apply IH].
    rewrite list_elem_of_In, in_map_iff.
    intros (f & Hf & Hin%list_elem_of_In).
    apply filter_unseen_fresh in Hin. rewrite Hf in Hin. set_solver.
Qed.

Lemma filter_unseen_covers seen (l : list Finding.t) c :
  c ∈ l ->
  Finding.hash c ∈ seen \/ Finding.hash c ∈ map Finding.hash (filter_unseen seen l).
Proof.
  revert seen. induction l as [|g l IH]; intros seen; simpl.
  - intros H. inversion H.
  - intros [->|H]%elem_of_cons.
    + case_decide; [now left|]. right. simpl. apply elem_of_cons. now left.
    + case_decide as Hg.
      * now apply IH.
      * destruct (IH ({[Finding.hash g]} ∪ seen) H) as [Hs|Hs].
        -- apply elem_of_union in Hs as [Hs|Hs]; [|now left].
           apply elem_of_singleton in Hs. right. simpl. rewrite Hs.
           apply elem_of_cons. now left.
        -- right. simpl. apply elem_of_cons. now right.
Qed.


Lemma filter_unseen_length seen (l : list Finding.t) :
  length (filter_unseen seen l)
  = size ((list_to_set (map Finding.hash l) : gset string) ∖ seen).
Proof.
  revert seen. induction l as [|g l IH]; intros seen.
  - cbn [filter_unseen map length]. rewrite list_to_set_nil.
    assert (E : (∅ : gset string) ∖ seen = ∅) by set_solver.
    now rewrite E, size_empty.
  - cbn [filter_unseen map]. rewrite list_to_set_cons.
    set (h := Finding.hash g). set (R := list_to_set (map Finding.hash l) : gset string).
    case_decide as Hg.
    + rewrite IH. fold R. f_equal. set_solver.
    + cbn [length]. rewrite IH. fold R.
      assert (E : ({[h]} ∪ R) ∖ seen = {[h]} ∪ R ∖ ({[h]} ∪ seen)).
      { apply set_eq. intros k.
        rewrite !elem_of_union, !elem_of_difference, !elem_of_union, !elem_of_singleton.
        destruct (decide (k = h)) as [->|Hne]; tauto. }
      rewrite E, (size_union {[h]} (R ∖ ({[h]} ∪ seen))) by set_solver.
      now rewrite size_singleton.
Qed.

Lemma extractFindings_single topic item options :
  extractFindings [single_report topic item] options
  = if passes_quality options (item_score item) (item_summary item)
    then [finding_of topic item] else [].
Proof.
  rewrite extractFindings_candidates. unfold candidates, items_of.
  destruct item as [i|i|i]; cbn [single_report flat_map map app List.filter
    Last30DaysReport.reddit Last30DaysReport.x Last30DaysReport.web
    Last30DaysReport.topic item_score item_summary];
    destruct (passes_quality _ _ _); reflexivity.
Qed.

Lemma passes_quality_spec options score summary :
  passes_quality options score summary = false
  <-> score < min_score options \/ str_length summary < min_summary_length options.
Proof.
  unfold passes_quality.
  rewrite negb_false_iff, orb_true_iff, !Z.ltb_lt. reflexivity.
Qed.

Lemma single_rejected_iff topic item options :
  extractFindings [single_report topic item] options = []
  <-> item_score item < min_score options
      \/ str_length (item_summary item) < min_summary_length options.
Proof.
  rewrite extractFindings_single, <- passes_quality_spec.
  destruct (passes_quality _ _ _); split; congruence.
Qed.

Lemma single_kept_iff topic item options :
  extractFindings [single_report topic item] options = [finding_of topic item]
  <-> min_score options <= item_score item
      /\ min_summary_length options <= str_length (item_summary item).
Proof.
  rewrite extractFindings_single.
  destruct (passes_quality _ _ _) eqn:P.
  - split; [intros _|reflexivity].
    destruct (Z_lt_le_dec (item_score item) (min_score options)) as [L|L].
    + assert (F : passes_quality options (item_score item) (item_summary item) = false)
        by (apply passes_quality_spec; now left).
      congruence.
    + split; [exact L|].
      destruct (Z_lt_le_dec (str_length (item_summary item))
                  (min_summary_length options)) as [M|M]; [|exact M].
      assert (F : passes_quality options (item_score item) (item_summary item) = false)
        by (apply passes_quality_spec; now right).
      congruence.
  - apply passes_quality_spec in P. split; [discriminate|lia].
Qed.



(** C6, amended.  An item is rejected exactly when its score is below
    [minScore] or its explanation is shorter than [minSummaryLength] (25 and
    40 unless overridden); otherwise its finding is kept.  An item that
    meets both thresholds exactly is kept and one whose score is
    [minScore - 1] is rejected.  A [minSummaryLength] of 0 rejects no item
    for its explanation; a [minScore] of 0 rejects no item whose score is
    not negative. *)
Theorem quality_filter_thresholds
    (topic : string) (item : RawItem) (options : option QualityFilterOptions.t) :
  let rejected := extractFindings [single_report topic item] options = [] in
  let kept :=
    extractFindings [single_report topic item] options = [finding_of topic item] in
  (rejected <->
     item_score item < min_score options
     \/ str_length (item_summary item) < min_summary_length options)
  /\ (kept <->
        min_score options <= item_score item
        /\ min_summary_length options <= str_length (item_summary item))
  /\ (item_score item = min_score options ->
      str_length (item_summary item) = min_summary_length options -> kept)
  /\ (item_score item = min_score options - 1 -> rejected)
  /\ (min_summary_length options = 0 ->
      (rejected <-> item_score item < min_score options))
  /\ (min_score options = 0 -> 0 <= item_score item ->
      (rejected <-> str_length (item_summary item) < min_summary_length options))
  /\ min_score None = 25
  /\ min_summary_length None = 40.
Proof.
  cbv zeta. rewrite single_rejected_iff, single_kept_iff.
  assert (L : 0 <= str_length (item_summary item)) by (unfold str_length; lia).
  repeat split; try tauto; lia.
Qed.

(** A score equal to the default threshold and an explanation of exactly
    the default length pass. *)
Lemma quality_filter_thresholds_witness :
  let item :=
    item_reddit (Reddit.mk "Test Post" "https://reddit.com/r/test/1" "test"
                   (Some "2025-01-01") "AAAAAAAAAAAAAAAAAAAAAAAAAAAAAAAAAAAAAAAA"
                   25 [])%string in
  extractFindings [single_report "test-topic" item] None
  = [finding_of "test-topic" item].
Proof.
  intros item.
  pose proof (quality_filter_thresholds "test-topic" item None) as (_ & _ & B & _).
  apply B; reflexivity.
Defined.

(** With both thresholds set to 0 an item whose score is negative is still
    rejected by the score test. *)
Lemma zero_min_score_rejects_negative_score :
  let item :=
    item_reddit (Reddit.mk "Test Post" "https://reddit.com/r/test/1" "test"
                   (Some "2025-01-01")
                   "This is a relevant finding with enough detail to pass"
                   (-1) [])%string in
  let options := Some (QualityFilterOptions.mk (Some 0) (Some 0)) in
  min_score options = 0
  /\ extractFindings [single_report "test-topic" item] options = [].
Proof. split; reflexivity. Qed.

(** ** The review ledger *)

Lemma executeReview_run (options : CliOptions.t) (w : World) :
  CliOptions.cacheDir options <> EmptyString ->
  CliOptions.hashes options <> [] ->
  CliOptions.decision options = "accepted"%string
  \/ CliOptions.decision options = "rejected"%string ->
  executeReview options w
  = (Returned
       {| ReviewReport.status := "recorded";
          ReviewReport.count := length (CliOptions.hashes options);
          ReviewReport.decision := CliOptions.decision options |},
     set_dir
       (mkCacheDir (last_updated_json (dir w)) (staged_intel_md (dir w))
          (staged_raw_json (dir w))
          (Holds
             {| ReviewedHashes.version :=
                  match reviewed_hashes_json (dir w) with
                  | Holds h => ReviewedHashes.version h
                  | _ => 1
                  end;
                ReviewedHashes.reviewed :=
                  List.filter (fun r => negb (in_batch (CliOptions.hashes options) r))
                    (ledger w)
                  ++ map (fun h =>
                            ReviewedEntry.mk h (CliOptions.decision options)
                              (toISOString (clock w)))
                       (CliOptions.hashes options) |}))
       w).
Proof.
  intros Hdir Hbatch Hdec. unfold executeReview.
  apply String.eqb_neq in Hdir. rewrite Hdir.
  destruct (CliOptions.hashes options) as [|h0 batch] eqn:Eh; [congruence|].
  cbn [length Nat.eqb].
  assert (Hinc : includes ["accepted"; "rejected"]%string (CliOptions.decision options) = true).
  { unfold includes. cbn [existsb]. destruct Hdec as [-> | ->]; reflexivity. }
  rewrite Hinc. cbn [negb].
  unfold_io. unfold ledger. cbn [load store reviewedPath dir clock].
  rewrite length_map.
  assert (F : forall l : list ReviewedEntry.t,
    List.filter
      (fun r => negb (bool_decide
         (ReviewedEntry.hash r ∈
            (list_to_set
               (map ReviewedEntry.hash
                  (map (fun hash =>
                          {| ReviewedEntry.hash := hash;
                             ReviewedEntry.decision := CliOptions.decision options;
                             ReviewedEntry.date := toISOString (clock w) |})
                     (h0 :: batch))) : gset string)))) l
    = List.filter (fun r => negb (in_batch (h0 :: batch) r)) l).
  { intros l. apply filter_idem_ext. intros r. unfold in_batch. f_equal.
    apply bool_decide_ext. rewrite elem_of_list_to_set, map_map.
    cbn [ReviewedEntry.hash]. now rewrite map_id. }
  rewrite F.
  destruct (reviewed_hashes_json (dir w)) as [| |h]; reflexivity.
Qed.

Lemma fingerprints_filter_NoDup (p : ReviewedEntry.t -> bool) (l : list ReviewedEntry.t) :
  NoDup (fingerprints l) -> NoDup (fingerprints (List.filter p l)).
Proof.
  unfold fingerprints. induction l as [|a l IH]; simpl; [trivial|].
  rewrite NoDup_cons. intros [Ha Hl]. destruct (p a); simpl; [|now apply IH].
  apply NoDup_cons. split; [|now apply IH].
  rewrite list_elem_of_In, in_map_iff. intros (b & Eb & Hb%filter_In).
  apply Ha. rewrite list_elem_of_In, in_map_iff. exists b. tauto.
Qed.

(** C2, amended.  A review that runs (a cache directory, a non-empty batch,
    a decision that is accepted or rejected) leaves in the ledger the prior
    entries whose fingerprint is not in the batch, as they were and in their
    order, followed by one new entry per element of the batch with the
    decision and the time of the run: every prior entry of a batch
    fingerprint is gone.  If the batch repeats no fingerprint and the prior
    ledger had at most one entry per fingerprint, so has the new ledger.  The
    other files are untouched. *)
Theorem executeReview_ledger (options : CliOptions.t) (w : World) :
  CliOptions.cacheDir options <> EmptyString ->
  CliOptions.hashes options <> [] ->
  CliOptions.decision options = "accepted"%string
  \/ CliOptions.decision options = "rejected"%string ->
  let batch := CliOptions.hashes options in
  let w' := snd (executeReview options w) in
  let added :=
    map (fun h =>
           ReviewedEntry.mk h (CliOptions.decision options) (toISOString (clock w)))
        batch in
  ledger w' = List.filter (fun r => negb (in_batch batch r)) (ledger w) ++ added
  /\ List.filter (in_batch batch) (ledger w') = added
  /\ List.filter (fun r => negb (in_batch batch r)) (ledger w')
     = List.filter (fun r => negb (in_batch batch r)) (ledger w)
  /\ (NoDup batch -> NoDup (fingerprints (ledger w)) ->
      NoDup (fingerprints (ledger w')))
  /\ last_updated_json (dir w') = last_updated_json (dir w)
  /\ staged_intel_md (dir w') = staged_intel_md (dir w)
  /\ staged_raw_json (dir w') = staged_raw_json (dir w).
Proof.
  intros Hdir Hbatch Hdec. cbv zeta.
  rewrite (executeReview_run options w Hdir Hbatch Hdec).
  cbn [snd]. rewrite !dir_set_dir.
  cbn [last_updated_json staged_intel_md staged_raw_json].
  set (batch := CliOptions.hashes options).
  set (kept := List.filter (fun r => negb (in_batch batch r)) (ledger w)).
  set (added := map _ batch).
  set (w' := set_dir _ _).
  assert (E : ledger w' = kept ++ added) by reflexivity.
  rewrite !E. clearbody w'.
  assert (Hkept : forall r, In r kept -> in_batch batch r = false).
  { intros r [_ Hr]%filter_In. now apply negb_true_iff in Hr. }
  assert (Hadded : forall r, In r added -> in_batch batch r = true).
  { intros r (h & <- & Hh)%in_map_iff. unfold in_batch. cbn.
    apply bool_decide_eq_true. now apply list_elem_of_In. }
  split; [reflexivity|].
  split; [now apply filter_app_disjoint|].
  split.
  { rewrite List.filter_app. unfold kept at 1. rewrite filter_idem. fold kept.
    assert (E0 : List.filter (fun r => negb (in_batch batch r)) added = []).
    { clear -Hadded. induction added as [|a l IH]; simpl; [reflexivity|].
      rewrite (Hadded a) by now left. simpl. apply IH. intros r Hr. apply Hadded. now right. }
    rewrite E0. apply app_nil_r. }
  split; [|repeat split; reflexivity].
  intros Nb Nl. unfold fingerprints. rewrite map_app.
  apply NoDup_app. split; [now apply fingerprints_filter_NoDup|].
  assert (Ea : map ReviewedEntry.hash added = batch).
  { unfold added. rewrite map_map. cbn. apply map_id. }
  rewrite Ea. split; [|exact Nb].
  intros h. rewrite list_elem_of_In, in_map_iff. intros (r & <- & Hr) Hin.
  apply Hkept in Hr. unfold in_batch in Hr. apply bool_decide_eq_false in Hr. tauto.
Qed.

(** One fingerprint re-reviewed: its accepted entry is replaced by the
    rejected one, the entry of the other fingerprint stays. *)
Lemma executeReview_ledger_witness :
  let options :=
    CliOptions.mk cmd_review EmptyString "/cache" false false false None
      ["h1"]%string "rejected" in
  let w :=
    mkWorld
      (mkCacheDir Missing None Missing
         (Holds (ReviewedHashes.mk 1
                   [ ReviewedEntry.mk "h1" "accepted" "2026-01-01T00:00:00.000Z";
                     ReviewedEntry.mk "h2" "accepted" "2026-01-01T00:00:00.000Z" ])))
      1767312000000 in
  ledger (snd (executeReview options w))
  = [ ReviewedEntry.mk "h2" "accepted" "2026-01-01T00:00:00.000Z";
      ReviewedEntry.mk "h1" "rejected" "2026-01-02T00:00:00.000Z" ]
  /\ NoDup (fingerprints (ledger (snd (executeReview options w)))).
Proof.
  intros options w.
  destruct (executeReview_ledger options w) as (E & _ & _ & N & _);
    [discriminate | discriminate | now right |].
  split.
  - rewrite E. vm_compute. reflexivity.
  - apply N; refine (bool_decide_unpack _ _); vm_compute; exact I.
Defined.

(** A batch that names a fingerprint twice leaves two entries for it, and a
    later review of another fingerprint keeps both. *)
Lemma executeReview_repeated_fingerprint :
  let twice :=
    CliOptions.mk cmd_review EmptyString "/cache" false false false None
      ["a"; "a"]%string "accepted" in
  let other :=
    CliOptions.mk cmd_review EmptyString "/cache" false false false None
      ["b"]%string "rejected" in
  let w := mkWorld (mkCacheDir Missing None Missing Missing) 1767225600000 in
  let w1 := snd (executeReview twice w) in
  let w2 := snd (executeReview other w1) in
  fingerprints (ledger w1) = ["a"; "a"]%string
  /\ fingerprints (ledger w2) = ["a"; "a"; "b"]%string.
Proof. split; vm_compute; reflexivity. Qed.

(** ** The unreviewed-findings query *)

Lemma getUnreviewedFindings_run options (w : World) :
  getUnreviewedFindings options w
  = (match staged_raw_json (dir w) with
     | Missing => {| ExtractResult.status := no_staged; ExtractResult.findings := [] |}
     | _ =>
         match List.filter (is_unreviewed w) (extractFindings (staged_reports w) options) with
         | [] => {| ExtractResult.status := no_new; ExtractResult.findings := [] |}
         | unreviewed =>
             {| ExtractResult.status := has_new; ExtractResult.findings := unreviewed |}
         end
     end, w).
Proof.
  unfold getUnreviewedFindings. unfold_io.
  cbn [path_exists path_of load rawPath reviewedPath].
  assert (F : forall l,
    List.filter
      (fun f => negb (bool_decide
         (Finding.hash f ∈
            (list_to_set
               (map ReviewedEntry.hash
                  (ReviewedHashes.reviewed
                     match reviewed_hashes_json (dir w) with
                     | Holds a => a
                     | _ => {| ReviewedHashes.version := 1; ReviewedHashes.reviewed := [] |}
                     end)) : gset string)))) l
    = List.filter (is_unreviewed w) l).
  { intros l. apply filter_idem_ext. intros f. unfold is_unreviewed. f_equal.
    apply bool_decide_ext. rewrite elem_of_list_to_set. unfold fingerprints, ledger.
    now destruct (reviewed_hashes_json (dir w)). }
  unfold staged_reports.
  destruct (staged_raw_json (dir w)) as [| |reports] eqn:E;
    cbn [is_file negb fst snd]; cbv beta iota zeta; rewrite ?E.
  - reflexivity.
  - reflexivity.
  - rewrite length_zero_eqb.
    destruct (extractFindings reports options) as [|f fs] eqn:X; [reflexivity|].
    cbv beta iota zeta. rewrite length_zero_eqb, F.
    destruct (List.filter (is_unreviewed w) (f :: fs)); reflexivity.
Qed.

Lemma is_unreviewed_spec (w : World) (f : Finding.t) :
  is_unreviewed w f = true <-> Finding.hash f ∉ fingerprints (ledger w).
Proof.
  unfold is_unreviewed. rewrite negb_true_iff. apply bool_decide_eq_false.
Qed.

(** C7.  [getUnreviewedFindings] leaves the directory as it found it, so
    a second call returns what the first did.  Its status is [no_staged]
    when staged-raw.json is absent; [no_new], with no finding, when the file
    is there and nothing is extracted or every extracted finding's
    fingerprint has a ledger entry; [has_new] when some extracted finding's
    fingerprint has none, and the findings are then exactly the extracted
    findings without a ledger entry, in extraction order. *)
Theorem getUnreviewedFindings_status
    (options : option QualityFilterOptions.t) (w : World) :
  let result := fst (getUnreviewedFindings options w) in
  let extracted := extractFindings (staged_reports w) options in
  let unreviewed := List.filter (is_unreviewed w) extracted in
  snd (getUnreviewedFindings options w) = w
  /\ (staged_raw_json (dir w) = Missing ->
      result = ExtractResult.mk no_staged [])
  /\ (staged_raw_json (dir w) <> Missing -> extracted = [] ->
      result = ExtractResult.mk no_new [])
  /\ (staged_raw_json (dir w) <> Missing ->
      (forall f, In f extracted -> Finding.hash f ∈ fingerprints (ledger w)) ->
      result = ExtractResult.mk no_new [])
  /\ (staged_raw_json (dir w) <> Missing ->
      (exists f, In f extracted /\ Finding.hash f ∉ fingerprints (ledger w)) ->
      result = ExtractResult.mk has_new unreviewed)
  /\ (forall f, In f unreviewed <->
                In f extracted /\ Finding.hash f ∉ fingerprints (ledger w))
  /\ sublist unreviewed extracted
  /\ getUnreviewedFindings options (snd (getUnreviewedFindings options w))
     = getUnreviewedFindings options w.
Proof.
  cbv zeta. rewrite !getUnreviewedFindings_run. cbn [fst snd].
  split; [reflexivity|].
  split; [now intros ->|].
  split.
  { intros Hm ->. now destruct (staged_raw_json (dir w)). }
  split.
  { intros Hm Hall.
    assert (E : List.filter (is_unreviewed w) (extractFindings (staged_reports w) options) = []).
    { apply filter_nil_iff. intros f Hf. apply not_true_iff_false.
      rewrite is_unreviewed_spec. intros Hn. apply Hn, Hall, Hf. }
    rewrite E. now destruct (staged_raw_json (dir w)). }
  split.
  { intros Hm (f & Hf & Hn).
    destruct (List.filter (is_unreviewed w) (extractFindings (staged_reports w) options))
      as [|u us] eqn:E.
    - exfalso. rewrite filter_nil_iff in E. specialize (E f Hf).
      apply is_unreviewed_spec in Hn. congruence.
    - now destruct (staged_raw_json (dir w)). }
  split.
  { intros f. rewrite filter_In, is_unreviewed_spec. reflexivity. }
  split; [apply filter_sublist|].
  reflexivity.
Qed.

(** One staged finding and no ledger: it is reported as new, and again on
    a second call. *)
Lemma getUnreviewedFindings_status_witness :
  let item :=
    Reddit.mk "Test Post" "https://reddit.com/r/test/1" "test" (Some "2025-01-01")
      "This is a relevant finding with enough detail to pass the quality filter"
      100 [] in
  let reports := [ Last30DaysReport.mk "test-topic" [item] [] [] ]%string in
  let w := mkWorld (mkCacheDir Missing None (Holds reports) Missing) 1767225600000 in
  fst (getUnreviewedFindings None w)
  = ExtractResult.mk has_new [finding_of "test-topic" (item_reddit item)]
  /\ getUnreviewedFindings None (snd (getUnreviewedFindings None w))
     = getUnreviewedFindings None w.
Proof.
  intros item reports w.
  pose proof (getUnreviewedFindings_status None w) as (_ & _ & _ & _ & N & _ & _ & I).
  split; [|exact I].
  rewrite N.
  - vm_compute. reflexivity.
  - discriminate.
  - exists (finding_of "test-topic" (item_reddit item)). split.
    + vm_compute. left. reflexivity.
    + apply not_elem_of_nil.
Defined.

(** C10.  When staged-raw.json is there but does not parse, the query
    returns [no_new] with no finding and changes nothing. *)
Theorem getUnreviewedFindings_unparsable_raw
    (options : option QualityFilterOptions.t) (w : World) :
  staged_raw_json (dir w) = Unparsable ->
  getUnreviewedFindings options w = (ExtractResult.mk no_new [], w).
Proof.
  intros E. rewrite getUnreviewedFindings_run. unfold staged_reports. rewrite E.
  reflexivity.
Qed.

Lemma getUnreviewedFindings_unparsable_raw_witness :
  let w := mkWorld (mkCacheDir Missing None Unparsable Missing) 1767225600000 in
  getUnreviewedFindings None w = (ExtractResult.mk no_new [], w).
Proof.
  intros w. apply (getUnreviewedFindings_unparsable_raw None w). reflexivity.
Defined.

(** ** Timestamps: parsing what [toISOString] wrote *)

Lemma in_upto (n : nat) (z : Z) :
  0 <= z < Z.of_nat n -> In z (map Z.of_nat (seq 0 n)).
Proof.
  intros H. apply in_map_iff. exists (Z.to_nat z). split; [lia|].
  apply in_seq. lia.
Qed.

Lemma era_years_ok : forallb era_year_ok (map Z.of_nat (seq 0 400)) = true.
Proof. vm_compute. reflexivity. Qed.

Lemma year_days_ok : forallb year_day_ok (map Z.of_nat (seq 0 366)) = true.
Proof. vm_compute. reflexivity. Qed.

Lemma era_year_ok_all (yoe : Z) : 0 <= yoe < 400 -> era_year_ok yoe = true.
Proof.
  intros H. pose proof era_years_ok as A. rewrite forallb_forall in A.
  apply A, (in_upto 400). lia.
Qed.

Lemma year_day_ok_all (doy : Z) : 0 <= doy < 366 -> year_day_ok doy = true.
Proof.
  intros H. pose proof year_days_ok as A. rewrite forallb_forall in A.
  apply A, (in_upto 366). lia.
Qed.

Lemma era_year_of_mono (a b : Z) :
  0 <= a <= b -> b < 146097 -> era_year_of a <= era_year_of b.
Proof.
  intros H Hb. unfold era_year_of. apply Z.div_le_mono; [lia|].
  Z.div_mod_to_equations. lia.
Qed.

Lemma era_year_exists (n : nat) (doe : Z) :
  (n <= 400)%nat -> 0 <= doe < era_year_start (Z.of_nat n) ->
  exists yoe, 0 <= yoe < Z.of_nat n
              /\ era_year_start yoe <= doe < era_year_start (yoe + 1).
Proof.
  induction n as [|n IH]; intros Hn H.
  - change (era_year_start (Z.of_nat 0)) with 0 in H. lia.
  - destruct (Z_lt_le_dec doe (era_year_start (Z.of_nat n))) as [L|L].
    + destruct IH as (yoe & Hy & Hr); [lia|lia|]. exists yoe. split; [lia|exact Hr].
    + exists (Z.of_nat n). split; [lia|].
      replace (Z.of_nat n + 1) with (Z.of_nat (S n)) by lia. lia.
Qed.

Lemma is_leap_era (y e : Z) : is_leap (y + e * 400) = is_leap y.
Proof.
  unfold is_leap.
  replace ((y + e * 400) mod 4) with (y mod 4)
    by (replace (e * 400) with ((e * 100) * 4) by lia; now rewrite Z.mod_add).
  replace ((y + e * 400) mod 100) with (y mod 100)
    by (replace (e * 400) with ((e * 4) * 100) by lia; now rewrite Z.mod_add).
  replace ((y + e * 400) mod 400) with (y mod 400) by (now rewrite Z.mod_add).
  reflexivity.
Qed.

Lemma days_in_month_ge (y m : Z) : days_in_month 1 m <= days_in_month y m.
Proof.
  unfold days_in_month. change (is_leap 1) with false.
  destruct (m =? 2); [destruct (is_leap y); lia|]. lia.
Qed.

(** The day of the era that [civil_from_days] works on, taken apart. *)
Lemma era_day_split (doe : Z) :
  0 <= doe < 146097 ->
  let yoe := era_year_of doe in
  let doy := doe - era_year_start yoe in
  0 <= yoe < 400
  /\ 0 <= doy < 366
  /\ (doy = 365 -> is_leap (yoe + 1) = true).
Proof.
  intros H. cbv zeta.
  destruct (Z.eq_dec doe 146096) as [->|Hlast].
  { vm_compute. repeat split; congruence. }
  destruct (era_year_exists 400 doe) as (Y & HY & Hr);
    [lia|change (era_year_start (Z.of_nat 400)) with 146096; lia|].
  pose proof (era_year_ok_all Y HY) as K. unfold era_year_ok in K. cbv zeta in K.
  apply andb_prop in K. destruct K as [K Klen].
  apply andb_prop in K. destruct K as [Kfirst%Z.eqb_eq Klast%Z.eqb_eq].
  assert (Hs0 : 0 <= era_year_start Y).
  { unfold era_year_start. Z.div_mod_to_equations. lia. }
  assert (Hs1 : era_year_start (Y + 1) <= 146097).
  { unfold era_year_start. Z.div_mod_to_equations. lia. }
  assert (E : era_year_of doe = Y).
  { pose proof (era_year_of_mono (era_year_start Y) doe).
    pose proof (era_year_of_mono doe (era_year_start (Y + 1) - 1)).
    lia. }
  rewrite E. split; [exact HY|].
  apply orb_prop in Klen. destruct Klen as [L%Z.eqb_eq | L].
  - split; lia.
  - apply andb_prop in L. destruct L as [L%Z.eqb_eq Leap]. split; [lia|].
    intros _. exact Leap.
Qed.

Lemma civil_roundtrip (z : Z) :
  let '(y, m, d) := civil_from_days z in
  1 <= m <= 12 /\ 1 <= d <= days_in_month y m /\ days_from_civil y m d = z.
Proof.
  unfold civil_from_days.
  set (z1 := z + 719468).
  set (era := z1 / 146097).
  set (doe := z1 mod 146097).
  assert (Hdoe : 0 <= doe < 146097) by (apply Z.mod_pos_bound; lia).
  assert (Hz : z1 = 146097 * era + doe) by (apply Z.div_mod; lia).
  destruct (era_day_split doe Hdoe) as (Hyoe & Hdoy & Hleap).
  fold (era_year_of doe). set (yoe := era_year_of doe) in *.
  replace (365 * yoe + yoe / 4 - yoe / 100) with (era_year_start yoe)
    by (unfold era_year_start; lia).
  set (doy := doe - era_year_start yoe) in *.
  pose proof (year_day_ok_all doy Hdoy) as C. unfold year_day_ok in C.
  set (mp := (5 * doy + 2) / 153) in *.
  set (d := doy - (153 * mp + 2) / 5 + 1) in *.
  set (m := if mp <? 10 then mp + 3 else mp - 9) in *.
  cbv zeta in C.
  apply andb_prop in C. destruct C as [C Hinv%Z.eqb_eq].
  apply andb_prop in C. destruct C as [C Hdim].
  apply andb_prop in C. destruct C as [C Hd1%Z.leb_le].
  apply andb_prop in C. destruct C as [Hm1%Z.leb_le Hm12%Z.leb_le].
  split; [lia|]. split.
  - split; [lia|].
    apply orb_prop in Hdim. destruct Hdim as [Hdim%Z.leb_le | Hdim].
    + pose proof (days_in_month_ge
                    (if m <=? 2 then yoe + era * 400 + 1 else yoe + era * 400) m).
      lia.
    + apply andb_prop in Hdim. destruct Hdim as [Hdim Hd29%Z.eqb_eq].
      apply andb_prop in Hdim. destruct Hdim as [H365%Z.eqb_eq Hm2%Z.eqb_eq].
      rewrite Hm2. cbn [Z.leb Z.compare Pos.compare Pos.compare_cont].
      replace (yoe + era * 400 + 1) with (yoe + 1 + era * 400) by lia.
      unfold days_in_month. cbn [Z.eqb Pos.eqb].
      rewrite is_leap_era, (Hleap H365). lia.
  - unfold days_from_civil.
    replace (if m <=? 2
             then (if m <=? 2 then yoe + era * 400 + 1 else yoe + era * 400) - 1
             else if m <=? 2 then yoe + era * 400 + 1 else yoe + era * 400)
      with (yoe + era * 400) by (destruct (m <=? 2); lia).
    rewrite Z.div_add, Z.mod_add by lia.
    rewrite Z.div_small, Z.mod_small by lia.
    fold (era_year_start yoe). lia.
Qed.

Lemma digit_val_char (d : Z) : 0 <= d <= 9 -> digit_val (digit_char d) = Some d.
Proof.
  intros H.
  assert (C : d = 0 \/ d = 1 \/ d = 2 \/ d = 3 \/ d = 4 \/ d = 5 \/ d = 6
              \/ d = 7 \/ d = 8 \/ d = 9) by lia.
  repeat destruct C as [->|C]; try subst d; reflexivity.
Qed.

Lemma digits_step (n : nat) (acc : Z) (s : string) :
  digits (S n) acc s
  = and_then (digits n acc s) (fun '(a, r) => digits 1 a r).
Proof.
  revert acc s. induction n as [|n IH]; intros acc s.
  - reflexivity.
  - change (digits (S (S n)) acc s)
      with (match s with
            | String c r =>
                match digit_val c with
                | Some d => digits (S n) (acc * 10 + d) r
                | None => None
                end
            | EmptyString => None
            end).
    destruct s as [|c r]; [reflexivity|].
    cbn [digits]. destruct (digit_val c); [|reflexivity].
    apply IH.
Qed.

Lemma digits_pad (n : nat) (x acc : Z) (k : string) :
  0 <= x < 10 ^ Z.of_nat n ->
  digits n acc (pad n x k) = Some (acc * 10 ^ Z.of_nat n + x, k).
Proof.
  revert x acc k. induction n as [|n IH]; intros x acc k Hx.
  - cbn. f_equal. f_equal. change (10 ^ Z.of_nat 0) with 1 in *. lia.
  - rewrite digits_step. cbn [pad].
    assert (P : 10 ^ Z.of_nat (S n) = 10 * 10 ^ Z.of_nat n).
    { rewrite Nat2Z.inj_succ, Z.pow_succ_r by lia. reflexivity. }
    rewrite IH.
    + cbn [and_then digits].
      rewrite digit_val_char by (pose proof (Z.mod_pos_bound x 10); lia).
      f_equal. f_equal. rewrite P.
      pose proof (Z.div_mod x 10). lia.
    + split; [apply Z.div_pos; lia|].
      apply Z.div_lt_upper_bound; lia.
Qed.

Lemma expect_here (c : ascii) (s : string) : expect c (String c s) = Some s.
Proof. unfold expect. now rewrite Ascii.eqb_refl. Qed.

Lemma parse_year_digit (d : Z) (r : string) :
  0 <= d <= 9 ->
  parse_year (String (digit_char d) r) = digits 4 0 (String (digit_char d) r).
Proof.
  intros H.
  assert (C : d = 0 \/ d = 1 \/ d = 2 \/ d = 3 \/ d = 4 \/ d = 5 \/ d = 6
              \/ d = 7 \/ d = 8 \/ d = 9) by lia.
  repeat destruct C as [->|C]; try subst d; reflexivity.
Qed.

Lemma parse_year_string (y : Z) (k : string) :
  -999999 <= y <= 999999 -> parse_year (year_string y k) = Some (y, k).
Proof.
  intros H. unfold year_string.
  destruct ((0 <=? y) && (y <=? 9999)) eqn:E.
  - apply andb_prop in E. destruct E as [E1%Z.leb_le E2%Z.leb_le].
    assert (Q : exists d r, 0 <= d <= 9 /\ pad 4 y k = String (digit_char d) r).
    { eexists. eexists. split; [|cbn [pad]; reflexivity].
      pose proof (Z.mod_pos_bound (y / 10 / 10 / 10) 10). lia. }
    destruct Q as (d & r & Hd & Q). rewrite Q, parse_year_digit by exact Hd.
    rewrite <- Q, digits_pad by (change (10 ^ Z.of_nat 4) with 10000; lia).
    f_equal.
  - assert (Hy : y < 0 \/ 9999 < y).
    { apply andb_false_iff in E. rewrite Z.leb_gt, Z.leb_gt in E. lia. }
    assert (B : 0 <= Z.abs y < 10 ^ Z.of_nat 6)
      by (change (10 ^ Z.of_nat 6) with 1000000; lia).
    destruct (y <? 0) eqn:N.
    + apply Z.ltb_lt in N. cbn [parse_year]. rewrite digits_pad by exact B.
      cbn [and_then]. replace (0 * 10 ^ Z.of_nat 6 + Z.abs y) with (- y) by lia.
      destruct (- y =? 0) eqn:Z0; [apply Z.eqb_eq in Z0; lia|].
      f_equal. f_equal. lia.
    + apply Z.ltb_ge in N. cbn [parse_year]. rewrite digits_pad by exact B.
      f_equal. f_equal. lia.
Qed.

(** [Date.parse] reads back the time value of every text that
    [toISOString] writes. *)
Lemma parse_written_toISOString (t : Z) :
  valid_time t -> parse_written (toISOString t) = Some t.
Proof.
  unfold valid_time, maxTime. intros Ht.
  unfold toISOString.
  pose proof (civil_roundtrip (t / msPerDay)) as C.
  assert (Hy : let '(y, _, _) := civil_from_days (t / msPerDay) in -999999 <= y <= 999999).
  { unfold civil_from_days, msPerDay.
    set (z1 := t / 86400000 + 719468).
    set (doe := z1 mod 146097).
    assert (Hdoe : 0 <= doe < 146097) by (apply Z.mod_pos_bound; lia).
    destruct (era_day_split doe Hdoe) as (Hyoe & _).
    unfold era_year_of in Hyoe.
    set (yoe := (doe - doe / 1460 + doe / 36524 - doe / 146096) / 365) in *.
    assert (-100000000 <= t / 86400000 <= 100000000).
    { split; [apply Z.div_le_lower_bound; lia|apply Z.div_le_upper_bound; lia]. }
    assert (-690 <= z1 / 146097 <= 690).
    { unfold z1. split; [apply Z.div_le_lower_bound; lia|apply Z.div_le_upper_bound; lia]. }
    match goal with |- context [if ?b then _ else _] => destruct b end; lia. }
  destruct (civil_from_days (t / msPerDay)) as [[y m] d].
  destruct C as (Hm & Hd & Hdays).
  set (r := t mod msPerDay).
  assert (Hr : 0 <= r < 86400000) by (apply Z.mod_pos_bound; reflexivity).
  assert (Hdim : days_in_month y m <= 31).
  { unfold days_in_month.
    repeat match goal with |- context [if ?b then _ else _] => destruct b end; lia. }
  unfold parse_written.
  rewrite parse_year_string by exact Hy. cbn [and_then].
  rewrite expect_here. cbn [and_then].
  rewrite digits_pad by (change (10 ^ Z.of_nat 2) with 100; lia). cbn [and_then].
  rewrite expect_here. cbn [and_then].
  rewrite digits_pad by (change (10 ^ Z.of_nat 2) with 100; lia). cbn [and_then].
  rewrite expect_here. cbn [and_then].
  assert (Hh : 0 <= r / 3600000 <= 23).
  { split; [apply Z.div_pos; lia|]. apply Z.lt_succ_r, Z.div_lt_upper_bound; lia. }
  rewrite digits_pad by (change (10 ^ Z.of_nat 2) with 100; lia). cbn [and_then].
  rewrite expect_here. cbn [and_then].
  pose proof (Z.mod_pos_bound (r / 60000) 60 eq_refl) as Hmi.
  rewrite digits_pad by (change (10 ^ Z.of_nat 2) with 100; lia). cbn [and_then].
  rewrite expect_here. cbn [and_then].
  pose proof (Z.mod_pos_bound (r / 1000) 60 eq_refl) as Hs.
  rewrite digits_pad by (change (10 ^ Z.of_nat 2) with 100; lia). cbn [and_then].
  rewrite expect_here. cbn [and_then].
  pose proof (Z.mod_pos_bound r 1000 eq_refl) as Hms.
  rewrite digits_pad by (change (10 ^ Z.of_nat 3) with 1000; lia). cbn [and_then].
  rewrite expect_here. cbn [and_then].
  rewrite !Z.mul_0_l, !Z.add_0_l.
  replace ((1 <=? m) && (m <=? 12) && (1 <=? d) && (d <=? days_in_month y m)
           && ((r / 3600000 <=? 23)
               || (r / 3600000 =? 24) && ((r / 60000) mod 60 =? 0)
                  && ((r / 1000) mod 60 =? 0) && (r mod 1000 =? 0))
           && ((r / 60000) mod 60 <=? 59) && ((r / 1000) mod 60 <=? 59))
    with true.
  2:{ symmetry. rewrite !andb_true_iff, orb_true_iff, !Z.leb_le. lia. }
  rewrite Hdays.
  replace (t / msPerDay * msPerDay + r / 3600000 * 3600000
           + (r / 60000) mod 60 * 60000 + (r / 1000) mod 60 * 1000 + r mod 1000)
    with t.
  - unfold timeClip, maxTime.
    destruct (Z.abs t <=? 8640000000000000) eqn:T; [reflexivity|].
    apply Z.leb_gt in T. lia.
  - pose proof (Z.div_mod t msPerDay). unfold r, msPerDay in *.
    set (q := t / 86400000) in *. set (r0 := t mod 86400000) in *.
    clearbody q r0. clear -H Hr. 
    pose proof (Z.div_mod r0 3600000). pose proof (Z.div_mod r0 60000).
    pose proof (Z.div_mod r0 1000). pose proof (Z.div_mod (r0 / 60000) 60).
    pose proof (Z.div_mod (r0 / 1000) 60).
    assert (r0 / 60000 / 60 = r0 / 3600000) by (rewrite Z.div_div by lia; reflexivity).
    assert (r0 / 1000 / 60 = r0 / 60000) by (rewrite Z.div_div by lia; reflexivity).
    lia.
Qed.

Lemma Date_parse_toISOString (t : Z) :
  valid_time t -> Date_parse (toISOString t) = Some t.
Proof. intros V. unfold Date_parse. now rewrite parse_written_toISOString. Qed.

(** Every engine reads the text of [toISOString] as the time it was
    written from. *)
Lemma Date_of_toISOString (engine : Engine) (t : Z) :
  valid_time t -> Date_of engine (VString (toISOString t)) = Some t.
Proof. intros V. cbn [Date_of]. now rewrite Date_parse_toISOString. Qed.

(** ** Freshness *)

Lemma isCacheFresh_run (w : World) :
  isCacheFresh w
  = (match last_updated_json (dir w), staged_intel_md (dir w) with
     | Holds (Some m), Some _ =>
         negb (js_gt (js_sub (Some (clock w)) (Date_in w (CacheMetadata.last_updated m)))
                 (Some (MAX_CACHE_AGE_DAYS * 24 * 60 * 60 * 1000)))
         && js_gt (Date_in w (CacheMetadata.next_update_after m)) (Some (clock w))
     | _, _ => false
     end, w).
Proof.
  unfold isCacheFresh, Date_in. unfold_io. cbn [path_exists path_of load metadataPath].
  destruct (last_updated_json (dir w)) as [| |[m|]] eqn:E;
    cbn [is_file negb]; cbv beta iota zeta; try reflexivity;
    destruct (staged_intel_md (dir w)) eqn:I; cbn [negb]; cbv beta iota zeta;
    rewrite ?E; try reflexivity.
  now destruct (js_gt (js_sub _ _) _).
Qed.

(** Where the engine reads both timestamps as ECMA-262 settles them and
    the last update is a date, the code decides as section 4.6 says. *)
Lemma isCacheFresh_by_spec (w : World) :
  (forall m, last_updated_json (dir w) = Holds (Some m) ->
             Date_in w (CacheMetadata.last_updated m)
             = Date_new (CacheMetadata.last_updated m)
             /\ Date_in w (CacheMetadata.next_update_after m)
                = Date_new (CacheMetadata.next_update_after m)
             /\ Date_new (CacheMetadata.last_updated m) <> None) ->
  fst (isCacheFresh w) = fresh_by_spec w.
Proof.
  intros H. rewrite isCacheFresh_run. cbn [fst]. unfold fresh_by_spec.
  destruct (last_updated_json (dir w)) as [| |[m|]]; try reflexivity.
  destruct (H m eq_refl) as (-> & -> & N).
  destruct (staged_intel_md (dir w)); [|reflexivity].
  destruct (Date_new (CacheMetadata.last_updated m)) as [lu|]; [|congruence].
  destruct (Date_new (CacheMetadata.next_update_after m)) as [nu|]; cbn.
  - unfold MAX_CACHE_AGE_DAYS, ms_per_day. f_equal.
    destruct (60 * 24 * 60 * 60 * 1000 <? clock w - lu) eqn:A;
      destruct (clock w - lu <=? 60 * 86400000) eqn:B; try reflexivity; lia.
  - apply andb_false_r.
Qed.

(** X24.  What the code decides in every case, on every engine:
    [isCacheFresh] is true exactly when the metadata file holds an object,
    staged-intel.md exists, the engine reads the deadline as a time that
    lies ahead, and the last update, if the engine reads it as a time, is
    at most 60 days old.  The age guard passes also when the last update is
    no date. *)
Lemma isCacheFresh_true_iff (w : World) :
  fst (isCacheFresh w) = true <->
  exists m nextUpdate,
    last_updated_json (dir w) = Holds (Some m)
    /\ staged_intel_md (dir w) <> None
    /\ (forall lastUpdated,
          Date_in w (CacheMetadata.last_updated m) = Some lastUpdated ->
          clock w - lastUpdated <= 60 * ms_per_day)
    /\ Date_in w (CacheMetadata.next_update_after m) = Some nextUpdate
    /\ clock w < nextUpdate.
Proof.
  rewrite isCacheFresh_run. cbn [fst].
  destruct (last_updated_json (dir w)) as [| |[m|]];
    try (split; [discriminate|intros (? & ? & ? & _); discriminate]).
  destruct (staged_intel_md (dir w)) as [intel|].
  2:{ split; [discriminate|]. intros (? & ? & _ & H & _). now contradiction H. }
  rewrite andb_true_iff, negb_true_iff.
  unfold MAX_CACHE_AGE_DAYS, ms_per_day. split.
  - intros [A N]. exists m.
    destruct (Date_in w (CacheMetadata.next_update_after m)) as [nu|];
      [|discriminate N].
    exists nu. cbn in N. apply Z.ltb_lt in N.
    split; [reflexivity|]. split; [discriminate|].
    split; [|split; [reflexivity|exact N]].
    intros lu E. rewrite E in A. cbn in A. apply Z.ltb_ge in A. lia.
  - intros (m' & nu & E & _ & A & N & L). injection E as <-.
    rewrite N. cbn. split; [|apply Z.ltb_lt; exact L].
    destruct (Date_in w (CacheMetadata.last_updated m)) as [lu|]; [|reflexivity].
    cbn. apply Z.ltb_ge. specialize (A lu eq_refl). lia.
Qed.

(** X25.  Corrupt or absent metadata, metadata that is JSON null, an
    absent content file and a deadline that the engine does not read as a
    date all give "not fresh". *)
Lemma isCacheFresh_fail_safe (w : World) :
  (last_updated_json (dir w) = Missing
   \/ last_updated_json (dir w) = Unparsable
   \/ last_updated_json (dir w) = Holds None
   \/ staged_intel_md (dir w) = None
   \/ exists m, last_updated_json (dir w) = Holds (Some m)
                /\ Date_in w (CacheMetadata.next_update_after m) = None) ->
  fst (isCacheFresh w) = false.
Proof.
  rewrite isCacheFresh_run. cbn [fst].
  intros [-> | [-> | [-> | [H | (m & -> & H)]]]]; try reflexivity.
  - rewrite H. now destruct (last_updated_json (dir w)) as [| |[?|]].
  - rewrite H. destruct (staged_intel_md (dir w)); [|reflexivity].
    apply andb_false_r.
Qed.

(** C1, at the input where the code departs from it: metadata whose
    [last_updated] is no date and whose deadline lies ahead, beside a
    content file.  The age is [NaN], the age guard does not fire, and the
    cache is reported fresh. *)
Theorem isCacheFresh_unparsable_last_updated :
  let metadata :=
    CacheMetadata.mk (VString "not-a-date") ["topic"]%string
      (VString "2099-01-01T00:00:00.000Z") in
  let w :=
    mkWorld (mkCacheDir (Holds (Some metadata)) (Some "# intel"%string) Missing Missing)
      1767225600000 in
  Date_new (CacheMetadata.last_updated metadata) = None
  /\ fst (isCacheFresh w) = true.
Proof. split; vm_compute; reflexivity. Qed.

(** C8, at the input where the code departs from it: metadata whose
    [last_updated] is the empty text and whose deadline lies ahead, beside a
    content file.  The four conditions of section 4.6 do not hold, the age
    being no number, yet the cache is reported fresh. *)
Theorem isCacheFresh_without_age :
  let metadata :=
    CacheMetadata.mk (VString EmptyString) ["topic"]%string
      (VString "2099-01-01T00:00:00.000Z") in
  let w :=
    mkWorld (mkCacheDir (Holds (Some metadata)) (Some "# intel"%string) Missing Missing)
      1767225600000 in
  fst (isCacheFresh w) = true /\ fresh_by_spec w = false.
Proof. split; vm_compute; reflexivity. Qed.

(** ** Backoff metadata *)

Lemma buildBackoffMetadata_run (topics : list string) (w : World) :
  buildBackoffMetadata topics w
  = ({| CacheMetadata.last_updated :=
          nullish_val
            (match last_updated_json (dir w) with
             | Holds (Some e) => CacheMetadata.last_updated e
             | _ => VUndefined
             end)
            (VString (toISOString (clock w)));
        CacheMetadata.topics_researched := topics;
        CacheMetadata.next_update_after :=
          VString (toISOString (clock w + 4 * ms_per_hour)) |}, w).
Proof.
  unfold buildBackoffMetadata. unfold_io. cbv iota zeta. cbn [load metadataPath].
  unfold BACKOFF_HOURS, ms_per_hour.
  replace (clock w + 4 * 60 * 60 * 1000) with (clock w + 4 * 3600000) by lia.
  now destruct (last_updated_json (dir w)) as [| |[e|]].
Qed.

(** C4.  [buildBackoffMetadata] changes nothing on disk.  Its deadline is
    the text of the time of the call plus four hours, whatever the
    configuration, and reads back as that time.  Its [last_updated] is the
    one of the metadata on disk when there is one, and the time of the call
    when the file is absent or unreadable or holds no [last_updated]. *)
Theorem buildBackoffMetadata_fields (topics : list string) (w : World) :
  let m := fst (buildBackoffMetadata topics w) in
  snd (buildBackoffMetadata topics w) = w
  /\ CacheMetadata.topics_researched m = topics
  /\ CacheMetadata.next_update_after m
     = VString (toISOString (clock w + 4 * ms_per_hour))
  /\ (valid_time (clock w + 4 * ms_per_hour) ->
      Date_new (CacheMetadata.next_update_after m) = Some (clock w + 4 * ms_per_hour))
  /\ (forall e, last_updated_json (dir w) = Holds (Some e) ->
      CacheMetadata.last_updated e <> VUndefined ->
      CacheMetadata.last_updated e <> VNull ->
      CacheMetadata.last_updated m = CacheMetadata.last_updated e)
  /\ ((forall e, last_updated_json (dir w) = Holds (Some e) ->
         CacheMetadata.last_updated e = VUndefined
         \/ CacheMetadata.last_updated e = VNull) ->
      CacheMetadata.last_updated m = VString (toISOString (clock w))
      /\ (valid_time (clock w) ->
          Date_new (CacheMetadata.last_updated m) = Some (clock w))).
Proof.
  cbv zeta. rewrite buildBackoffMetadata_run.
  cbn [fst snd CacheMetadata.last_updated CacheMetadata.topics_researched
       CacheMetadata.next_update_after].
  split; [reflexivity|]. split; [reflexivity|]. split; [reflexivity|].
  split; [intros V; now apply Date_parse_toISOString|].
  split.
  - intros e -> U N. now destruct (CacheMetadata.last_updated e).
  - intros H.
    assert (E : nullish_val
                  match last_updated_json (dir w) with
                  | Holds (Some e) => CacheMetadata.last_updated e
                  | _ => VUndefined
                  end (VString (toISOString (clock w)))
                = VString (toISOString (clock w))).
    { destruct (last_updated_json (dir w)) as [| |[e|]]; try reflexivity.
      destruct (H e eq_refl) as [-> | ->]; reflexivity. }
    rewrite E. split; [reflexivity|].
    intros V. now apply Date_parse_toISOString.
Qed.

(** A prior [last_updated] is kept; the deadline is four hours ahead. *)
Lemma buildBackoffMetadata_fields_witness :
  let prior :=
    CacheMetadata.mk (VString "2026-01-01T00:00:00.000Z") ["old"]%string
      (VString "2026-01-02T00:00:00.000Z") in
  let w :=
    mkWorld (mkCacheDir (Holds (Some prior)) None Missing Missing) 1767312000000 in
  let m := fst (buildBackoffMetadata ["new-topic"]%string w) in
  CacheMetadata.last_updated m = VString "2026-01-01T00:00:00.000Z"
  /\ Date_new (CacheMetadata.next_update_after m) = Some (1767312000000 + 4 * ms_per_hour).
Proof.
  intros prior w.
  pose proof (buildBackoffMetadata_fields ["new-topic"]%string w)
    as (_ & _ & _ & D & P & _).
  split.
  - apply (P prior); [reflexivity | discriminate | discriminate].
  - apply D. unfold valid_time. vm_compute. split; discriminate.
Defined.

(** ** The refresh command, up to what it writes *)

Lemma bind_run {A B : Type} (c : IO A) (k : A -> IO B) (w : World) :
  bind c k w = k (fst (c w)) (snd (c w)).
Proof. unfold bind. now destruct (c w). Qed.

Lemma fresh_check_run (force : bool) (w : World) :
  (if negb force then isCacheFresh else ret false) w
  = (negb force && fst (isCacheFresh w), w).
Proof. destruct force; cbn [negb andb]; [reflexivity|]. now rewrite isCacheFresh_run. Qed.

Lemma eqb_empty_false (s : string) : s <> EmptyString -> String.eqb s EmptyString = false.
Proof. intros H. now apply String.eqb_neq. Qed.

Lemma length_zero_not_nil {A : Type} (l : list A) :
  l <> [] -> Nat.eqb (length l) 0 = false.
Proof. now destruct l. Qed.

Lemma writeCacheFiles_run markdown metadata results (w : World) :
  writeCacheFiles markdown metadata results w
  = (tt, set_dir
           (mkCacheDir (Holds (Some metadata)) (Some markdown)
              (Holds (omap id results)) (reviewed_hashes_json (dir w)))
           w).
Proof.
  unfold writeCacheFiles, ensureDir. rewrite !bind_run.
  unfold writeTextFileAtomic, writeJsonFileAtomic, ret. reflexivity.
Qed.

Lemma writeBackoffMetadata_run metadata (w : World) :
  writeBackoffMetadata metadata w
  = (tt, set_dir
           (mkCacheDir (Holds (Some metadata)) (staged_intel_md (dir w))
              (staged_raw_json (dir w)) (reviewed_hashes_json (dir w)))
           w).
Proof.
  unfold writeBackoffMetadata, ensureDir. rewrite !bind_run.
  unfold writeJsonFileAtomic, ret. reflexivity.
Qed.

Lemma refresh_gathers_fresh_check ext options config w :
  refresh_gathers ext options config w ->
  negb (CliOptions.force options) && fst (isCacheFresh w) = false.
Proof.
  intros (_ & _ & _ & _ & [F|F]); rewrite F; [reflexivity|apply andb_false_r].
Qed.

(** A refresh returns before it gathers, with the files as they were, or
    it gathers. *)
Lemma executeRefresh_cases ext options (w : World) :
  snd (executeRefresh ext options w) = w
  \/ exists config, refresh_gathers ext options config w.
Proof.
  destruct (String.eqb_spec (CliOptions.configPath options) EmptyString) as [P|P].
  { left. unfold executeRefresh. now rewrite P. }
  destruct (String.eqb_spec (CliOptions.cacheDir options) EmptyString) as [C|C].
  { left. unfold executeRefresh. rewrite (eqb_empty_false _ P), C. reflexivity. }
  destruct (readJsonFileSync ext (CliOptions.configPath options)) as [err|config] eqn:R.
  { left. unfold executeRefresh. rewrite (eqb_empty_false _ P), (eqb_empty_false _ C), R.
    reflexivity. }
  destruct (CacheConfig.topics config) as [|t ts] eqn:T.
  { left. unfold executeRefresh.
    rewrite (eqb_empty_false _ P), (eqb_empty_false _ C), R, T. reflexivity. }
  destruct (CliOptions.force options) eqn:F.
  { right. exists config. repeat split; try assumption; [rewrite T; discriminate|now left]. }
  destruct (fst (isCacheFresh w)) eqn:I.
  - left. unfold executeRefresh.
    rewrite (eqb_empty_false _ P), (eqb_empty_false _ C), R, T.
    cbn [length Nat.eqb]. rewrite bind_run, fresh_check_run, F, I. reflexivity.
  - right. exists config. repeat split; try assumption; [rewrite T; discriminate|now right].
Qed.

(** The refresh command from the end of the gathering run on. *)
Lemma executeRefresh_gathered ext options config w :
  refresh_gathers ext options config w ->
  executeRefresh ext options w
  = let '(results, pushed) := gathered ext options config in
    if Nat.eqb (success_count results) 0
    then
      (Done
         (emitStatus
            (match staged_intel_md (dir w) with Some _ => failed | None => no_cache end)
            pushed (Some "all queries failed, backoff 4h"%string)),
       snd (writeBackoffMetadata
              (fst (buildBackoffMetadata (CacheConfig.topics config) w)) w))
    else
      let topics := CacheConfig.topics config in
      let updatedAt := toISOString (clock w) in
      let markdown :=
        if CliOptions.noSynthesize options
        then formatMarkdown ext results updatedAt
        else
          match synthesize ext results
                  (nullish (CacheConfig.context config) (String.concat ", " topics))
                  (CliOptions.verbose options) with
          | Some (String c rest) =>
              String.concat newline
                [ "# Community Intelligence";
                  EmptyString;
                  "Synthesized by `community-intel-cache` on " ++ updatedAt ++ ".";
                  EmptyString;
                  String c rest ]%string
          | _ => formatMarkdown ext results updatedAt
          end in
      match
        Date_toISOString
          (calculateNextUpdate (success_count results) (length topics) config
             (Some (clock w)))
      with
      | Raised error => (Raised error, w)
      | Done next_update_after =>
          let metadata :=
            {| CacheMetadata.last_updated := VString updatedAt;
               CacheMetadata.topics_researched := topics;
               CacheMetadata.next_update_after := VString next_update_after |} in
          (Done
             (emitStatus refreshed pushed
                (Some (pretty (success_count results) ++ "/" ++ pretty (length topics)
                       ++ " topics (interval: "
                       ++ pretty (getIntervalDays (success_count results) (length topics)
                                    config)
                       ++ "d)")%string)),
           snd (writeCacheFiles markdown metadata results w))
      end.
Proof.
  intros G. pose proof (refresh_gathers_fresh_check _ _ _ _ G) as K.
  destruct G as (P & C & R & T & _).
  unfold executeRefresh.
  rewrite (eqb_empty_false _ P), (eqb_empty_false _ C), R, (length_zero_not_nil _ T).
  rewrite bind_run, fresh_check_run. cbn [fst snd]. rewrite K.
  rewrite bind_run. unfold hasExistingCache, pathExistsSync at 1 2. cbn [fst snd].
  unfold gathered, lookback_days, success_count.
  destruct (gatherTopics ext (CacheConfig.topics config) (CliOptions.verbose options)
              (nullish (CliOptions.days options)
                 (nullish (CacheConfig.days config) CONFIG_DEFAULTS.days)))
    as [results pushed].
  set (successCount := length (List.filter _ results)).
  destruct (Nat.eqb successCount 0).
  - rewrite bind_run.
    rewrite (bind_run (writeBackoffMetadata _)). unfold ret. cbn [fst snd].
    rewrite buildBackoffMetadata_run. cbn [fst snd path_exists].
    unfold createDiagnostics. cbn [app]. now destruct (staged_intel_md (dir w)).
  - rewrite bind_run. unfold Date_now at 1 2. cbn [fst snd]. cbv zeta.
    destruct (Date_toISOString _) as [text|error]; [|reflexivity].
    rewrite (bind_run (writeCacheFiles _ _ _)). unfold ret. cbn [fst snd].
    unfold createDiagnostics. cbn [app]. reflexivity.
Qed.

(** A refresh that gathered data and whose deadline is a time a Date can
    hold: it reports [refreshed] and writes the three files. *)
Lemma executeRefresh_written ext options config (w : World) :
  refresh_gathers ext options config w ->
  success_count (fst (gathered ext options config)) <> 0%nat ->
  let results := fst (gathered ext options config) in
  let topics := CacheConfig.topics config in
  let interval := getIntervalDays (success_count results) (length topics) config in
  valid_time (clock w + interval * ms_per_day) ->
  exists markdown detail,
    executeRefresh ext options w
    = (Done (emitStatus refreshed (snd (gathered ext options config)) (Some detail)),
       set_dir
         (mkCacheDir
            (Holds (Some (CacheMetadata.mk (VString (toISOString (clock w))) topics
                            (VString (toISOString (clock w + interval * ms_per_day))))))
            (Some markdown) (Holds (omap id results)) (reviewed_hashes_json (dir w)))
         w)
    /\ (CliOptions.noSynthesize options = true
        \/ synthesize ext results
             (nullish (CacheConfig.context config) (String.concat ", " topics))
             (CliOptions.verbose options) = None
        \/ synthesize ext results
             (nullish (CacheConfig.context config) (String.concat ", " topics))
             (CliOptions.verbose options) = Some EmptyString ->
        markdown = formatMarkdown ext results (toISOString (clock w))).
Proof.
  intros G Z. cbv zeta. intros V. rewrite (executeRefresh_gathered _ _ _ _ G).
  destruct (gathered ext options config) as [results pushed]. cbn [fst snd] in *.
  apply Nat.eqb_neq in Z. rewrite Z. cbv zeta.
  rewrite calculateNextUpdate_interval, (timeClip_valid _ V).
  cbn [Date_toISOString]. rewrite writeCacheFiles_run. cbn [snd].
  eexists. eexists. split; [reflexivity|].
  intros [N | [S | S]].
  - now rewrite N.
  - rewrite S. now destruct (CliOptions.noSynthesize options).
  - rewrite S. now destruct (CliOptions.noSynthesize options).
Qed.

(** A refresh that gathered data and whose deadline is no time a Date can
    hold raises, and has written nothing. *)
Lemma executeRefresh_raises ext options config (w : World) :
  refresh_gathers ext options config w ->
  success_count (fst (gathered ext options config)) <> 0%nat ->
  ~ valid_time
      (clock w
       + getIntervalDays (success_count (fst (gathered ext options config)))
           (length (CacheConfig.topics config)) config * ms_per_day) ->
  executeRefresh ext options w = (Raised RangeError_invalid_time, w).
Proof.
  intros G Z V. rewrite (executeRefresh_gathered _ _ _ _ G).
  destruct (gathered ext options config) as [results pushed]. cbn [fst snd] in *.
  apply Nat.eqb_neq in Z. rewrite Z. cbv zeta.
  now rewrite calculateNextUpdate_interval, (timeClip_invalid _ V).
Qed.

(** ** The metadata that the refresh command writes *)









(** ** Extraction: how it composes, and what its output always satisfies *)

Lemma filter_unseen_app seen (l1 l2 : list Finding.t) :
  filter_unseen seen (l1 ++ l2)
  = filter_unseen seen l1
    ++ filter_unseen (list_to_set (hashes_of l1) ∪ seen) l2.
Proof.
  revert seen. induction l1 as [|f l1 IH]; intros seen.
  - cbn [app filter_unseen hashes_of map]. rewrite list_to_set_nil.
    now rewrite (left_id_L ∅ (∪)).
  - cbn [app filter_unseen hashes_of map]. rewrite list_to_set_cons.
    destruct (decide (Finding.hash f ∈ seen)) as [I|N].
    + rewrite IH. f_equal. f_equal. unfold hashes_of. set_solver.
    + rewrite IH. cbn [app]. f_equal. f_equal. f_equal. unfold hashes_of. set_solver.
Qed.

Lemma filter_unseen_filter (S T : gset string) (l : list Finding.t) :
  filter_unseen (S ∪ T) l
  = List.filter (fun f => negb (bool_decide (Finding.hash f ∈ S))) (filter_unseen T l).
Proof.
  revert T. induction l as [|f l IH]; intros T; [reflexivity|].
  cbn [filter_unseen].
  destruct (decide (Finding.hash f ∈ T)) as [IT|NT].
  - rewrite decide_True by set_solver. apply IH.
  - cbn [List.filter].
    destruct (decide (Finding.hash f ∈ S)) as [IS|NS].
    + rewrite decide_True by set_solver.
      rewrite bool_decide_eq_true_2 by exact IS. cbn [negb].
      rewrite <- IH. f_equal. set_solver.
    + rewrite decide_False by set_solver.
      rewrite bool_decide_eq_false_2 by exact NS. cbn [negb].
      rewrite <- IH. f_equal. f_equal. set_solver.
Qed.

Lemma filter_unseen_hashes (l : list Finding.t) (h : string) :
  h ∈ hashes_of (filter_unseen ∅ l) <-> h ∈ hashes_of l.
Proof.
  unfold hashes_of. split.
  - intros H. apply list_elem_of_In in H. apply in_map_iff in H as (f & <- & F).
    apply list_elem_of_In. apply in_map. apply list_elem_of_In.
    apply list_elem_of_In in F.
    eapply elem_of_sublist; [exact F|apply filter_unseen_sublist].
  - intros H. apply list_elem_of_In in H. apply in_map_iff in H as (f & <- & F).
    apply list_elem_of_In in F.
    destruct (filter_unseen_covers ∅ l f F) as [E|E]; [set_solver|exact E].
Qed.

Lemma candidates_app rs1 rs2 options :
  candidates (rs1 ++ rs2) options = candidates rs1 options ++ candidates rs2 options.
Proof. unfold candidates. apply flat_map_app. Qed.

(** X1.  Appending reports keeps the findings of the earlier reports where
    they are, and adds from the later reports the findings whose
    fingerprint the earlier ones did not produce. *)
Theorem extractFindings_app
    (rs1 rs2 : list Last30DaysReport.t) (options : option QualityFilterOptions.t) :
  extractFindings (rs1 ++ rs2) options
  = extractFindings rs1 options
    ++ List.filter
         (fun f => negb (hash_in (hashes_of (extractFindings rs1 options)) f))
         (extractFindings rs2 options).
Proof.
  rewrite !extractFindings_candidates, candidates_app, filter_unseen_app.
  f_equal. rewrite filter_unseen_filter.
  apply filter_idem_ext. intros f. unfold hash_in. f_equal.
  apply bool_decide_ext. rewrite elem_of_list_to_set.
  symmetry. apply filter_unseen_hashes.
Qed.

Lemma in_candidates (f : Finding.t) rs options :
  In f (candidates rs options) <->
  exists r i,
    In r rs /\ In i (items_of r)
    /\ passes_quality options (item_score i) (item_summary i) = true
    /\ f = finding_of (Last30DaysReport.topic r) i.
Proof.
  unfold candidates. rewrite in_flat_map. split.
  - intros (r & R & H). apply in_map_iff in H as (i & <- & I).
    apply filter_In in I as [I Q]. now exists r, i.
  - intros (r & i & R & I & Q & ->). exists r. split; [exact R|].
    apply in_map. apply filter_In. now split.
Qed.

Lemma in_extractFindings (f : Finding.t) rs options :
  In f (extractFindings rs options) -> In f (candidates rs options).
Proof.
  rewrite extractFindings_candidates. intros H.
  apply list_elem_of_In. apply list_elem_of_In in H.
  eapply elem_of_sublist; [exact H|apply filter_unseen_sublist].
Qed.

Lemma length_append (a b : string) :
  String.length (a ++ b) = (String.length a + String.length b)%nat.
Proof.
  induction a as [|c a IH]; [reflexivity|].
  change (S (String.length (a ++ b)) = S (String.length a + String.length b)).
  now rewrite IH.
Qed.

Lemma length_substring_le (n m : nat) (s : string) :
  (String.length (substring n m s) <= m)%nat.
Proof.
  revert n m. induction s as [|c s IH]; intros n m.
  - destruct n, m; cbn; lia.
  - destruct n as [|n]; [destruct m as [|m]|]; cbn; [lia| |apply IH].
    specialize (IH 0%nat m). lia.
Qed.

(** X2.  Whatever the reports and the thresholds, every finding that
    [extractFindings] returns carries the fingerprint of its own URL, meets
    both thresholds and bears the topic of one of the reports; the title of
    a finding from X has at most 123 characters and a finding from the web
    has no date; and no two findings of the output share a URL. *)
Theorem extractFindings_output
    (reports : list Last30DaysReport.t) (options : option QualityFilterOptions.t) :
  let out := extractFindings reports options in
  (forall f, In f out ->
     Finding.hash f = computeFindingHash (Finding.url f)
     /\ min_score options <= Finding.score f
     /\ min_summary_length options <= str_length (Finding.summary f)
     /\ (exists r, In r reports /\ Finding.topic f = Last30DaysReport.topic r)
     /\ (Finding.type f = type_x -> (String.length (Finding.title f) <= 123)%nat)
     /\ (Finding.type f = type_web -> Finding.date f = None))
  /\ NoDup (map Finding.url out).
Proof.
  cbv zeta.
  assert (F : forall f, In f (extractFindings reports options) ->
     Finding.hash f = computeFindingHash (Finding.url f)
     /\ min_score options <= Finding.score f
     /\ min_summary_length options <= str_length (Finding.summary f)
     /\ (exists r, In r reports /\ Finding.topic f = Last30DaysReport.topic r)
     /\ (Finding.type f = type_x -> (String.length (Finding.title f) <= 123)%nat)
     /\ (Finding.type f = type_web -> Finding.date f = None)).
  { intros f H. apply in_extractFindings, in_candidates in H
      as (r & i & R & _ & Q & ->).
    unfold passes_quality in Q. apply negb_true_iff, orb_false_iff in Q as [Q1 Q2].
    apply Z.ltb_ge in Q1, Q2.
    destruct i as [i|i|i]; cbn [finding_of Finding.hash Finding.url Finding.score
      Finding.summary Finding.topic Finding.type Finding.title Finding.date
      item_score item_summary] in *;
      (split; [reflexivity|]); (split; [exact Q1|]); (split; [exact Q2|]);
      (split; [now exists r|]); (split; [|try reflexivity; discriminate]);
      try discriminate.
    intros _. unfold str_length.
    destruct (120 <? Z.of_nat (String.length (X.text i))) eqn:L.
    - rewrite length_append. pose proof (length_substring_le 0 120 (X.text i)).
      cbn [String.length]. lia.
    - apply Z.ltb_ge in L. lia. }
  split; [exact F|].
  apply (NoDup_fmap_1 computeFindingHash).
  rewrite <- list_fmap_compose.
  rewrite extractFindings_candidates.
  erewrite list_fmap_ext.
  - apply (filter_unseen_NoDup ∅).
  - intros k f H. cbn. symmetry.
    rewrite <- extractFindings_candidates in H.
    apply list_elem_of_lookup_2, list_elem_of_In in H. now apply F.
Qed.

Lemma in_hashes_extractFindings (h : string) rs options :
  In h (hashes_of (extractFindings rs options)) <->
  exists r i,
    In r rs /\ In i (items_of r)
    /\ passes_quality options (item_score i) (item_summary i) = true
    /\ h = computeFindingHash (item_url i).
Proof.
  rewrite extractFindings_candidates, <- list_elem_of_In, filter_unseen_hashes,
    list_elem_of_In.
  unfold hashes_of. rewrite in_map_iff. split.
  - intros (f & <- & F). apply in_candidates in F as (r & i & R & I & Q & ->).
    exists r, i. repeat split; try assumption. now destruct i.
  - intros (r & i & R & I & Q & ->).
    exists (finding_of (Last30DaysReport.topic r) i). split; [now destruct i|].
    apply in_candidates. now exists r, i.
Qed.

Lemma passes_quality_weaken lo hi score summary :
  min_score lo <= min_score hi ->
  min_summary_length lo <= min_summary_length hi ->
  passes_quality hi score summary = true -> passes_quality lo score summary = true.
Proof.
  unfold passes_quality. intros S L.
  rewrite !negb_true_iff, !orb_false_iff, !Z.ltb_ge. lia.
Qed.

(** X3.  Thresholds that are at least as strict never bring up a
    fingerprint that the laxer ones do not: the fingerprints of the output
    under [hi] are among those under [lo], and the output is no longer.
    (The findings themselves can differ: a later occurrence of a
    fingerprint takes the place of a first one that is filtered out.) *)
Theorem extractFindings_stricter
    (reports : list Last30DaysReport.t) (lo hi : option QualityFilterOptions.t) :
  min_score lo <= min_score hi ->
  min_summary_length lo <= min_summary_length hi ->
  (forall h, In h (hashes_of (extractFindings reports hi)) ->
             In h (hashes_of (extractFindings reports lo)))
  /\ (length (extractFindings reports hi) <= length (extractFindings reports lo))%nat.
Proof.
  intros S L.
  assert (H : forall h, In h (hashes_of (extractFindings reports hi)) ->
                        In h (hashes_of (extractFindings reports lo))).
  { intros h. rewrite !in_hashes_extractFindings.
    intros (r & i & R & I & Q & ->). exists r, i.
    repeat split; try assumption. now apply (passes_quality_weaken lo hi). }
  split; [exact H|].
  rewrite !extractFindings_candidates, !filter_unseen_length.
  apply subseteq_size. intros h.
  rewrite !elem_of_difference, !elem_of_list_to_set.
  intros [C E]. split; [|exact E].
  apply list_elem_of_In. apply list_elem_of_In in C.
  change (In h (hashes_of (candidates reports hi))) in C.
  change (In h (hashes_of (candidates reports lo))).
  rewrite <- list_elem_of_In, <- filter_unseen_hashes, list_elem_of_In,
    <- extractFindings_candidates in C |- *.
  now apply H.
Qed.

(** Raising the score threshold from its default to 50 drops the finding
    of score 30 and keeps the one of score 60. *)
Lemma extractFindings_stricter_witness :
  let item url score :=
    Reddit.mk "Post" url "test" None
      "This is a relevant finding with enough detail to pass the quality filter"
      score [] in
  let reports :=
    [ Last30DaysReport.mk "topic"
        [ item "https://reddit.com/r/test/1" 30; item "https://reddit.com/r/test/2" 60 ]
        [] [] ]%string in
  let hi := Some (QualityFilterOptions.mk (Some 50) None) in
  map Finding.score (extractFindings reports None) = [30; 60]
  /\ map Finding.score (extractFindings reports hi) = [60]
  /\ (length (extractFindings reports hi) <= length (extractFindings reports None))%nat.
Proof.
  intros item reports hi.
  split; [vm_compute; reflexivity|]. split; [vm_compute; reflexivity|].
  apply (extractFindings_stricter reports None hi); vm_compute; discriminate.
Defined.

Lemma candidates_hasData rs options :
  candidates (List.filter hasData rs) options = candidates rs options.
Proof.
  unfold candidates. induction rs as [|r rs IH]; [reflexivity|].
  cbn [List.filter flat_map]. destruct (hasData r) eqn:D.
  - cbn [flat_map]. now rewrite IH.
  - rewrite IH. unfold hasData in D. apply Nat.ltb_ge in D.
    unfold items_of.
    destruct (Last30DaysReport.reddit r); [|cbn in D; lia].
    destruct (Last30DaysReport.x r); [|cbn in D; lia].
    destruct (Last30DaysReport.web r); [|cbn in D; lia].
    reflexivity.
Qed.

(** X4.  Reports that [hasData] counts as empty contribute nothing:
    extraction gives the same findings with them and without them, and no
    finding at all when no report has data. *)
Theorem extractFindings_reports_with_data
    (reports : list Last30DaysReport.t) (options : option QualityFilterOptions.t) :
  extractFindings reports options
  = extractFindings (List.filter hasData reports) options
  /\ (forallb (fun r => negb (hasData r)) reports = true ->
      extractFindings reports options = []).
Proof.
  assert (E : extractFindings reports options
              = extractFindings (List.filter hasData reports) options)
    by now rewrite !extractFindings_candidates, candidates_hasData.
  split; [exact E|]. intros H. rewrite E.
  replace (List.filter hasData reports) with (@nil Last30DaysReport.t);
    [now rewrite extractFindings_candidates|].
  symmetry. apply filter_nil_iff. intros r R.
  rewrite forallb_forall in H. specialize (H r R). now apply negb_true_iff in H.
Qed.

(** ** The extract, review and reset commands *)

(** An equivalence between two facts that are each plainly true or plainly
    false. *)
Ltac decide_iff :=
  split; intros ?H; try reflexivity; try discriminate;
  try match goal with H : _ <> _ |- _ => now contradiction H end;
  try match goal with H : _ = _ |- _ => discriminate H end.

Lemma sublist_map {A B : Type} (f : A -> B) (l1 l2 : list A) :
  sublist l1 l2 -> sublist (map f l1) (map f l2).
Proof. induction 1; cbn [map]; now constructor. Qed.

Lemma unreviewed_findings (options : option QualityFilterOptions.t) (w : World) :
  ExtractResult.findings (fst (getUnreviewedFindings options w))
  = match staged_raw_json (dir w) with
    | Missing => []
    | _ => List.filter (is_unreviewed w) (extractFindings (staged_reports w) options)
    end.
Proof.
  rewrite getUnreviewedFindings_run. cbn [fst].
  destruct (staged_raw_json (dir w)); [reflexivity| |];
    now destruct (List.filter _ _).
Qed.

(** X5.  The extract command needs a cache directory: without one it
    exits with a message and reads nothing.  With one it changes nothing
    on disk and prints a result in which no two findings share a
    fingerprint and every finding is unreviewed and meets the default
    thresholds of 25 and 40, whatever the configuration says; the status
    is [has_new] exactly when there are findings, and [no_staged] exactly
    when staged-raw.json is absent. *)
Theorem executeExtract_result (cacheDir : string) (w : World) :
  (cacheDir = EmptyString ->
   executeExtract cacheDir w = (Exited "--cache-dir is required for extract"%string, w))
  /\ (cacheDir <> EmptyString ->
      exists r,
        executeExtract cacheDir w = (Returned r, w)
        /\ (ExtractResult.status r = has_new <-> ExtractResult.findings r <> [])
        /\ (ExtractResult.status r = no_staged <-> staged_raw_json (dir w) = Missing)
        /\ NoDup (hashes_of (ExtractResult.findings r))
        /\ forall f, In f (ExtractResult.findings r) ->
             25 <= Finding.score f
             /\ 40 <= str_length (Finding.summary f)
             /\ ~ In (Finding.hash f) (fingerprints (ledger w))).
Proof.
  split; [intros ->; reflexivity|]. intros N.
  unfold executeExtract. rewrite (eqb_empty_false _ N), bind_run.
  rewrite getUnreviewedFindings_run. cbn [fst snd ret].
  eexists. split; [reflexivity|].
  assert (K : forall f,
            In f (List.filter (is_unreviewed w) (extractFindings (staged_reports w) None)) ->
            25 <= Finding.score f
            /\ 40 <= str_length (Finding.summary f)
            /\ ~ In (Finding.hash f) (fingerprints (ledger w))).
  { intros f F. apply filter_In in F as [F R].
    apply in_extractFindings, in_candidates in F as (r & i & _ & _ & Q & ->).
    unfold passes_quality in Q. apply negb_true_iff, orb_false_iff in Q as [Q1 Q2].
    apply Z.ltb_ge in Q1, Q2. apply is_unreviewed_spec in R.
    rewrite list_elem_of_In in R.
    destruct i; cbn in *; repeat split; assumption. }
  assert (D : NoDup (hashes_of
            (List.filter (is_unreviewed w) (extractFindings (staged_reports w) None)))).
  { unfold hashes_of.
    apply (sublist_NoDup _ (map Finding.hash (extractFindings (staged_reports w) None))).
    - rewrite extractFindings_candidates. apply filter_unseen_NoDup.
    - apply sublist_map, filter_sublist. }
  destruct (staged_raw_json (dir w)) eqn:E;
    [|destruct (List.filter _ _) as [|f l] eqn:L ..];
    cbn [ExtractResult.status ExtractResult.findings];
    (split; [decide_iff|]); (split; [decide_iff|]);
    (split; [try exact D; constructor|]);
    try exact K; intros f [].
Qed.

(** X6.  The review command records nothing, and exits with a message,
    exactly when it has no cache directory, or no fingerprint, or a
    decision other than accepted and rejected; the files are then as they
    were. *)
Theorem executeReview_refuses (options : CliOptions.t) (w : World) :
  (exists message, executeReview options w = (Exited message, w))
  <-> (CliOptions.cacheDir options = EmptyString
       \/ CliOptions.hashes options = []
       \/ (CliOptions.decision options <> "accepted"%string
           /\ CliOptions.decision options <> "rejected"%string)).
Proof.
  destruct (String.eqb_spec (CliOptions.cacheDir options) EmptyString) as [C|C].
  { split; [now left|]. intros _. unfold executeReview. rewrite C. cbn. eauto. }
  destruct (CliOptions.hashes options) as [|h hs] eqn:H.
  { split; [now right; left|]. intros _. unfold executeReview.
    rewrite (eqb_empty_false _ C), H. cbn. eauto. }
  destruct (String.eqb_spec (CliOptions.decision options) "accepted"%string) as [A|A];
    [|destruct (String.eqb_spec (CliOptions.decision options) "rejected"%string) as [R|R]].
  - split.
    + intros (m & E). rewrite executeReview_run in E; [discriminate E|exact C| |now left].
      rewrite H. discriminate.
    + intros [E | [E | [E _]]]; congruence.
  - split.
    + intros (m & E). rewrite executeReview_run in E; [discriminate E|exact C| |now right].
      rewrite H. discriminate.
    + intros [E | [E | [_ E]]]; congruence.
  - split; [now right; right|]. intros _. unfold executeReview.
    rewrite (eqb_empty_false _ C), H. cbn [length Nat.eqb includes existsb].
    apply String.eqb_neq in A, R. rewrite A, R. cbn. eauto.
Qed.

Lemma fingerprints_after_review (batch : list string) (decision date : string)
    (l : list ReviewedEntry.t) (h : string) :
  In h (fingerprints
          (List.filter (fun r => negb (in_batch batch r)) l
           ++ map (fun h => ReviewedEntry.mk h decision date) batch))
  <-> In h (fingerprints l) \/ In h batch.
Proof.
  unfold fingerprints. rewrite map_app, in_app_iff, map_map. cbn [ReviewedEntry.hash].
  rewrite map_id, !in_map_iff. split.
  - intros [(r & <- & R) | B]; [left|now right].
    apply filter_In in R as [R _]. now exists r.
  - intros [(r & <- & R) | B]; [|now right].
    destruct (in_batch batch r) eqn:I.
    + right. unfold in_batch in I. apply bool_decide_eq_true in I.
      now apply list_elem_of_In.
    + left. exists r. split; [reflexivity|]. apply filter_In. now rewrite I.
Qed.

Lemma filter_andb {A : Type} (p q : A -> bool) (l : list A) :
  List.filter (fun a => p a && q a) l = List.filter q (List.filter p l).
Proof.
  induction l as [|a l IH]; [reflexivity|]. cbn [List.filter].
  destruct (p a); cbn [andb List.filter]; [|exact IH].
  destruct (q a); now rewrite IH.
Qed.

(** X7.  After a review that was recorded, the reviewed fingerprints are
    those of before together with the batch, and the query for unreviewed
    findings returns what it returned before without the findings of the
    batch: none of them is reported again. *)
Theorem executeReview_then_extract
    (options : CliOptions.t) (thresholds : option QualityFilterOptions.t) (w : World) :
  CliOptions.cacheDir options <> EmptyString ->
  CliOptions.hashes options <> [] ->
  CliOptions.decision options = "accepted"%string
  \/ CliOptions.decision options = "rejected"%string ->
  let w' := snd (executeReview options w) in
  let before := ExtractResult.findings (fst (getUnreviewedFindings thresholds w)) in
  let after := ExtractResult.findings (fst (getUnreviewedFindings thresholds w')) in
  (forall h, In h (fingerprints (ledger w'))
             <-> In h (fingerprints (ledger w)) \/ In h (CliOptions.hashes options))
  /\ after
     = List.filter (fun f => negb (hash_in (CliOptions.hashes options) f)) before
  /\ (forall f, In f after -> ~ In (Finding.hash f) (CliOptions.hashes options)).
Proof.
  intros C H D. cbv zeta.
  rewrite (executeReview_run options w C H D). cbn [snd].
  set (w' := set_dir _ _).
  assert (L : forall h, In h (fingerprints (ledger w'))
                        <-> In h (fingerprints (ledger w)) \/ In h (CliOptions.hashes options)).
  { intros h. unfold w', ledger at 1.
    cbn [dir reviewed_hashes_json ReviewedHashes.reviewed].
    apply fingerprints_after_review. }
  assert (E : ExtractResult.findings (fst (getUnreviewedFindings thresholds w'))
              = List.filter (fun f => negb (hash_in (CliOptions.hashes options) f))
                  (ExtractResult.findings (fst (getUnreviewedFindings thresholds w)))).
  { rewrite !unreviewed_findings.
    change (staged_raw_json (dir w')) with (staged_raw_json (dir w)).
    change (staged_reports w') with (staged_reports w).
    destruct (staged_raw_json (dir w)); [reflexivity| |];
      rewrite <- filter_andb; apply filter_idem_ext; intros f;
      unfold is_unreviewed, hash_in;
      rewrite <- negb_orb; f_equal;
      apply eq_true_iff_eq;
      rewrite orb_true_iff, !bool_decide_eq_true, !list_elem_of_In; apply L. }
  split; [exact L|]. split; [exact E|].
  intros f F. rewrite E in F. apply filter_In in F as [_ F].
  unfold hash_in in F. apply negb_true_iff, bool_decide_eq_false in F.
  now rewrite list_elem_of_In in F.
Qed.

(** Rejecting the only staged finding leaves nothing to report. *)
Lemma executeReview_then_extract_witness :
  let item :=
    Reddit.mk "Test Post" "https://reddit.com/r/test/1" "test" (Some "2025-01-01")
      "This is a relevant finding with enough detail to pass the quality filter"
      100 [] in
  let reports := [ Last30DaysReport.mk "test-topic" [item] [] [] ]%string in
  let w := mkWorld (mkCacheDir Missing None (Holds reports) Missing) 1767225600000 in
  let options :=
    CliOptions.mk cmd_review EmptyString "/cache" false false false None
      [computeFindingHash "https://reddit.com/r/test/1"] "rejected" in
  length (ExtractResult.findings (fst (getUnreviewedFindings None w))) = 1%nat
  /\ ExtractResult.findings
       (fst (getUnreviewedFindings None (snd (executeReview options w))))
     = List.filter (fun f => negb (hash_in (CliOptions.hashes options) f))
         (ExtractResult.findings (fst (getUnreviewedFindings None w)))
  /\ fst (getUnreviewedFindings None (snd (executeReview options w)))
     = ExtractResult.mk no_new [].
Proof.
  intros item reports w options.
  split; [vm_compute; reflexivity|]. split; [|vm_compute; reflexivity].
  apply (executeReview_then_extract options None w);
    [discriminate | discriminate | now right].
Defined.

Lemma executeReset_run (cacheDir : string) (w : World) :
  cacheDir <> EmptyString ->
  executeReset cacheDir w
  = (Returned "reset"%string,
     set_dir (mkCacheDir Missing None Missing (reviewed_hashes_json (dir w))) w).
Proof.
  intros N. unfold executeReset. rewrite (eqb_empty_false _ N).
  cbn [fold_left]. rewrite !bind_run. unfold ret at 1. cbn [fst snd].
  unfold pathExistsSync. cbn [fst snd].
  destruct w as [[meta intel raw reviewed] t e]. unfold set_dir. cbn [dir clock engine].
  destruct intel as [intel|]; cbn [path_exists staged_intel_md fst snd unlinkSync ret dir
    clock engine set_dir last_updated_json staged_raw_json reviewed_hashes_json];
  destruct raw as [| |raw]; cbn [path_exists is_file staged_intel_md fst snd unlinkSync ret
    dir clock engine set_dir last_updated_json staged_raw_json reviewed_hashes_json];
  destruct meta as [| |meta]; reflexivity.
Qed.

(** X8.  The reset command needs a cache directory: without one it exits
    with a message and deletes nothing.  With one it leaves the directory
    without metadata, staged intel and staged raw results, whatever was
    there, and never touches the review ledger; the cache is then not
    fresh, the query for unreviewed findings answers [no_staged], and a
    second reset changes nothing more. *)
Theorem executeReset_effect
    (cacheDir : string) (thresholds : option QualityFilterOptions.t) (w : World) :
  (cacheDir = EmptyString ->
   executeReset cacheDir w = (Exited "--cache-dir is required for reset"%string, w))
  /\ (cacheDir <> EmptyString ->
      let w' := snd (executeReset cacheDir w) in
      fst (executeReset cacheDir w) = Returned "reset"%string
      /\ last_updated_json (dir w') = Missing
      /\ staged_intel_md (dir w') = None
      /\ staged_raw_json (dir w') = Missing
      /\ reviewed_hashes_json (dir w') = reviewed_hashes_json (dir w)
      /\ fst (isCacheFresh w') = false
      /\ fst (getUnreviewedFindings thresholds w') = ExtractResult.mk no_staged []
      /\ executeReset cacheDir w' = (Returned "reset"%string, w')).
Proof.
  split; [intros ->; reflexivity|]. intros N. cbv zeta.
  rewrite (executeReset_run cacheDir w N). cbn [fst snd dir last_updated_json
    staged_intel_md staged_raw_json reviewed_hashes_json].
  repeat split;
    first [ reflexivity
          | now rewrite isCacheFresh_run
          | now rewrite getUnreviewedFindings_run
          | now rewrite executeReset_run ].
Qed.

(** ** Freshness over time, and after a backoff *)

(** X9.  A cache that is not fresh does not become fresh by waiting:
    with the files as they are, [isCacheFresh] stays false at every later
    time, whatever the metadata holds. *)
Theorem isCacheFresh_stays_stale (w : World) (later : Z) :
  clock w <= later ->
  fst (isCacheFresh w) = false ->
  fst (isCacheFresh (at_time later w)) = false.
Proof.
  intros T. rewrite !isCacheFresh_run. unfold at_time, Date_in. cbn [fst dir clock engine].
  destruct (last_updated_json (dir w)) as [| |[m|]]; try reflexivity.
  destruct (staged_intel_md (dir w)); [|reflexivity].
  rewrite !andb_false_iff, !negb_false_iff.
  destruct (Date_of (engine w) (CacheMetadata.next_update_after m)) as [nu|];
    destruct (Date_of (engine w) (CacheMetadata.last_updated m)) as [lu|];
    cbn [js_gt js_sub]; rewrite ?Z.ltb_lt, ?Z.ltb_ge; intros [H|H];
    try discriminate H; try (right; reflexivity); lia.
Qed.

(** A cache whose deadline passed a second ago is stale a day later too. *)
Lemma isCacheFresh_stays_stale_witness :
  let w :=
    test_dir (Holds (Some (test_metadata (test_now - 86400000) (test_now - 1000)))) true in
  fst (isCacheFresh w) = false
  /\ fst (isCacheFresh (at_time (test_now + 86400000) w)) = false.
Proof.
  intros w. assert (S : fst (isCacheFresh w) = false) by (vm_compute; reflexivity).
  split; [exact S|].
  apply (isCacheFresh_stays_stale w (test_now + 86400000)); [|exact S].
  vm_compute. discriminate.
Defined.

(** X10.  What the backoff is worth.  After [buildBackoffMetadata] and
    [writeBackoffMetadata], the cache counts as fresh at a time [t] exactly
    when staged-intel.md exists, [t] is before the deadline four hours
    after the failure, and the last update that was kept, if the engine
    reads it as a date, in whatever form it was written, is at most 60
    days before [t].  Without a staged-intel.md the backoff holds nothing
    back: the cache is not fresh, and the next run queries again. *)
Theorem backoff_holds_with_cache (topics : list string) (w : World) (t : Z) :
  valid_time (clock w + 4 * ms_per_hour) ->
  let m := fst (buildBackoffMetadata topics w) in
  let w' := snd (writeBackoffMetadata m (snd (buildBackoffMetadata topics w))) in
  (fst (isCacheFresh (at_time t w')) = true
   <-> staged_intel_md (dir w) <> None
       /\ t < clock w + 4 * ms_per_hour
       /\ (forall lastUpdated,
             Date_in w (CacheMetadata.last_updated m) = Some lastUpdated ->
             t - lastUpdated <= 60 * ms_per_day))
  /\ (staged_intel_md (dir w) = None -> fst (isCacheFresh (at_time t w')) = false).
Proof.
  intros V. cbv zeta. rewrite buildBackoffMetadata_run. cbn [fst snd].
  rewrite writeBackoffMetadata_run. unfold at_time. cbn [snd].
  rewrite isCacheFresh_run. unfold Date_in.
  cbn [fst dir clock engine set_dir last_updated_json staged_intel_md
       CacheMetadata.last_updated CacheMetadata.next_update_after].
  rewrite (Date_of_toISOString _ _ V).
  set (kept := nullish_val _ _).
  destruct (staged_intel_md (dir w)) as [intel|].
  2:{ split; [|reflexivity]. split; [discriminate|]. intros [H _]. now contradiction H. }
  split; [|discriminate].
  rewrite andb_true_iff, negb_true_iff.
  unfold MAX_CACHE_AGE_DAYS, ms_per_day.
  destruct (Date_of (engine w) kept) as [lu|]; cbn [js_gt js_sub];
    rewrite ?Z.ltb_lt, ?Z.ltb_ge.
  - split.
    + intros [A D]. split; [discriminate|]. split; [exact D|].
      intros lu' E. injection E as <-. lia.
    + intros (_ & D & A). specialize (A lu eq_refl). lia.
  - split.
    + intros [_ D]. split; [discriminate|]. split; [exact D|]. discriminate.
    + intros (_ & D & _). split; [reflexivity|exact D].
Qed.

(** With a staged-intel.md and no earlier metadata the backoff holds for
    the next hour; without a staged-intel.md it does not; and over
    metadata whose last update was written as the date alone, a year
    before, it does not hold either: the kept date is older than 60
    days. *)
Lemma backoff_holds_with_cache_witness :
  let staged := mkWorld (mkCacheDir Missing (Some "# intel"%string) Missing Missing) test_now in
  let bare := mkWorld (mkCacheDir Missing None Missing Missing) test_now in
  let old :=
    mkWorld
      (mkCacheDir
         (Holds (Some (CacheMetadata.mk (VString "2025-01-01") ["topic"]%string
                         (VString "2025-01-31"))))
         (Some "# intel"%string) Missing Missing) test_now in
  let after w :=
    snd (writeBackoffMetadata (fst (buildBackoffMetadata ["topic"]%string w))
           (snd (buildBackoffMetadata ["topic"]%string w))) in
  fst (isCacheFresh (at_time (test_now + 3600000) (after staged))) = true
  /\ fst (isCacheFresh (at_time (test_now + 3600000) (after bare))) = false
  /\ fst (isCacheFresh (at_time (test_now + 3600000) (after old))) = false.
Proof.
  intros staged bare old after.
  assert (V : valid_time (test_now + 4 * ms_per_hour))
    by (unfold valid_time; vm_compute; split; discriminate).
  split; [|split].
  - apply (backoff_holds_with_cache ["topic"]%string staged (test_now + 3600000) V).
    split; [discriminate|]. split; [vm_compute; reflexivity|].
    intros lu E. vm_compute in E. injection E as <-. vm_compute. discriminate.
  - apply (backoff_holds_with_cache ["topic"]%string bare (test_now + 3600000) V).
    reflexivity.
  - apply not_true_is_false. intros F.
    apply (backoff_holds_with_cache ["topic"]%string old (test_now + 3600000) V) in F.
    destruct F as (_ & _ & A). specialize (A 1735689600000).
    assert (E : Date_in old
                  (CacheMetadata.last_updated (fst (buildBackoffMetadata ["topic"]%string old)))
                = Some 1735689600000) by (vm_compute; reflexivity).
    specialize (A E). vm_compute in A. now apply A.
Defined.

(** ** The refresh command, path by path *)

(** X11.  A refresh that lacks one of its two paths, cannot read its
    configuration, or finds no topic in it reports [failed] with a single
    diagnostic of topic init, and leaves every file as it was. *)
Theorem executeRefresh_rejects
    (ext : Collaborators) (options : CliOptions.t) (w : World) :
  CliOptions.configPath options = EmptyString
  \/ CliOptions.cacheDir options = EmptyString
  \/ (exists err, readJsonFileSync ext (CliOptions.configPath options) = inl err)
  \/ (exists config,
        readJsonFileSync ext (CliOptions.configPath options) = inr config
        /\ CacheConfig.topics config = []) ->
  exists reason,
    executeRefresh ext options w
    = (Done (StatusReport.mk failed None (Some [init_error reason])), w).
Proof.
  intros H. unfold executeRefresh.
  destruct (String.eqb_spec (CliOptions.configPath options) EmptyString) as [P|P];
    [eexists; reflexivity|].
  destruct (String.eqb_spec (CliOptions.cacheDir options) EmptyString) as [C|C];
    [eexists; reflexivity|].
  destruct H as [H | [H | [(err & H) | (config & H & T)]]]; try contradiction.
  - rewrite H. eexists. reflexivity.
  - rewrite H, T. eexists. reflexivity.
Qed.

(** A refresh without --config changes nothing and says so. *)
Lemma executeRefresh_rejects_witness :
  let ext :=
    mkCollaborators (fun _ => inl "ENOENT"%string) (fun _ _ _ => ([], []))
      (fun _ _ _ => None) (fun _ _ => EmptyString) in
  let options :=
    CliOptions.mk cmd_refresh EmptyString "/cache" false false false None []
      "accepted" in
  let w := mkWorld (mkCacheDir Missing None Missing Missing) test_now in
  exists reason,
    executeRefresh ext options w
    = (Done (StatusReport.mk failed None (Some [init_error reason])), w).
Proof.
  intros ext options w. apply (executeRefresh_rejects ext options w). now left.
Defined.

(** X12.  A refresh that is not forced and finds the cache fresh reports
    [fresh] and nothing else, and neither gathers nor writes. *)
Theorem executeRefresh_fresh
    (ext : Collaborators) (options : CliOptions.t) (config : CacheConfig.t) (w : World) :
  CliOptions.configPath options <> EmptyString ->
  CliOptions.cacheDir options <> EmptyString ->
  readJsonFileSync ext (CliOptions.configPath options) = inr config ->
  CacheConfig.topics config <> [] ->
  CliOptions.force options = false ->
  fst (isCacheFresh w) = true ->
  executeRefresh ext options w = (Done (StatusReport.mk fresh None None), w).
Proof.
  intros P C R T F I. unfold executeRefresh.
  rewrite (eqb_empty_false _ P), (eqb_empty_false _ C), R, (length_zero_not_nil _ T).
  now rewrite bind_run, fresh_check_run, F, I.
Qed.

(** X13.  Whatever its arguments, its collaborators and the state of the
    directory, a refresh leaves the review ledger as it was and never
    removes a staged-intel.md that is there. *)
Theorem executeRefresh_preserves
    (ext : Collaborators) (options : CliOptions.t) (w : World) :
  let w' := snd (executeRefresh ext options w) in
  reviewed_hashes_json (dir w') = reviewed_hashes_json (dir w)
  /\ (staged_intel_md (dir w) <> None -> staged_intel_md (dir w') <> None).
Proof.
  cbv zeta. destruct (executeRefresh_cases ext options w) as [-> | (config & G)];
    [now repeat split|].
  rewrite (executeRefresh_gathered _ _ _ _ G).
  destruct (gathered ext options config) as [results pushed].
  destruct (Nat.eqb (success_count results) 0).
  - rewrite writeBackoffMetadata_run.
    cbn [snd dir set_dir reviewed_hashes_json staged_intel_md].
    now repeat split.
  - cbv zeta. destruct (Date_toISOString _) as [text|error]; [|now repeat split].
    rewrite writeCacheFiles_run.
    cbn [snd dir set_dir reviewed_hashes_json staged_intel_md].
    repeat split. discriminate.
Qed.

(** Collaborators for the examples: a configuration of one topic, and a
    gathering run that returns the given results. *)
Lemma executeRefresh_fresh_witness :
  let config := CacheConfig.mk ["topic"]%string None None None None None None in
  let ext :=
    mkCollaborators (fun _ => inr config) (fun _ _ _ => ([None], []))
      (fun _ _ _ => None) (fun _ _ => "# raw"%string) in
  let options :=
    CliOptions.mk cmd_refresh "/config.json" "/cache" false false false None []
      "accepted" in
  let w := test_dir (Holds (Some (test_metadata test_now (test_now + 86400000)))) true in
  executeRefresh ext options w = (Done (StatusReport.mk fresh None None), w).
Proof.
  intros config ext options w.
  apply (executeRefresh_fresh ext options config w);
    try discriminate; reflexivity.
Defined.

(** X14.  When no query returned data, the refresh writes the backoff
    metadata and nothing else: staged-intel.md and staged-raw.json are as
    they were.  It reports [failed] if a staged-intel.md exists and
    [no_cache] if none does, with the diagnostics of the gathering run. *)
Theorem executeRefresh_all_failed
    (ext : Collaborators) (options : CliOptions.t) (config : CacheConfig.t) (w : World) :
  refresh_gathers ext options config w ->
  success_count (fst (gathered ext options config)) = 0%nat ->
  let w' := snd (executeRefresh ext options w) in
  exists report,
  fst (executeRefresh ext options w) = Done report
  /\ StatusReport.status report
     = match staged_intel_md (dir w) with Some _ => failed | None => no_cache end
  /\ StatusReport.detail report = Some "all queries failed, backoff 4h"%string
  /\ StatusReport.errors report
     = match snd (gathered ext options config) with
       | [] => None
       | pushed => Some pushed
       end
  /\ last_updated_json (dir w')
     = Holds (Some (fst (buildBackoffMetadata (CacheConfig.topics config) w)))
  /\ staged_intel_md (dir w') = staged_intel_md (dir w)
  /\ staged_raw_json (dir w') = staged_raw_json (dir w).
Proof.
  intros G Z. cbv zeta. rewrite (executeRefresh_gathered _ _ _ _ G).
  destruct (gathered ext options config) as [results pushed]. cbn [fst snd] in *.
  rewrite Z. cbn [Nat.eqb fst snd]. rewrite writeBackoffMetadata_run.
  cbn [snd dir set_dir last_updated_json staged_intel_md staged_raw_json].
  eexists. split; [reflexivity|].
  repeat split. now destruct pushed.
Qed.

Lemma executeRefresh_all_failed_witness :
  let config := CacheConfig.mk ["topic"]%string None None None None None None in
  let error := QueryError.mk "topic" "timeout after 60000ms" None in
  let ext :=
    mkCollaborators (fun _ => inr config) (fun _ _ _ => ([None], [error]))
      (fun _ _ _ => None) (fun _ _ => "# raw"%string) in
  let options :=
    CliOptions.mk cmd_refresh "/config.json" "/cache" false false false None []
      "accepted" in
  let w := mkWorld (mkCacheDir Missing None Missing Missing) test_now in
  fst (executeRefresh ext options w)
  = Done (StatusReport.mk no_cache (Some "all queries failed, backoff 4h"%string)
            (Some [error]))
  /\ exists report,
       fst (executeRefresh ext options w) = Done report
       /\ StatusReport.status report
          = match staged_intel_md (dir w) with Some _ => failed | None => no_cache end.
Proof.
  intros config error ext options w. split; [vm_compute; reflexivity|].
  assert (G : refresh_gathers ext options config w)
    by (repeat split; try discriminate; now right).
  destruct (executeRefresh_all_failed ext options config w G eq_refl)
    as (report & R & S & _).
  exists report. split; [exact R|exact S].
Defined.

(** X15.  When at least one query returned data and the deadline that
    [getIntervalDays] gives is a time a Date can hold, the refresh reports
    [refreshed] and replaces all three cache files: staged-raw.json holds
    the reports of the queries that did not fail, in the order of the
    results; the metadata holds the time of the run, the topics, and the
    deadline; and staged-intel.md holds the raw format whenever synthesis
    is switched off, fails, or returns an empty text.  When the deadline
    is beyond what a Date can hold, [nextUpdate.toISOString()] raises a
    RangeError before anything is written: the refresh reports nothing
    and every file is as it was. *)
Theorem executeRefresh_refreshed
    (ext : Collaborators) (options : CliOptions.t) (config : CacheConfig.t) (w : World) :
  refresh_gathers ext options config w ->
  success_count (fst (gathered ext options config)) <> 0%nat ->
  let results := fst (gathered ext options config) in
  let topics := CacheConfig.topics config in
  let interval := getIntervalDays (success_count results) (length topics) config in
  let deadline := clock w + interval * ms_per_day in
  let w' := snd (executeRefresh ext options w) in
  (valid_time deadline ->
   (exists report,
      fst (executeRefresh ext options w) = Done report
      /\ StatusReport.status report = refreshed)
   /\ staged_raw_json (dir w') = Holds (omap id results)
   /\ last_updated_json (dir w')
      = Holds (Some (CacheMetadata.mk (VString (toISOString (clock w))) topics
                       (VString (toISOString deadline))))
   /\ (exists markdown, staged_intel_md (dir w') = Some markdown)
   /\ (CliOptions.noSynthesize options = true
       \/ synthesize ext results
            (nullish (CacheConfig.context config) (String.concat ", " topics))
            (CliOptions.verbose options) = None
       \/ synthesize ext results
            (nullish (CacheConfig.context config) (String.concat ", " topics))
            (CliOptions.verbose options) = Some EmptyString ->
       staged_intel_md (dir w')
       = Some (formatMarkdown ext results (toISOString (clock w)))))
  /\ (~ valid_time deadline ->
      executeRefresh ext options w = (Raised RangeError_invalid_time, w)).
Proof.
  intros G Z. cbv zeta. split.
  - intros V.
    destruct (executeRefresh_written ext options config w G Z V)
      as (markdown & detail & -> & M).
    cbn [fst snd dir set_dir last_updated_json staged_intel_md staged_raw_json].
    split; [eexists; split; reflexivity|].
    split; [reflexivity|]. split; [reflexivity|].
    split; [eexists; reflexivity|].
    intros S. now rewrite (M S).
  - intros V. exact (executeRefresh_raises ext options config w G Z V).
Qed.

(** A refresh with the default interval writes the cache; the same
    refresh under a configuration of a hundred million days between
    refreshes raises, and leaves the directory empty. *)
Lemma executeRefresh_refreshed_witness :
  let config := CacheConfig.mk ["topic"]%string None None None None None None in
  let far := CacheConfig.mk ["topic"]%string (Some 100000000) None None None None None in
  let item :=
    Reddit.mk "Post" "https://reddit.com/r/test/1" "test" None "Relevant" 50 [] in
  let report := Last30DaysReport.mk "topic" [item] [] [] in
  let ext config :=
    mkCollaborators (fun _ => inr config) (fun _ _ _ => ([None; Some report], []))
      (fun _ _ _ => None) (fun _ _ => "# raw"%string) in
  let options :=
    CliOptions.mk cmd_refresh "/config.json" "/cache" false false false None []
      "accepted" in
  let w := mkWorld (mkCacheDir Missing None Missing Missing) test_now in
  fst (executeRefresh (ext config) options w)
  = Done (StatusReport.mk refreshed (Some "1/1 topics (interval: 30d)"%string) None)
  /\ staged_raw_json (dir (snd (executeRefresh (ext config) options w))) = Holds [report]
  /\ staged_intel_md (dir (snd (executeRefresh (ext config) options w)))
     = Some "# raw"%string
  /\ executeRefresh (ext far) options w = (Raised RangeError_invalid_time, w).
Proof.
  intros config far item report ext options w.
  assert (G : forall c, CacheConfig.topics c <> [] -> refresh_gathers (ext c) options c w)
    by (intros c T; repeat split; try discriminate; [exact T|now right]).
  assert (Z : forall c, success_count (fst (gathered (ext c) options c)) <> 0%nat)
    by (intros c; vm_compute; discriminate).
  split; [vm_compute; reflexivity|].
  pose proof (executeRefresh_refreshed (ext config) options config w
                (G config ltac:(discriminate)) (Z config)) as [W _].
  pose proof (executeRefresh_refreshed (ext far) options far w
                (G far ltac:(discriminate)) (Z far)) as [_ R].
  cbv zeta in W, R.
  destruct W as (_ & S & _ & _ & M);
    [unfold valid_time; vm_compute; split; discriminate|].
  split; [exact S|]. split.
  - apply M. right. now left.
  - apply R. unfold valid_time. vm_compute. intros [_ H]. now apply H.
Defined.

(** X16.  How long a refresh lasts.  After a refresh that wrote the
    cache, the cache counts as fresh at a time [t] exactly when [t] is
    before the deadline and at most 60 days after the run: an interval of
    more than 60 days is cut short by the age guard.  With a positive
    interval, running the same refresh again at once, unforced, reports
    [fresh] and changes nothing. *)
Theorem executeRefresh_then_fresh
    (ext : Collaborators) (options : CliOptions.t) (config : CacheConfig.t) (w : World) :
  refresh_gathers ext options config w ->
  success_count (fst (gathered ext options config)) <> 0%nat ->
  let interval :=
    getIntervalDays (success_count (fst (gathered ext options config)))
      (length (CacheConfig.topics config)) config in
  valid_time (clock w) ->
  valid_time (clock w + interval * ms_per_day) ->
  let w' := snd (executeRefresh ext options w) in
  (forall t, fst (isCacheFresh (at_time t w')) = true
             <-> t < clock w + interval * ms_per_day /\ t <= clock w + 60 * ms_per_day)
  /\ (0 < interval -> CliOptions.force options = false ->
      executeRefresh ext options w' = (Done (StatusReport.mk fresh None None), w')).
Proof.
  intros G Z interval V VD w'.
  destruct (executeRefresh_written ext options config w G Z VD)
    as (markdown & detail & W & _).
  apply (f_equal snd) in W. cbn [snd] in W. fold interval in W. fold w' in W.
  assert (F : forall t, fst (isCacheFresh (at_time t w')) = true
                        <-> t < clock w + interval * ms_per_day
                            /\ t <= clock w + 60 * ms_per_day).
  { intros t. rewrite isCacheFresh_run, W. unfold at_time, Date_in.
    cbn [fst dir clock engine set_dir last_updated_json staged_intel_md
         CacheMetadata.last_updated CacheMetadata.next_update_after].
    rewrite (Date_of_toISOString _ _ V), (Date_of_toISOString _ _ VD).
    cbn [js_gt js_sub]. unfold MAX_CACHE_AGE_DAYS, ms_per_day.
    rewrite andb_true_iff, negb_true_iff, Z.ltb_lt, Z.ltb_ge. lia. }
  split; [exact F|].
  intros P N. destruct G as (GP & GC & GR & GT & _).
  assert (I : fst (isCacheFresh w') = true).
  { specialize (F (clock w')).
    replace (at_time (clock w') w') with w' in F by now destruct w'.
    apply F. rewrite W. cbn [clock set_dir]. unfold ms_per_day. lia. }
  unfold executeRefresh.
  rewrite (eqb_empty_false _ GP), (eqb_empty_false _ GC), GR, (length_zero_not_nil _ GT).
  now rewrite bind_run, fresh_check_run, N, I.
Qed.

Lemma executeRefresh_then_fresh_witness :
  let config := CacheConfig.mk ["topic"]%string None None None None None None in
  let item :=
    Reddit.mk "Post" "https://reddit.com/r/test/1" "test" None "Relevant" 50 [] in
  let report := Last30DaysReport.mk "topic" [item] [] [] in
  let ext :=
    mkCollaborators (fun _ => inr config) (fun _ _ _ => ([Some report], []))
      (fun _ _ _ => None) (fun _ _ => "# raw"%string) in
  let options :=
    CliOptions.mk cmd_refresh "/config.json" "/cache" false false false None []
      "accepted" in
  let w := mkWorld (mkCacheDir Missing None Missing Missing) test_now in
  let w' := snd (executeRefresh ext options w) in
  fst (isCacheFresh w) = false
  /\ executeRefresh ext options w' = (Done (StatusReport.mk fresh None None), w').
Proof.
  intros config item report ext options w w'. split; [reflexivity|].
  assert (G : refresh_gathers ext options config w)
    by (repeat split; try discriminate; now right).
  assert (Z : success_count (fst (gathered ext options config)) <> 0%nat)
    by (vm_compute; discriminate).
  assert (V : valid_time (clock w)) by (unfold valid_time; vm_compute; split; discriminate).
  assert (VD : valid_time
                 (clock w
                  + getIntervalDays (success_count (fst (gathered ext options config)))
                      (length (CacheConfig.topics config)) config * ms_per_day))
    by (unfold valid_time; vm_compute; split; discriminate).
  apply (executeRefresh_then_fresh ext options config w G Z V VD);
    [vm_compute|]; reflexivity.
Defined.

(** X17.  After a refresh that gathered data and whose deadline is a
    time a Date can hold, the query for unreviewed findings answers from
    the reports that were just gathered: its findings are those that
    [extractFindings] draws from the results that are not null, less the
    ones whose fingerprint the ledger holds.  After a refresh whose
    deadline is beyond what a Date can hold, which wrote nothing, the
    query answers as it did before. *)
Theorem executeRefresh_then_extract
    (ext : Collaborators) (options : CliOptions.t) (config : CacheConfig.t)
    (thresholds : option QualityFilterOptions.t) (w : World) :
  refresh_gathers ext options config w ->
  success_count (fst (gathered ext options config)) <> 0%nat ->
  let deadline :=
    clock w
    + getIntervalDays (success_count (fst (gathered ext options config)))
        (length (CacheConfig.topics config)) config * ms_per_day in
  let w' := snd (executeRefresh ext options w) in
  let result := fst (getUnreviewedFindings thresholds w') in
  (valid_time deadline ->
   ExtractResult.findings result
   = List.filter (is_unreviewed w)
       (extractFindings (omap id (fst (gathered ext options config))) thresholds)
   /\ ExtractResult.status result <> no_staged)
  /\ (~ valid_time deadline ->
      result = fst (getUnreviewedFindings thresholds w)).
Proof.
  intros G Z deadline w' result. split.
  - intros V.
    destruct (executeRefresh_written ext options config w G Z V)
      as (markdown & detail & W & _).
    apply (f_equal snd) in W. cbn [snd] in W. fold w' in W. unfold result.
    rewrite getUnreviewedFindings_run. cbn [fst].
    assert (U : forall f, is_unreviewed w' f = is_unreviewed w f)
      by (intros f; unfold is_unreviewed, ledger; now rewrite W).
    unfold staged_reports. rewrite (filter_idem_ext _ _ _ U), W.
    cbn [dir set_dir staged_raw_json].
    destruct (List.filter _ _); cbn; split; try reflexivity; discriminate.
  - intros V. unfold result, w'.
    now rewrite (executeRefresh_raises ext options config w G Z V).
Qed.

(** The finding of a post that a refresh has just gathered is offered for
    review; under a configuration of a hundred million days between
    refreshes nothing was staged, and the query says so. *)
Lemma executeRefresh_then_extract_witness :
  let config := CacheConfig.mk ["topic"]%string None None None None None None in
  let far := CacheConfig.mk ["topic"]%string (Some 100000000) None None None None None in
  let item :=
    Reddit.mk "Test Post" "https://reddit.com/r/test/1" "test" (Some "2025-01-01")
      "This is a relevant finding with enough detail to pass the quality filter"
      100 [] in
  let report := Last30DaysReport.mk "topic" [item] [] [] in
  let ext config :=
    mkCollaborators (fun _ => inr config) (fun _ _ _ => ([Some report], []))
      (fun _ _ _ => None) (fun _ _ => "# raw"%string) in
  let options :=
    CliOptions.mk cmd_refresh "/config.json" "/cache" false false false None []
      "accepted" in
  let w := mkWorld (mkCacheDir Missing None Missing Missing) test_now in
  ExtractResult.findings
    (fst (getUnreviewedFindings None (snd (executeRefresh (ext config) options w))))
  = [finding_of "topic" (item_reddit item)]
  /\ fst (getUnreviewedFindings None (snd (executeRefresh (ext far) options w)))
     = ExtractResult.mk no_staged [].
Proof.
  intros config far item report ext options w.
  assert (G : forall c, CacheConfig.topics c <> [] -> refresh_gathers (ext c) options c w)
    by (intros c T; repeat split; try discriminate; [exact T|now right]).
  assert (Z : forall c, success_count (fst (gathered (ext c) options c)) <> 0%nat)
    by (intros c; vm_compute; discriminate).
  pose proof (executeRefresh_then_extract (ext config) options config None w
                (G config ltac:(discriminate)) (Z config)) as [E _].
  pose proof (executeRefresh_then_extract (ext far) options far None w
                (G far ltac:(discriminate)) (Z far)) as [_ F].
  cbv zeta in E, F. split.
  - destruct E as [E _]; [unfold valid_time; vm_compute; split; discriminate|].
    rewrite E. vm_compute. reflexivity.
  - rewrite F; [reflexivity|]. unfold valid_time. vm_compute. intros [_ H]. now apply H.
Defined.

(** ** Argument parsing *)

Lemma list_pair_ind {A : Type} (P : list A -> Prop) :
  P [] ->
  (forall a, P [a]) ->
  (forall a b l, P l -> P (b :: l) -> P (a :: b :: l)) ->
  forall l, P l.
Proof.
  intros N O S l. assert (H : P l /\ forall a, P (a :: l)); [|exact (proj1 H)].
  induction l as [|b l [IH1 IH2]]; [now split|].
  split; [apply IH2|]. intros a. apply S; [exact IH1|apply IH2].
Qed.

(** A property of the options that every assignment of the loop keeps,
    for arguments that satisfy [ok], holds when the loop ends. *)
Lemma parse_flags_invariant (Number : string -> JsNum)
    (ok : string -> Prop) (I : CliOptions.t -> Prop) :
  (forall arg assign next o,
     ok arg -> switch Number arg = case_value assign -> I o -> I (assign next o)) ->
  (forall arg assign o,
     ok arg -> switch Number arg = case_flag assign -> I o -> I (assign o)) ->
  forall args o o',
    Forall ok args -> I o -> parse_flags Number args o = Some o' -> I o'.
Proof.
  intros V F args. induction args as [| a | a b l IH1 IH2] using list_pair_ind;
    intros o o' A Io E; cbn [parse_flags] in E.
  - now injection E as <-.
  - apply Forall_cons_1 in A as [A _].
    destruct (switch Number a) as [|assign|assign] eqn:S; [discriminate| |];
      injection E as <-; eauto.
  - apply Forall_cons_1 in A as [A A'].
    destruct (switch Number a) as [|assign|assign] eqn:S; [discriminate| |].
    + apply Forall_cons_1 in A' as [_ A'']. apply (IH1 _ _ A'' (V _ _ _ _ A S Io) E).
    + apply (IH2 _ _ A' (F _ _ _ A S Io) E).
Qed.

(** The cases of the switch, for proofs by cases on the argument. *)
Ltac switch_cases S :=
  unfold switch in S;
  repeat match type of S with
         | (if ?c then _ else _) = _ => destruct c
         end;
  try discriminate S; injection S as <-.

Lemma split_comma_pieces (s p : string) :
  In p (split_comma s) -> comma_free p.
Proof.
  revert p. induction s as [|c s IH]; intros p; cbn [split_comma].
  - intros [<- | []]. intros [].
  - destruct (Ascii.eqb_spec c ","%char) as [->|N].
    + intros [<- | H]; [intros []|now apply IH].
    + destruct (split_comma s) as [|piece pieces] eqn:E.
      * intros [<- | []]. intros [H | []]. now apply N.
      * intros [<- | H]; [|apply IH; now right].
        intros [H | H]; [now apply N|]. revert H. apply IH. now left.
Qed.

Lemma truthy_spec (s : string) : truthy s = true <-> s <> EmptyString.
Proof. unfold truthy. now rewrite negb_true_iff, String.eqb_neq. Qed.

(** What [parseCliArgs] returns, in terms of the loop. *)
Lemma parseCliArgs_options
    (Number : string -> JsNum) (resolve : string -> string)
    (argv : list string) (options : CliOptions.t) :
  parseCliArgs Number resolve argv = Options options ->
  exists command rest c o,
    skipn 2 argv = command :: rest
    /\ command_of command = Some c
    /\ parse_flags Number rest
         (CliOptions.mk c EmptyString EmptyString false false false None []
            "accepted"%string) = Some o
    /\ options
       = CliOptions.mk (CliOptions.command o)
           (if truthy (CliOptions.configPath o)
            then resolve (CliOptions.configPath o) else CliOptions.configPath o)
           (if truthy (CliOptions.cacheDir o)
            then resolve (CliOptions.cacheDir o) else CliOptions.cacheDir o)
           (CliOptions.noSynthesize o) (CliOptions.force o) (CliOptions.verbose o)
           (CliOptions.days o) (CliOptions.hashes o) (CliOptions.decision o).
Proof.
  unfold parseCliArgs. destruct (skipn 2 argv) as [|command rest]; [discriminate|].
  destruct (_ || _); [discriminate|].
  destruct (command_of command) as [c|] eqn:C; [|discriminate].
  destruct (parse_flags _ _ _) as [o|] eqn:E; [|discriminate].
  intros H. injection H as <-. exists command, rest, c, o.
  split; [reflexivity|]. split; [exact C|]. split; [exact E|].
  destruct o as [? configPath cacheDir ? ? ? ? ? ?]. cbn [CliOptions.configPath].
  destruct (truthy configPath); cbn [set_configPath CliOptions.cacheDir];
    destruct (truthy cacheDir); reflexivity.
Qed.

(** X18.  Whatever the arguments, the lookback window that
    [parseCliArgs] returns, when it returns one, lies between 1 and 365
    days: a number is clamped, and a value that is no number gives the
    default of 7. *)
Theorem parseCliArgs_days
    (Number : string -> JsNum) (resolve : string -> string)
    (argv : list string) (options : CliOptions.t) (d : Z) :
  parseCliArgs Number resolve argv = Options options ->
  CliOptions.days options = Some d ->
  1 <= d <= 365.
Proof.
  intros H. apply parseCliArgs_options in H as (command & rest & c & o & _ & _ & E & ->).
  cbn [CliOptions.days CliOptions.hashes].
  assert (I : forall d, CliOptions.days o = Some d -> 1 <= d <= 365).
  { revert E. apply (parse_flags_invariant Number (fun _ => True)
                       (fun o => forall d, CliOptions.days o = Some d -> 1 <= d <= 365)).
    - intros arg assign next o0 _ S Io. switch_cases S; try exact Io.
      destruct next as [raw|]; [destruct (Number raw) as [n|]|];
        cbn [set_days CliOptions.days]; intros d0 D; injection D as <-;
        unfold CONFIG_DEFAULTS.days; lia.
    - intros arg assign o0 _ S Io. switch_cases S; exact Io.
    - apply Forall_forall. intros; exact Logic.I.
    - discriminate. }
  apply I.
Qed.

(** A table for [Number] on the texts of the examples. *)
Lemma parseCliArgs_days_witness :
  let Number raw :=
    if String.eqb raw "1000" then Some 1000
    else if String.eqb raw "0" then Some 0 else None in
  let options days :=
    CliOptions.mk cmd_refresh EmptyString EmptyString false false false (Some days) []
      "accepted" in
  parseCliArgs Number (fun p => p) ["bun"; "cli.ts"; "refresh"; "--days"; "1000"]%string
  = Options (options 365)
  /\ parseCliArgs Number (fun p => p) ["bun"; "cli.ts"; "refresh"; "--days"; "0"]%string
     = Options (options 1)
  /\ parseCliArgs Number (fun p => p) ["bun"; "cli.ts"; "refresh"; "--days"; "soon"]%string
     = Options (options 7)
  /\ parseCliArgs Number (fun p => p) ["bun"; "cli.ts"; "refresh"; "--days"]%string
     = Options (options 7)
  /\ 1 <= 365 <= 365.
Proof.
  intros Number options. repeat (split; [reflexivity|]).
  apply (parseCliArgs_days Number (fun p => p)
           ["bun"; "cli.ts"; "refresh"; "--days"; "1000"]%string (options 365) 365);
    reflexivity.
Defined.

(** X19.  Whatever the arguments, the fingerprints that [parseCliArgs]
    returns are the pieces between commas of what followed --hashes,
    without the empty ones: none of them is empty and none holds a
    comma. *)
Theorem parseCliArgs_hashes
    (Number : string -> JsNum) (resolve : string -> string)
    (argv : list string) (options : CliOptions.t) (h : string) :
  parseCliArgs Number resolve argv = Options options ->
  In h (CliOptions.hashes options) ->
  h <> EmptyString /\ comma_free h.
Proof.
  intros H. apply parseCliArgs_options in H as (command & rest & c & o & _ & _ & E & ->).
  cbn [CliOptions.days CliOptions.hashes].
  assert (I : forall h, In h (CliOptions.hashes o) -> h <> EmptyString /\ comma_free h).
  { revert E. apply (parse_flags_invariant Number (fun _ => True)
                       (fun o => forall h, In h (CliOptions.hashes o) ->
                                           h <> EmptyString /\ comma_free h)).
    - intros arg assign next o0 _ S Io. switch_cases S; try exact Io.
      + destruct next as [raw|]; [destruct (Number raw) as [n|]|]; exact Io.
      + cbn [set_hashes CliOptions.hashes]. intros h0 H0.
        apply filter_In in H0 as [P T]. split; [now apply truthy_spec|].
        now apply split_comma_pieces in P.
    - intros arg assign o0 _ S Io. switch_cases S; exact Io.
    - apply Forall_forall. intros; exact Logic.I.
    - intros h0 []. }
  apply I.
Qed.

Lemma parseCliArgs_hashes_witness :
  let options :=
    CliOptions.mk cmd_review EmptyString EmptyString false false false None
      ["a1"; "b2"]%string "accepted" in
  parseCliArgs (fun _ => None) (fun p => p)
    ["bun"; "cli.ts"; "review"; "--hashes"; ",a1,,b2,"]%string
  = Options options
  /\ ("a1"%string <> EmptyString /\ comma_free "a1").
Proof.
  intros options. split; [reflexivity|].
  apply (parseCliArgs_hashes (fun _ => None) (fun p => p)
           ["bun"; "cli.ts"; "review"; "--hashes"; ",a1,,b2,"]%string options "a1");
    [reflexivity|now left].
Defined.

Lemma comma_free_cons (c : ascii) (s : string) :
  comma_free (String c s) <-> c <> ","%char /\ comma_free s.
Proof.
  unfold comma_free. cbn [list_ascii_of_string In]. split.
  - intros H. split; intros K; apply H; [left; now symmetry|now right].
  - intros [N F] [K|K]; [now apply N|now apply F].
Qed.

Lemma split_comma_app (s t : string) :
  comma_free s ->
  split_comma (s ++ String ","%char t) = s :: split_comma t.
Proof.
  induction s as [|c s IH]; intros F.
  - change (EmptyString ++ String ","%char t)%string with (String ","%char t).
    cbn [split_comma]. now rewrite Ascii.eqb_refl.
  - apply comma_free_cons in F as [N F].
    change (String c s ++ String ","%char t)%string
      with (String c (s ++ String ","%char t)).
    cbn [split_comma]. rewrite (proj2 (Ascii.eqb_neq _ _) N), (IH F). reflexivity.
Qed.

Lemma split_comma_whole (s : string) : comma_free s -> split_comma s = [s].
Proof.
  induction s as [|c s IH]; intros F; [reflexivity|].
  apply comma_free_cons in F as [N F].
  cbn [split_comma]. rewrite (proj2 (Ascii.eqb_neq _ _) N), (IH F). reflexivity.
Qed.

(** Splitting at the commas what was joined with commas. *)
Lemma split_comma_concat (hs : list string) :
  Forall (fun h => h <> EmptyString /\ comma_free h) hs ->
  List.filter truthy (split_comma (String.concat "," hs)) = hs.
Proof.
  induction 1 as [|h hs [N F] H IH]; [reflexivity|].
  cbn [String.concat]. destruct hs as [|h' hs].
  - rewrite (split_comma_whole _ F). cbn [List.filter].
    now rewrite (proj2 (truthy_spec h) N).
  - change ("," ++ String.concat "," (h' :: hs))%string
      with (String ","%char (String.concat "," (h' :: hs))).
    rewrite (split_comma_app _ _ F). cbn [List.filter].
    rewrite (proj2 (truthy_spec h) N). now rewrite IH.
Qed.

(** X20.  The command line of the review command reads back: with the
    fingerprints joined by commas after --hashes, [parseCliArgs] returns
    these fingerprints in their order, the text after --decision as it
    is, and the resolved cache directory.  What follows a flag is taken as
    its value whatever it looks like. *)
Theorem parseCliArgs_review_line
    (Number : string -> JsNum) (resolve : string -> string)
    (runtime script cacheDir decision : string) (hashes : list string) :
  Forall (fun h => h <> EmptyString /\ comma_free h) hashes ->
  parseCliArgs Number resolve
    [ runtime; script; "review"; "--cache-dir"; cacheDir;
      "--hashes"; String.concat "," hashes; "--decision"; decision ]%string
  = Options
      (CliOptions.mk cmd_review EmptyString
         (if truthy cacheDir then resolve cacheDir else cacheDir)
         false false false None hashes decision).
Proof.
  intros H. unfold parseCliArgs.
  cbn [skipn String.eqb Ascii.eqb Bool.eqb orb command_of parse_flags switch
       nullish set_cacheDir set_hashes set_decision
       CliOptions.command CliOptions.configPath CliOptions.cacheDir
       CliOptions.noSynthesize CliOptions.force CliOptions.verbose
       CliOptions.days CliOptions.hashes CliOptions.decision truthy negb].
  rewrite (split_comma_concat _ H).
  now destruct (truthy cacheDir).
Qed.

Lemma parseCliArgs_review_line_witness :
  parseCliArgs (fun _ => None) (fun p => ("/work/" ++ p)%string)
    ["bun"; "cli.ts"; "review"; "--cache-dir"; "cache";
     "--hashes"; "a1,b2"; "--decision"; "rejected"]%string
  = Options
      (CliOptions.mk cmd_review EmptyString "/work/cache" false false false None
         ["a1"; "b2"]%string "rejected").
Proof.
  apply (parseCliArgs_review_line (fun _ => None) (fun p => ("/work/" ++ p)%string)
           "bun" "cli.ts" "cache" "rejected" ["a1"; "b2"]%string).
  repeat constructor; try discriminate; unfold comma_free; cbn;
    intros H; repeat (destruct H as [H|H]; [discriminate H|]); exact H.
Defined.

(** X21.  Without a --cache-dir among its arguments no command touches
    the cache directory: whatever else the arguments are, [main] leaves
    every file as it was. *)
Theorem main_without_cache_dir
    (Number : string -> JsNum) (resolve : string -> string)
    (ext : Collaborators) (argv : list string) (w : World) :
  ~ In "--cache-dir"%string argv ->
  snd (main Number resolve ext argv w) = w.
Proof.
  intros N. unfold main.
  destruct (parseCliArgs Number resolve argv) as [options| |] eqn:P; try reflexivity.
  apply parseCliArgs_options in P as (command & rest & c & o & A & _ & E & ->).
  assert (D : CliOptions.cacheDir o = EmptyString).
  { revert E. apply (parse_flags_invariant Number (fun arg => arg <> "--cache-dir"%string)
                       (fun o => CliOptions.cacheDir o = EmptyString)).
    - intros arg assign next o0 K S Io.
      unfold switch in S.
      destruct (_ || _); [discriminate S|].
      destruct (String.eqb arg "--config"); [injection S as <-; exact Io|].
      destruct (String.eqb_spec arg "--cache-dir") as [X|X]; [contradiction|].
      switch_cases S; try exact Io.
      destruct next as [raw|]; [destruct (Number raw) as [n|]|]; exact Io.
    - intros arg assign o0 _ S Io. switch_cases S; exact Io.
    - apply Forall_forall. intros arg I ->. apply N.
      apply list_elem_of_In in I.
      assert (S : In "--cache-dir"%string (skipn 2 argv)) by (rewrite A; now right).
      revert S. clear. destruct argv as [|a [|b l]]; cbn; tauto.
    - reflexivity. }
  cbn [CliOptions.command CliOptions.cacheDir]. rewrite D. cbn [truthy String.eqb negb].
  destruct (CliOptions.command o); rewrite bind_run; cbn [ret snd]; try reflexivity.
  unfold executeRefresh. cbn [CliOptions.configPath CliOptions.cacheDir].
  destruct (String.eqb _ EmptyString); reflexivity.
Qed.

Lemma main_without_cache_dir_witness :
  let ext :=
    mkCollaborators (fun _ => inl "ENOENT"%string) (fun _ _ _ => ([], []))
      (fun _ _ _ => None) (fun _ _ => EmptyString) in
  let w := test_dir (Holds (Some (test_metadata test_now (test_now + 86400000)))) true in
  fst (main (fun _ => None) (fun p => p) ext ["bun"; "cli.ts"; "reset"]%string w)
  = Reset_output (Exited "--cache-dir is required for reset"%string)
  /\ snd (main (fun _ => None) (fun p => p) ext ["bun"; "cli.ts"; "reset"]%string w) = w.
Proof.
  intros ext w. split; [reflexivity|].
  apply (main_without_cache_dir (fun _ => None) (fun p => p) ext
           ["bun"; "cli.ts"; "reset"]%string w).
  cbn. intros H. repeat (destruct H as [H|H]; [discriminate H|]). exact H.
Defined.

(** ** Further edge behaviour *)

(** X22.  A ledger file that is absent or does not parse counts as an empty
    ledger: the query for unreviewed findings reports every extracted
    finding, and a review that is recorded then starts the ledger anew, at
    version 1, with the entries of its batch only. *)
Theorem unreadable_ledger_counts_as_empty
    (thresholds : option QualityFilterOptions.t) (options : CliOptions.t) (w : World) :
  reviewed_hashes_json (dir w) = Unparsable \/ reviewed_hashes_json (dir w) = Missing ->
  ExtractResult.findings (fst (getUnreviewedFindings thresholds w))
  = match staged_raw_json (dir w) with
    | Missing => []
    | _ => extractFindings (staged_reports w) thresholds
    end
  /\ (CliOptions.cacheDir options <> EmptyString ->
      CliOptions.hashes options <> [] ->
      CliOptions.decision options = "accepted"%string
      \/ CliOptions.decision options = "rejected"%string ->
      reviewed_hashes_json (dir (snd (executeReview options w)))
      = Holds (ReviewedHashes.mk 1
                 (map (fun h =>
                         ReviewedEntry.mk h (CliOptions.decision options)
                           (toISOString (clock w)))
                    (CliOptions.hashes options)))).
Proof.
  intros U.
  assert (L : ledger w = []) by (unfold ledger; now destruct U as [-> | ->]).
  split.
  - rewrite unreviewed_findings.
    assert (K : forall l : list Finding.t, List.filter (is_unreviewed w) l = l).
    { intros l. induction l as [|f l IH]; [reflexivity|].
      cbn [List.filter]. unfold is_unreviewed at 1. rewrite L. cbn [fingerprints map].
      rewrite bool_decide_eq_false_2 by apply not_elem_of_nil.
      cbn [negb]. now rewrite IH. }
    now rewrite K.
  - intros C H D. rewrite (executeReview_run options w C H D).
    cbn [snd dir reviewed_hashes_json]. rewrite L. cbn [List.filter app].
    now destruct U as [-> | ->].
Qed.

Lemma unreadable_ledger_counts_as_empty_witness :
  let item :=
    Reddit.mk "Test Post" "https://reddit.com/r/test/1" "test" (Some "2025-01-01")
      "This is a relevant finding with enough detail to pass the quality filter"
      100 [] in
  let reports := [ Last30DaysReport.mk "test-topic" [item] [] [] ]%string in
  let w := mkWorld (mkCacheDir Missing None (Holds reports) Unparsable) test_now in
  let options :=
    CliOptions.mk cmd_review EmptyString "/cache" false false false None
      ["h1"]%string "accepted" in
  ExtractResult.findings (fst (getUnreviewedFindings None w))
  = extractFindings reports None
  /\ reviewed_hashes_json (dir (snd (executeReview options w)))
     = Holds (ReviewedHashes.mk 1
                [ReviewedEntry.mk "h1" "accepted" "2026-01-01T00:00:00.000Z"]).
Proof.
  intros item reports w options.
  pose proof (unreadable_ledger_counts_as_empty None options w) as [E R]; [now left|].
  split; [exact E|].
  rewrite R; [vm_compute; reflexivity | discriminate | discriminate | now left].
Defined.

(** X23.  With a thin interval that is no longer than the full one, more
    queries that succeed never give a shorter interval, and, with a run
    that is no earlier, never an earlier deadline: whenever both
    deadlines are times a Date can hold, [calculateNextUpdate] returns
    them, the first no later than the second, and two deadlines that it
    returns as dates are always in that order. *)
Theorem calculateNextUpdate_monotone
    (s1 s2 totalTopics : nat) (config : CacheConfig.t) (now1 now2 : Z) :
  thin_interval config <= full_interval config ->
  (s1 <= s2)%nat ->
  now1 <= now2 ->
  let deadline1 := now1 + getIntervalDays s1 totalTopics config * ms_per_day in
  let deadline2 := now2 + getIntervalDays s2 totalTopics config * ms_per_day in
  getIntervalDays s1 totalTopics config <= getIntervalDays s2 totalTopics config
  /\ (valid_time deadline1 -> valid_time deadline2 ->
      calculateNextUpdate s1 totalTopics config (Some now1) = Some deadline1
      /\ calculateNextUpdate s2 totalTopics config (Some now2) = Some deadline2
      /\ deadline1 <= deadline2)
  /\ (forall t1 t2,
        calculateNextUpdate s1 totalTopics config (Some now1) = Some t1 ->
        calculateNextUpdate s2 totalTopics config (Some now2) = Some t2 ->
        t1 <= t2).
Proof.
  intros T S N. cbv zeta.
  assert (I : getIntervalDays s1 totalTopics config
              <= getIntervalDays s2 totalTopics config).
  { rewrite !getIntervalDays_cases.
    destruct (below_half s1 totalTopics) eqn:B1, (below_half s2 totalTopics) eqn:B2;
      try lia.
    apply below_half_spec in B2.
    assert (B : below_half s1 totalTopics = true) by (apply below_half_spec; lia).
    congruence. }
  assert (D : now1 + getIntervalDays s1 totalTopics config * ms_per_day
              <= now2 + getIntervalDays s2 totalTopics config * ms_per_day)
    by (unfold ms_per_day; lia).
  split; [exact I|]. split.
  - intros V1 V2. rewrite !calculateNextUpdate_interval.
    now rewrite (timeClip_valid _ V1), (timeClip_valid _ V2).
  - intros t1 t2. rewrite !calculateNextUpdate_interval. unfold timeClip.
    destruct (Z.abs _ <=? maxTime); [|discriminate].
    destruct (Z.abs _ <=? maxTime); [|discriminate].
    intros E1 E2. injection E1 as <-. injection E2 as <-. exact D.
Qed.

Lemma calculateNextUpdate_monotone_witness :
  let config := CacheConfig.mk ["a"; "b"; "c"; "d"]%string None None None None None None in
  getIntervalDays 1 4 config = 7
  /\ getIntervalDays 2 4 config = 30
  /\ calculateNextUpdate 1 4 config (Some test_now) = Some (test_now + 7 * ms_per_day)
  /\ calculateNextUpdate 2 4 config (Some test_now) = Some (test_now + 30 * ms_per_day)
  /\ test_now + 7 * ms_per_day <= test_now + 30 * ms_per_day.
Proof.
  intros config. split; [reflexivity|]. split; [reflexivity|].
  assert (T : thin_interval config <= full_interval config) by (vm_compute; discriminate).
  pose proof (calculateNextUpdate_monotone 1 2 4 config test_now test_now T
                ltac:(lia) ltac:(lia)) as (_ & M & _).
  apply M; unfold valid_time; vm_compute; split; discriminate.
Defined.

(** Metadata that is absent or corrupt is not fresh, and neither is a
    cache whose deadline is a text that is no date.  A deadline written
    without milliseconds is a date, and such a cache is fresh. *)
Lemma isCacheFresh_fail_safe_witness :
  let cache next_update_after :=
    mkWorld
      (mkCacheDir
         (Holds (Some (CacheMetadata.mk (VString "2025-12-31T00:00:00.000Z")
                         ["topic"]%string (VString next_update_after))))
         (Some "# intel"%string) Missing Missing)
      test_now in
  fst (isCacheFresh (test_dir Unparsable true)) = false
  /\ fst (isCacheFresh (test_dir Missing true)) = false
  /\ fst (isCacheFresh (cache "next week")) = false
  /\ fst (isCacheFresh (cache "2099-01-01T00:00:00Z")) = true.
Proof.
  intros cache.
  split; [apply isCacheFresh_fail_safe; right; left; reflexivity|].
  split; [apply isCacheFresh_fail_safe; left; reflexivity|].
  split; [|vm_compute; reflexivity].
  apply isCacheFresh_fail_safe. right. right. right. right.
  eexists. split; [reflexivity|]. vm_compute. reflexivity.
Defined.

(** X26.  The review and extract commands, from the command line: a
    review line with fingerprints joined by commas is recorded, with one
    entry counted per fingerprint, and an extract line that follows
    reports no finding whose fingerprint was in the batch. *)
Theorem main_review_then_extract
    (Number : string -> JsNum) (resolve : string -> string) (ext : Collaborators)
    (runtime script cacheDir decision : string) (hashes : list string) (w : World) :
  cacheDir <> EmptyString ->
  resolve cacheDir <> EmptyString ->
  hashes <> [] ->
  Forall (fun h => h <> EmptyString /\ comma_free h) hashes ->
  decision = "accepted"%string \/ decision = "rejected"%string ->
  let review :=
    [ runtime; script; "review"; "--cache-dir"; cacheDir;
      "--hashes"; String.concat "," hashes; "--decision"; decision ]%string in
  let extract := [ runtime; script; "extract"; "--cache-dir"; cacheDir ]%string in
  let w' := snd (main Number resolve ext review w) in
  fst (main Number resolve ext review w)
  = Review_output (Returned (ReviewReport.mk "recorded" (length hashes) decision))
  /\ exists result,
       fst (main Number resolve ext extract w') = Extract_output (Returned result)
       /\ forall f, In f (ExtractResult.findings result) ->
                    ~ In (Finding.hash f) hashes.
Proof.
  intros C R H F D review extract.
  set (options :=
         CliOptions.mk cmd_review EmptyString (resolve cacheDir) false false false None
           hashes decision).
  assert (P : parseCliArgs Number resolve review = Options options).
  { unfold parseCliArgs, review.
    cbn [skipn String.eqb Ascii.eqb Bool.eqb orb command_of parse_flags switch
         nullish set_cacheDir set_hashes set_decision
         CliOptions.command CliOptions.configPath CliOptions.cacheDir
         CliOptions.noSynthesize CliOptions.force CliOptions.verbose
         CliOptions.days CliOptions.hashes CliOptions.decision truthy negb].
    rewrite (split_comma_concat _ F), (proj2 (truthy_spec cacheDir) C). reflexivity. }
  assert (Q : parseCliArgs Number resolve extract
              = Options (CliOptions.mk cmd_extract EmptyString (resolve cacheDir)
                           false false false None [] "accepted"%string)).
  { unfold parseCliArgs, extract.
    cbn [skipn String.eqb Ascii.eqb Bool.eqb orb command_of parse_flags switch
         nullish set_cacheDir
         CliOptions.command CliOptions.configPath CliOptions.cacheDir
         CliOptions.noSynthesize CliOptions.force CliOptions.verbose
         CliOptions.days CliOptions.hashes CliOptions.decision truthy negb].
    rewrite (proj2 (truthy_spec cacheDir) C). reflexivity. }
  assert (E : executeReview options w
              = (Returned (ReviewReport.mk "recorded" (length hashes) decision),
                 snd (executeReview options w)))
    by (rewrite (executeReview_run options w R H D); reflexivity).
  assert (W : main Number resolve ext review w
              = (Review_output
                   (Returned (ReviewReport.mk "recorded" (length hashes) decision)),
                 snd (executeReview options w))).
  { unfold main. rewrite P. change (CliOptions.command options) with cmd_review.
    cbv iota. rewrite bind_run, E. reflexivity. }
  cbv zeta. rewrite W. cbn [fst snd]. split; [reflexivity|].
  unfold main. rewrite Q. cbn [CliOptions.command CliOptions.cacheDir].
  rewrite bind_run. unfold executeExtract. rewrite (eqb_empty_false _ R), bind_run.
  cbn [ret fst snd]. eexists. split; [reflexivity|].
  intros f I. rewrite unreviewed_findings in I.
  assert (K : In f (List.filter (is_unreviewed (snd (executeReview options w)))
                      (extractFindings (staged_reports (snd (executeReview options w)))
                         None))).
  { destruct (staged_raw_json (dir (snd (executeReview options w)))); [destruct I| |];
      exact I. }
  apply filter_In in K as [_ K]. apply is_unreviewed_spec in K.
  intros B. apply K. apply list_elem_of_In.
  rewrite (executeReview_run options w R H D). cbn [snd]. unfold ledger at 1.
  cbn [dir reviewed_hashes_json ReviewedHashes.reviewed].
  apply fingerprints_after_review. now right.
Qed.

Lemma main_review_then_extract_witness :
  let item :=
    Reddit.mk "Test Post" "https://reddit.com/r/test/1" "test" (Some "2025-01-01")
      "This is a relevant finding with enough detail to pass the quality filter"
      100 [] in
  let reports := [ Last30DaysReport.mk "test-topic" [item] [] [] ]%string in
  let w := mkWorld (mkCacheDir Missing None (Holds reports) Missing) test_now in
  let ext :=
    mkCollaborators (fun _ => inl "ENOENT"%string) (fun _ _ _ => ([], []))
      (fun _ _ _ => None) (fun _ _ => EmptyString) in
  let run argv := main (fun _ => None) (fun p => ("/work/" ++ p)%string) ext argv in
  fst (run ["bun"; "cli.ts"; "review"; "--cache-dir"; "cache"; "--hashes"; "h1,h2";
            "--decision"; "rejected"]%string w)
  = Review_output (Returned (ReviewReport.mk "recorded" 2 "rejected")).
Proof.
  intros item reports w ext run.
  apply (main_review_then_extract (fun _ => None) (fun p => ("/work/" ++ p)%string) ext
           "bun" "cli.ts" "cache" "rejected" ["h1"; "h2"]%string w);
    try discriminate; [|now right].
  repeat constructor; try discriminate; unfold comma_free; cbn;
    intros H; repeat (destruct H as [H|H]; [discriminate H|]); exact H.
Defined.

(** X27.  The refresh command, from [main], when the deadline is beyond
    what a Date can hold: the RangeError of [nextUpdate.toISOString()] is
    caught, and [main] prints a status [failed] whose only diagnostic has
    the topic main and the reason fatal: followed by the text of the
    error; the diagnostics of the gathering run are not in it, and no
    file is changed. *)
Theorem main_refresh_beyond_range
    (Number : string -> JsNum) (resolve : string -> string) (ext : Collaborators)
    (argv : list string) (options : CliOptions.t) (config : CacheConfig.t) (w : World) :
  parseCliArgs Number resolve argv = Options options ->
  CliOptions.command options = cmd_refresh ->
  refresh_gathers ext options config w ->
  success_count (fst (gathered ext options config)) <> 0%nat ->
  ~ valid_time
      (clock w
       + getIntervalDays (success_count (fst (gathered ext options config)))
           (length (CacheConfig.topics config)) config * ms_per_day) ->
  main Number resolve ext argv w
  = (Refresh_output
       (StatusReport.mk failed None
          (Some [ QueryError.mk "main" ("fatal: " ++ invalid_time_text (engine w)) None ])),
     w).
Proof.
  intros P C G Z V. unfold main. rewrite P, C, bind_run.
  rewrite (executeRefresh_raises ext options config w G Z V). cbn [fst snd].
  rewrite bind_run. reflexivity.
Qed.

(** A refresh under a configuration of a hundred million days between
    refreshes, on an engine whose text for the error is the one of
    JavaScriptCore. *)
Lemma main_refresh_beyond_range_witness :
  let config := CacheConfig.mk ["topic"]%string (Some 100000000) None None None None None in
  let item :=
    Reddit.mk "Post" "https://reddit.com/r/test/1" "test" None "Relevant" 50 [] in
  let report := Last30DaysReport.mk "topic" [item] [] [] in
  let ext :=
    mkCollaborators (fun _ => inr config) (fun _ _ _ => ([Some report], []))
      (fun _ _ _ => None) (fun _ _ => "# raw"%string) in
  let argv :=
    [ "bun"; "cli.ts"; "refresh"; "--config"; "/config.json"; "--cache-dir"; "/cache" ]%string in
  let w := mkWorld (mkCacheDir Missing None Missing Missing) test_now in
  main (fun _ => None) (fun p => p) ext argv w
  = (Refresh_output
       (StatusReport.mk failed None
          (Some [ QueryError.mk "main" "fatal: RangeError: Invalid Date" None ])),
     w).
Proof.
  intros config item report ext argv w.
  set (options :=
         CliOptions.mk cmd_refresh "/config.json" "/cache" false false false None []
           "accepted").
  apply (main_refresh_beyond_range (fun _ => None) (fun p => p) ext argv options config w).
  - reflexivity.
  - reflexivity.
  - repeat split; try discriminate. now right.
  - vm_compute. discriminate.
  - unfold valid_time. vm_compute. intros [_ H]. now apply H.
Defined.
(** ** The repository's tests, replayed on the embedding *)

Example test_no_metadata : fst (isCacheFresh (test_dir Missing false)) = false.
Proof. reflexivity. Qed.

Example test_metadata_without_intel :
  fst (isCacheFresh
         (test_dir (Holds (Some (test_metadata test_now (test_now + 86400000)))) false))
  = false.
Proof. vm_compute. reflexivity. Qed.

Example test_fresh :
  fst (isCacheFresh
         (test_dir (Holds (Some (test_metadata test_now (test_now + 86400000)))) true))
  = true.
Proof. vm_compute. reflexivity. Qed.

Example test_deadline_passed :
  fst (isCacheFresh
         (test_dir (Holds (Some (test_metadata (test_now - 86400000 * 31)
                                   (test_now - 1000)))) true))
  = false.
Proof. vm_compute. reflexivity. Qed.

Example test_older_than_max_age :
  fst (isCacheFresh
         (test_dir (Holds (Some (test_metadata (test_now - 86400000 * 61)
                                   (test_now + 86400000)))) true))
  = false.
Proof. vm_compute. reflexivity. Qed.

Example test_sixty_days_old_is_fresh :
  fst (isCacheFresh
         (test_dir (Holds (Some (test_metadata (test_now - 86400000 * 60)
                                   (test_now + 1)))) true))
  = true.
Proof. vm_compute. reflexivity. Qed.

Example test_corrupt_metadata : fst (isCacheFresh (test_dir Unparsable true)) = false.
Proof. reflexivity. Qed.

Example test_interval_three_of_four :
  getIntervalDays 3 4
    (CacheConfig.mk ["a"; "b"; "c"; "d"]%string (Some 30) (Some 7) None None None None)
  = 30.
Proof. vm_compute. reflexivity. Qed.

Example test_interval_one_of_four :
  getIntervalDays 1 4
    (CacheConfig.mk ["a"; "b"; "c"; "d"]%string (Some 30) (Some 7) None None None None)
  = 7.
Proof. vm_compute. reflexivity. Qed.

Example test_default_interval :
  Date_toISOString
    (calculateNextUpdate 2 2
       (CacheConfig.mk ["a"; "b"]%string None None None None None None) (Some test_now))
  = Done "2026-01-31T00:00:00.000Z"%string.
Proof. vm_compute. reflexivity. Qed.

Example test_hash_is_hex :
  computeFindingHash "https://example.com"
  = "100680ad546ce6a577f42f52df33b4cfdca756859e664b8d7de329b150d09ce9"%string.
Proof. vm_compute. reflexivity. Qed.

Example test_hashes_differ :
  String.eqb (computeFindingHash "https://reddit.com/r/test/1")
             (computeFindingHash "https://reddit.com/r/test/2") = false.
Proof. vm_compute. reflexivity. Qed.

Example test_long_x_text_truncated :
  map Finding.title
    (extractFindings
       [ Last30DaysReport.mk "test" []
           [ X.mk (repeat_char "A" 200) "https://x.com/test/1" "test" None "test" 1 ]
           [] ]%string
       (Some (QualityFilterOptions.mk (Some 0) (Some 0))))
  = [ (repeat_char "A" 120 ++ "...")%string ].
Proof. vm_compute. reflexivity. Qed.

Example test_dedup_sees_filtered_only :
  let item score :=
    Reddit.mk "Test Post" "https://reddit.com/r/test/same" "test" (Some "2025-01-01")
      "This is a relevant finding with enough detail to pass the quality filter"
      score [] in
  map (fun f => (Finding.topic f, Finding.score f))
    (extractFindings
       [ Last30DaysReport.mk "test-topic" [item 1] [] [];
         Last30DaysReport.mk "topic-2" [item 100] [] [] ]%string None)
  = [ ("topic-2"%string, 100) ].
Proof. vm_compute. reflexivity. Qed.

Example test_all_reviewed :
  let item :=
    Reddit.mk "Test Post" "https://reddit.com/r/test/1" "test" (Some "2025-01-01")
      "This is a relevant finding with enough detail to pass the quality filter"
      100 [] in
  let reviewed :=
    ReviewedHashes.mk 1
      [ ReviewedEntry.mk (computeFindingHash "https://reddit.com/r/test/1")
          "rejected" "2026-01-01" ]%string in
  fst (getUnreviewedFindings None
         (mkWorld
            (mkCacheDir Missing None
               (Holds [ Last30DaysReport.mk "test-topic" [item] [] [] ]%string)
               (Holds reviewed))
            test_now))
  = ExtractResult.mk no_new [].
Proof. vm_compute. reflexivity. Qed.

Example test_date_only_last_updated_ages :
  let cache last_updated :=
    mkWorld
      (mkCacheDir
         (Holds (Some (CacheMetadata.mk (VString last_updated) ["topic"]%string
                         (VString "2099-01-01T00:00:00Z"))))
         (Some "# intel"%string) Missing Missing)
      test_now in
  fst (isCacheFresh (cache "2025-01-01")) = false
  /\ fst (isCacheFresh (cache "2025-12-01")) = true
  /\ fst (isCacheFresh (cache "2025-12-01T10:30+05:30")) = true.
Proof. repeat split; vm_compute; reflexivity. Qed.

Example test_deadline_beyond_range_raises :
  Date_toISOString
    (calculateNextUpdate 1 1
       (CacheConfig.mk ["a"]%string (Some 100000000) None None None None None)
       (Some test_now))
  = Raised RangeError_invalid_time.
Proof. vm_compute. reflexivity. Qed.
